(** * LexAI: document upload, retrieval and deletion pipelines

    A shallow embedding of the two FastAPI applications of the repository:

    - [Main]  embeds [src/main.py] with [src/models.py]
      (advocates, clients, cases, documents, the advocate/case association);
    - [LexAI] embeds [src/LexAI/main.py] with [src/LexAI/models.py] and
      [src/LexAI/utils/s3_utils.py] (users, cases, file metadata with a
      soft-delete flag).

    Request handlers are programs in a state-and-exception monad over a
    [World]: the relational store, the S3 bucket, the stream of the uploaded
    file and a trace of the externally visible effects.  Everything the
    handlers cannot decide themselves (the UUID parser and generator of the
    Python runtime, the clock, whether S3 or the database accept a call) is
    read from an environment record [Env]. *)

From Stdlib Require Import ZArith NArith Ascii String List Lia.
From stdpp Require Import base option list gmap strings fin_maps.
From Equations Require Import Equations.
From Equations.Prop Require Import Logic.

Local Open Scope string_scope.
Local Open Scope Z_scope.

(* ===================================================================== *)
(** ** Python strings *)
(* ===================================================================== *)

Module PyStr.

(** [s[n:]] *)
Fixpoint drop (n : nat) (s : string) : string :=
  match n, s with
  | O, _ => s
  | S n', String _ s' => drop n' s'
  | S _, EmptyString => EmptyString
  end.

(** [s.rfind(c)], [None] for [-1]. *)
Fixpoint rfind (c : ascii) (s : string) : option nat :=
  match s with
  | EmptyString => None
  | String a s' =>
      match rfind c s' with
      | Some i => Some (S i)
      | None => if Ascii.eqb a c then Some O else None
      end
  end.

(** [s.split(c)] *)
Fixpoint split (c : ascii) (s : string) : list string :=
  match s with
  | EmptyString => [EmptyString]
  | String a s' =>
      if Ascii.eqb a c then EmptyString :: split c s'
      else match split c s' with
           | h :: t => String a h :: t
           | [] => [String a EmptyString]
           end
  end.

(** [c in s] *)
Fixpoint contains (c : ascii) (s : string) : bool :=
  match s with
  | EmptyString => false
  | String a s' => Ascii.eqb a c || contains c s'
  end.

Definition lower_ascii (a : ascii) : ascii :=
  let n := nat_of_ascii a in
  if (65 <=? n)%nat && (n <=? 90)%nat then ascii_of_nat (n + 32) else a.

(** [s.lower()] on ASCII text. *)
Fixpoint lower (s : string) : string :=
  match s with
  | EmptyString => EmptyString
  | String a s' => String (lower_ascii a) (lower s')
  end.

Definition hex_char (d : N) : ascii :=
  match d with
  | 0 => "0" | 1 => "1" | 2 => "2" | 3 => "3" | 4 => "4" | 5 => "5"
  | 6 => "6" | 7 => "7" | 8 => "8" | 9 => "9" | 10 => "a" | 11 => "b"
  | 12 => "c" | 13 => "d" | 14 => "e" | _ => "f"
  end%N%char.

(** ['%0wx' % (n mod 16^w)], most significant digit first. *)
Fixpoint hex_acc (w : nat) (n : N) (acc : string) : string :=
  match w with
  | O => acc
  | S w' => hex_acc w' (n / 16)%N (String (hex_char (n mod 16)%N) acc)
  end.

Definition hex (w : nat) (n : N) : string := hex_acc w n EmptyString.

End PyStr.

(** [pathlib.PurePosixPath(p).name]: the last path component that is
    neither empty nor ["."], and [""] when there is none. *)
Definition path_name (p : string) : string :=
  List.last
    (List.filter (fun x => negb (String.eqb x "") && negb (String.eqb x "."))
                 (PyStr.split "/" p))
    "".

(** [pathlib.PurePosixPath(p).suffix]: with [i = name.rfind('.')], the
    slice [name[i:]] when [0 < i < len(name) - 1], and [""] otherwise. *)
Definition path_suffix (p : string) : string :=
  let name := path_name p in
  match PyStr.rfind "." name with
  | Some i =>
      if (0 <? i)%nat && (i <? String.length name - 1)%nat
      then PyStr.drop i name else ""
  | None => ""
  end.

(** [str(u)] for a [uuid.UUID] with integer value [u]:
    ['%08x-%04x-%04x-%04x-%012x'] over the 128 bits, high bits first. *)
Definition uuid_str (u : N) : string :=
  PyStr.hex 8 (N.shiftr u 96) +:+ "-" +:+
  PyStr.hex 4 (N.shiftr u 80) +:+ "-" +:+
  PyStr.hex 4 (N.shiftr u 64) +:+ "-" +:+
  PyStr.hex 4 (N.shiftr u 48) +:+ "-" +:+
  PyStr.hex 12 u.

(** [u.hex]: the 32 hexadecimal digits of the 128 bits, without dashes. *)
Definition uuid_hex (u : N) : string := PyStr.hex 32 u.

(* ===================================================================== *)
(** ** Exceptions and the handler monad *)
(* ===================================================================== *)

(** The exceptions the handlers raise or receive.  [detail] keeps
    [str(e)] symbolic, so that no rendering of an exception is assumed. *)
Inductive exn : Type :=
| HTTPException (status_code : Z) (detail : detail)
| ValueError                      (* uuid.UUID on malformed text *)
| StorageFault                    (* any exception out of the S3 client *)
| DatabaseFault                   (* any exception out of the session *)
with detail : Type :=
| Lit (s : string)
| Joined (prefix : string) (items : list string)   (* prefix + a rendered set *)
| StrOf (e : exn).

(** [isinstance(e, ValueError)] *)
Definition is_ValueError (e : exn) : bool :=
  match e with ValueError => true | _ => false end.

Inductive outcome (A : Type) : Type :=
| Return (a : A)
| Raise (e : exn).
Arguments Return {A} a.
Arguments Raise {A} e.

(** The status line the framework answers with: the status of an
    [HTTPException], 500 for any other exception, 200 for a returned value. *)
Definition http_status {A} (o : outcome A) : Z :=
  match o with
  | Return _ => 200
  | Raise (HTTPException c _) => c
  | Raise _ => 500
  end.

Definition M (S A : Type) : Type := S -> outcome A * S.

#[global] Instance M_ret {S} : MRet (M S) := fun A a s => (Return a, s).
#[global] Instance M_bind {S} : MBind (M S) := fun A B k m s =>
  match m s with
  | (Return a, s') => k a s'
  | (Raise e, s') => (Raise e, s')
  end.

Definition raise {S A} (e : exn) : M S A := fun s => (Raise e, s).
Definition get_state {S} : M S S := fun s => (Return s, s).
Definition modify {S} (f : S -> S) : M S unit := fun s => (Return tt, f s).

(** [try: body / except ...: handler e]; a handler that matches no clause
    re-raises. *)
Definition try_except {S A} (body : M S A) (handler : exn -> M S A) : M S A :=
  fun s =>
    match body s with
    | (Return a, s') => (Return a, s')
    | (Raise e, s') => handler e s'
    end.

(** [try: body / finally: cleanup] *)
Definition try_finally {S A} (body : M S A) (cleanup : M S unit) : M S A :=
  fun s =>
    match body s with
    | (o, s') =>
        match cleanup s' with
        | (Return _, s'') => (o, s'')
        | (Raise e, s'') => (Raise e, s'')
        end
    end.

(* ===================================================================== *)
(** ** The world of a request *)
(* ===================================================================== *)

(** [fastapi.UploadFile] over a seekable spooled file. *)
Record UploadFile : Type := mkUploadFile {
  filename : string;
  content : list Byte.byte;
  pos : nat;
  closed : bool
}.

Definition set_pos (n : nat) (f : UploadFile) : UploadFile :=
  {| filename := filename f; content := content f; pos := n; closed := closed f |}.

Definition set_closed (f : UploadFile) : UploadFile :=
  {| filename := filename f; content := content f; pos := pos f; closed := true |}.

(** [file.read(n)]: at most [n] bytes from the current position. *)
Definition read (n : nat) (f : UploadFile) : list Byte.byte * UploadFile :=
  let chunk := take n (drop (pos f) (content f)) in
  (chunk, set_pos (pos f + length chunk) f).

(** Externally visible effects, in the order they happen. *)
Inductive event : Type :=
| LogError (msg : string)
| LogInfo (msg : string)
| S3Upload (key : string) (ok : bool)
| S3Delete (key : string) (ok : bool)
| S3Presign (key : string) (ok : bool)
| DbCommit (ok : bool)
| DbRollback
| FileClose.

Record World (DB : Type) : Type := mkWorld {
  db : DB;
  s3 : gmap string (list Byte.byte);
  file : UploadFile;
  trace : list event
}.
Arguments mkWorld {DB}.
Arguments db {DB}.
Arguments s3 {DB}.
Arguments file {DB}.
Arguments trace {DB}.

(** What the surroundings do during one request. *)
Record Env : Type := mkEnv {
  uuid_parse : string -> option N;   (* uuid.UUID(s); None is ValueError *)
  uuid_bind : N -> string;           (* the text a filter binds for a uuid.UUID
                                        compared with a CHAR(36) column: the
                                        ORM decides it, str(u) or u.hex *)
  uuid4 : nat -> N;                  (* the k-th uuid.uuid4() of the request *)
  utcnow : Z;                        (* datetime.utcnow() *)
  bucket : string;                   (* AWS_S3_BUCKET *)
  s3_upload_ok : bool;               (* upload_fileobj does not raise *)
  s3_delete_ok : bool;               (* delete_object does not raise *)
  s3_presign : string -> option string;   (* generate_presigned_url; None: it raises *)
  db_ok : bool;                      (* the store accepts the transaction *)
  db_refresh_ok : bool               (* the SELECT of db.refresh succeeds *)
}.

Section WorldOps.
Context {DB : Type}.

Definition emit (e : event) : M (World DB) unit :=
  modify (fun w => mkWorld (db w) (s3 w) (file w) (trace w ++ [e])).

Definition set_db (d : DB) : M (World DB) unit :=
  modify (fun w => mkWorld d (s3 w) (file w) (trace w)).

Definition set_s3 (b : gmap string (list Byte.byte)) : M (World DB) unit :=
  modify (fun w => mkWorld (db w) b (file w) (trace w)).

Definition set_file (f : UploadFile) : M (World DB) unit :=
  modify (fun w => mkWorld (db w) (s3 w) f (trace w)).

(** [logging.error(...)] and [logging.info(...)] *)
Definition logging_error (msg : string) : M (World DB) unit := emit (LogError msg).
Definition logging_info (msg : string) : M (World DB) unit := emit (LogInfo msg).

(** [file.seek(0)] *)
Definition seek0 : M (World DB) unit :=
  w ← get_state; set_file (set_pos 0 (file w)).

(** [file.close()] *)
Definition close : M (World DB) unit :=
  w ← get_state; set_file (set_closed (file w));; emit FileClose.

(** [db.rollback()] *)
Definition db_rollback : M (World DB) unit := emit DbRollback.

(** [db.refresh(obj)] *)
Definition db_refresh (E : Env) : M (World DB) unit :=
  if db_refresh_ok E then mret tt else raise DatabaseFault.

(** [s3.upload_fileobj(file.file, bucket, key)]: the object is what the
    stream holds from its current position on. *)
Definition s3_upload_fileobj (E : Env) (key : string) : M (World DB) unit :=
  w ← get_state;
  if s3_upload_ok E then
    set_s3 (<[key := drop (pos (file w)) (content (file w))]> (s3 w));;
    set_file (set_pos (length (content (file w))) (file w));;
    emit (S3Upload key true)
  else
    emit (S3Upload key false);; raise StorageFault.

(** [s3.delete_object(Bucket=bucket, Key=key)] *)
Definition s3_delete_object (E : Env) (key : string) : M (World DB) unit :=
  w ← get_state;
  if s3_delete_ok E then
    set_s3 (delete key (s3 w));; emit (S3Delete key true)
  else
    emit (S3Delete key false);; raise StorageFault.

(** [f"https://{bucket}.s3.amazonaws.com/{key}"] *)
Definition s3_object_url (E : Env) (key : string) : string :=
  "https://" +:+ bucket E +:+ ".s3.amazonaws.com/" +:+ key.

End WorldOps.

(** The events a request has added to the trace. *)
Definition new_events {DB} (w w' : World DB) : list event :=
  drop (length (trace w)) (trace w').

(** In a list of events, every commit comes after a successful upload. *)
Definition write_before_commit (evs : list event) : Prop :=
  forall i b, evs !! i = Some (DbCommit b) ->
    exists j k, (j < i)%nat /\ evs !! j = Some (S3Upload k true).

(** No event of the list is a deletion in the bucket, attempted or done. *)
Definition no_s3_delete (evs : list event) : Prop :=
  forall k ok, S3Delete k ok ∉ evs.

(* ===================================================================== *)
(** ** [src/LexAI]: users, cases and soft-deleted file metadata *)
(* ===================================================================== *)

Module LexAI.

(** *** [src/LexAI/models.py]

    A row is kept without its primary key [id]: a table is a finite map
    from [id] to the other columns of the row. *)

Module User.
Record t : Type := mk {
  name : string; email : string; role : string; created_at : Z
}.
End User.

Module Case.
Record t : Type := mk {
  name : string; client_id : string; created_at : Z
}.
End Case.

Module FileMetadata.
Record t : Type := mk {
  file_name : string;
  case_id : string;
  lawyer_id : string;
  s3_key : string;
  s3_url : string;
  file_size : Z;
  file_type : string;
  uploaded_at : Z;
  version_id : option string;
  is_deleted : bool
}.

(** [record.is_deleted = v] *)
Definition set_is_deleted (v : bool) (r : t) : t :=
  mk (file_name r) (case_id r) (lawyer_id r) (s3_key r) (s3_url r)
     (file_size r) (file_type r) (uploaded_at r) (version_id r) v.
End FileMetadata.

(** The three tables. *)
Record DB : Type := mkDB {
  users : gmap string User.t;
  cases : gmap string Case.t;
  files : gmap string FileMetadata.t
}.

Definition set_files (fs : gmap string FileMetadata.t) (d : DB) : DB :=
  mkDB (users d) (cases d) fs.

Abbreviation W := (World DB).

(** *** [src/LexAI/utils/s3_utils.py] *)

(** [upload_to_s3]: the URL of the object, [None] when the upload fails. *)
Definition upload_to_s3 (E : Env) (key : string) : M W (option string) :=
  try_except
    (s3_upload_fileobj E key;; mret (Some (s3_object_url E key)))
    (fun _ => logging_error "Error uploading file";; mret None).

(** [delete_from_s3]: [True] if successful, [False] otherwise. *)
Definition delete_from_s3 (E : Env) (key : string) : M W bool :=
  try_except
    (s3_delete_object E key;; mret true)
    (fun _ => logging_error "Error deleting file";; mret false).

(** [generate_presigned_url] *)
Definition generate_presigned_url (E : Env) (key : string) : M W (option string) :=
  match s3_presign E key with
  | Some url => emit (S3Presign key true);; mret (Some url)
  | None =>
      emit (S3Presign key false);;
      logging_error "Error generating presigned URL";; mret None
  end.

(** *** The session *)

(** The constraints of the [files] table that an INSERT is checked
    against: primary key, [unique=True] on [s3_key], and the two foreign
    keys.  (The columns are [nullable=False], and every value written here
    is present.) *)
Definition files_insert_ok (d : DB) (id : string) (r : FileMetadata.t) : bool :=
  bool_decide (files d !! id = None)
  && bool_decide (map_Forall (fun _ r' => FileMetadata.s3_key r' ≠ FileMetadata.s3_key r)
                             (files d))
  && bool_decide (is_Some (cases d !! FileMetadata.case_id r))
  && bool_decide (is_Some (users d !! FileMetadata.lawyer_id r)).

(** [db.add(file_record); db.commit()]: the INSERT draws the [id] of the
    row from its column default [str(uuid.uuid4())]. *)
Definition commit_add_file (E : Env) (id : string) (r : FileMetadata.t) : M W unit :=
  w ← get_state;
  if db_ok E && files_insert_ok (db w) id r then
    set_db (set_files (<[id := r]> (files (db w))) (db w));;
    emit (DbCommit true)
  else
    emit (DbCommit false);; raise DatabaseFault.

(** [file_record.is_deleted = True; db.commit()]: an UPDATE of the row
    with the record's primary key, the id it was found under. *)
Definition commit_soft_delete (E : Env) (id : string) (r : FileMetadata.t) : M W unit :=
  w ← get_state;
  if db_ok E then
    set_db (set_files (<[id := FileMetadata.set_is_deleted true r]>
                         (files (db w))) (db w));;
    emit (DbCommit true)
  else
    emit (DbCommit false);; raise DatabaseFault.

(** [db.query(FileMetadata).filter(FileMetadata.id == file_uuid,
    FileMetadata.is_deleted == False).first()]: [file_uuid] is a
    [uuid.UUID] object and [id] a [CHAR(36)] column, so the row looked for
    is the one whose id is the text the ORM binds for the object. *)
Definition query_file (E : Env) (file_uuid : N) : M W (option FileMetadata.t) :=
  w ← get_state;
  mret (match files (db w) !! uuid_bind E file_uuid with
        | Some r => if FileMetadata.is_deleted r then None else Some r
        | None => None
        end).

(** [uuid.UUID(s)] *)
Definition UUID (E : Env) (s : string) : M W N :=
  match uuid_parse E s with
  | Some u => mret u
  | None => raise ValueError
  end.

(** *** [src/LexAI/main.py] *)

Definition allowed_types : list string :=
  ["petition"; "evidence"; "application"; "miscellaneous"].

(** [f"{adv_id}/{case_id}/{file_type}/{file.filename}"] *)
Definition file_key (adv_id case_id file_type fname : string) : string :=
  adv_id +:+ "/" +:+ case_id +:+ "/" +:+ file_type +:+ "/" +:+ fname.

(** [file.file.seek(0, os.SEEK_END); file.file.tell(); file.file.seek(0)];
    a closed stream raises [ValueError]. *)
Definition measure_size : M W Z :=
  w ← get_state;
  if closed (file w) then raise ValueError
  else
    set_file (set_pos (length (content (file w))) (file w));;
    w' ← get_state;
    let file_size := Z.of_nat (pos (file w')) in
    seek0;;
    mret file_size.

(** [not s3_url] *)
Definition falsy (o : option string) : bool :=
  match o with
  | Some s => String.eqb s ""
  | None => true
  end.

Record UploadResult : Type := mkUploadResult {
  up_message : string; up_file_id : string; up_s3_url : string
}.

Definition upload_file (E : Env) (adv_id case_id file_type : string)
  : M W UploadResult :=
  (* Validate that the file_type is one of the allowed types *)
  (if bool_decide (file_type ∈ allowed_types) then mret tt
   else
     logging_error "Invalid file_type provided";;
     raise (HTTPException 400
              (Joined "Invalid file_type. Allowed values: " allowed_types)));;
  (* Calculate file size *)
  file_size ← try_except measure_size
    (fun _ =>
       logging_error "Error computing file size";;
       raise (HTTPException 500 (Lit "Error processing file size")));
  (* Construct the S3 key *)
  w ← get_state;
  let fname := filename (file w) in
  let file_key := file_key adv_id case_id file_type fname in
  (* Upload file to S3 *)
  s3_url ← upload_to_s3 E file_key;
  (if falsy s3_url then
     logging_error "Failed to upload file to S3";;
     raise (HTTPException 500 (Lit "Upload failed"))
   else mret tt);;
  (* Create a new file metadata record; the INSERT writes str(u) for the
     two uuid.UUID objects *)
  file_record ← try_except
    (c ← UUID E case_id;
     l ← UUID E adv_id;
     mret (FileMetadata.mk fname (uuid_str c) (uuid_str l)
             file_key (default "" s3_url) file_size file_type (utcnow E)
             None false))
    (fun _ =>
       logging_error "Error creating file metadata record";;
       raise (HTTPException 400
                (Lit "Invalid IDs provided. Ensure adv_id and case_id are valid UUIDs.")));
  let id := uuid_str (uuid4 E 0) in
  commit_add_file E id file_record;;
  db_refresh E;;
  logging_info "File uploaded successfully";;
  mret (mkUploadResult "File uploaded successfully" id (default "" s3_url)).

Record FileView : Type := mkFileView {
  v_file_name : string;
  v_presigned_url : string;
  v_file_size : Z;
  v_file_type : string;
  v_uploaded_at : Z
}.

Definition get_file (E : Env) (file_id : string) : M W FileView :=
  file_uuid ← try_except (UUID E file_id)
    (fun e => if is_ValueError e
              then raise (HTTPException 400 (Lit "Invalid file_id format"))
              else raise e);
  file_record ← query_file E file_uuid;
  match file_record with
  | None => raise (HTTPException 404 (Lit "File not found"))
  | Some r =>
      (* Generate a pre-signed URL for secure access *)
      presigned_url ← generate_presigned_url E (FileMetadata.s3_key r);
      if falsy presigned_url then
        logging_error "Failed to generate presigned URL for file";;
        raise (HTTPException 500 (Lit "Could not generate access URL"))
      else
        mret (mkFileView (FileMetadata.file_name r) (default "" presigned_url)
                (FileMetadata.file_size r) (FileMetadata.file_type r)
                (FileMetadata.uploaded_at r))
  end.

Definition delete_file (E : Env) (file_id : string) : M W string :=
  file_uuid ← try_except (UUID E file_id)
    (fun e => if is_ValueError e
              then raise (HTTPException 400 (Lit "Invalid file_id format"))
              else raise e);
  file_record ← query_file E file_uuid;
  match file_record with
  | None => raise (HTTPException 404 (Lit "File not found"))
  | Some r =>
      (* Attempt to delete the file from S3 *)
      success ← delete_from_s3 E (FileMetadata.s3_key r);
      if negb success then
        logging_error "Failed to delete file from S3";;
        raise (HTTPException 500 (Lit "Failed to delete file from storage"))
      else
        (* Soft delete: mark the record as deleted *)
        commit_soft_delete E (uuid_bind E file_uuid) r;;
        logging_info "File deleted successfully";;
        mret "File deleted successfully"
  end.

(** No two rows of [files] share an [s3_key]. *)
Definition s3_keys_unique (d : DB) : Prop :=
  forall i j r1 r2,
    files d !! i = Some r1 -> files d !! j = Some r2 ->
    FileMetadata.s3_key r1 = FileMetadata.s3_key r2 -> i = j.

(** *** The runs of [upload_file]

    Every call ends in one of these ways.  [key] is the S3 key of the
    request and [row] the metadata row it builds. *)

Definition upload_key (adv_id case_id file_type : string) (w : W) : string :=
  file_key adv_id case_id file_type (filename (file w)).

Definition upload_row (E : Env) (adv_id case_id file_type : string) (w : W)
    (c l : N) : FileMetadata.t :=
  FileMetadata.mk (filename (file w)) (uuid_str c) (uuid_str l)
    (upload_key adv_id case_id file_type w)
    (s3_object_url E (upload_key adv_id case_id file_type w))
    (Z.of_nat (length (content (file w)))) file_type (utcnow E) None false.

Inductive upload_file_run (E : Env) (adv_id case_id file_type : string) (w : W)
  : outcome UploadResult -> W -> Prop :=
| uf_rejected (e : exn) (msg : string) :
    (* the file type is not allowed, or the stream is closed *)
    upload_file_run E adv_id case_id file_type w (Raise e)
      (mkWorld (db w) (s3 w) (file w) (trace w ++ [LogError msg]))
| uf_storage_failed :
    s3_upload_ok E = false ->
    upload_file_run E adv_id case_id file_type w
      (Raise (HTTPException 500 (Lit "Upload failed")))
      (mkWorld (db w) (s3 w) (set_pos 0 (file w))
         (trace w ++ [S3Upload (upload_key adv_id case_id file_type w) false;
                      LogError "Error uploading file";
                      LogError "Failed to upload file to S3"]))
| uf_bad_ids :
    s3_upload_ok E = true ->
    uuid_parse E case_id = None \/ uuid_parse E adv_id = None ->
    upload_file_run E adv_id case_id file_type w
      (Raise (HTTPException 400
                (Lit "Invalid IDs provided. Ensure adv_id and case_id are valid UUIDs.")))
      (mkWorld (db w)
         (<[upload_key adv_id case_id file_type w := content (file w)]> (s3 w))
         (set_pos (length (content (file w))) (file w))
         (trace w ++ [S3Upload (upload_key adv_id case_id file_type w) true;
                      LogError "Error creating file metadata record"]))
| uf_commit_failed :
    s3_upload_ok E = true ->
    upload_file_run E adv_id case_id file_type w
      (Raise DatabaseFault)
      (mkWorld (db w)
         (<[upload_key adv_id case_id file_type w := content (file w)]> (s3 w))
         (set_pos (length (content (file w))) (file w))
         (trace w ++ [S3Upload (upload_key adv_id case_id file_type w) true;
                      DbCommit false]))
| uf_refresh_failed (c l : N) :
    s3_upload_ok E = true ->
    files_insert_ok (db w) (uuid_str (uuid4 E 0))
      (upload_row E adv_id case_id file_type w c l) = true ->
    upload_file_run E adv_id case_id file_type w
      (Raise DatabaseFault)
      (mkWorld
         (set_files (<[uuid_str (uuid4 E 0) :=
                         upload_row E adv_id case_id file_type w c l]>
                       (files (db w))) (db w))
         (<[upload_key adv_id case_id file_type w := content (file w)]> (s3 w))
         (set_pos (length (content (file w))) (file w))
         (trace w ++ [S3Upload (upload_key adv_id case_id file_type w) true;
                      DbCommit true]))
| uf_committed (c l : N) :
    s3_upload_ok E = true ->
    files_insert_ok (db w) (uuid_str (uuid4 E 0))
      (upload_row E adv_id case_id file_type w c l) = true ->
    upload_file_run E adv_id case_id file_type w
      (Return (mkUploadResult "File uploaded successfully" (uuid_str (uuid4 E 0))
                 (s3_object_url E (upload_key adv_id case_id file_type w))))
      (mkWorld
         (set_files (<[uuid_str (uuid4 E 0) :=
                         upload_row E adv_id case_id file_type w c l]>
                       (files (db w))) (db w))
         (<[upload_key adv_id case_id file_type w := content (file w)]> (s3 w))
         (set_pos (length (content (file w))) (file w))
         (trace w ++ [S3Upload (upload_key adv_id case_id file_type w) true;
                      DbCommit true; LogInfo "File uploaded successfully"])).

(** *** Registration in [src/LexAI/main.py] *)

(** [db.add(user); db.commit()]: checked are the primary key and
    [unique=True] on [email]. *)
Definition commit_add_user (E : Env) (id : string) (u : User.t) : M W unit :=
  w ← get_state;
  if db_ok E
     && bool_decide (users (db w) !! id = None)
     && bool_decide (map_Forall (fun _ u' => User.email u' ≠ User.email u)
                                (users (db w)))
  then
    set_db (mkDB (<[id := u]> (users (db w))) (cases (db w)) (files (db w)));;
    emit (DbCommit true)
  else
    emit (DbCommit false);; raise DatabaseFault.

(** [db.add(new_case); db.commit()]: [client_id] is a plain column, with
    no foreign key, so that only the primary key is checked. *)
Definition commit_add_case (E : Env) (id : string) (c : Case.t) : M W unit :=
  w ← get_state;
  if db_ok E && bool_decide (cases (db w) !! id = None)
  then
    set_db (mkDB (users (db w)) (<[id := c]> (cases (db w))) (files (db w)));;
    emit (DbCommit true)
  else
    emit (DbCommit false);; raise DatabaseFault.

(** Register a new user (advocate) and return the generated [adv_id]. *)
Definition register_user (E : Env) (name email role : string) : M W string :=
  let user := User.mk name email role (utcnow E) in
  let id := uuid_str (uuid4 E 0) in
  try_except (commit_add_user E id user)
    (fun _ =>
       db_rollback;;
       logging_error "Error registering user";;
       raise (HTTPException 400 (Lit "User registration failed.")));;
  db_refresh E;;
  logging_info "User registered with ID";;
  mret id.

(** Register a new case for a given advocate; [adv_id] is used as the
    [client_id].  Returns the generated [case_id]. *)
Definition register_case (E : Env) (adv_id case_name : string) : M W string :=
  (* Validate adv_id as a proper UUID *)
  try_except (UUID E adv_id;; mret tt)
    (fun _ =>
       logging_error "Invalid adv_id provided";;
       raise (HTTPException 400 (Lit "Invalid adv_id provided.")));;
  let new_case := Case.mk case_name adv_id (utcnow E) in
  let id := uuid_str (uuid4 E 0) in
  try_except (commit_add_case E id new_case)
    (fun _ =>
       db_rollback;;
       logging_error "Error registering case";;
       raise (HTTPException 400 (Lit "Case registration failed.")));;
  db_refresh E;;
  logging_info "Case registered with ID";;
  mret id.

(** Every row of [files] names a case and a user that are stored. *)
Definition refs_ok (d : DB) : Prop :=
  forall id r, files d !! id = Some r ->
    is_Some (cases d !! FileMetadata.case_id r)
    /\ is_Some (users d !! FileMetadata.lawyer_id r).

(** No two users share an [email]. *)
Definition emails_unique (d : DB) : Prop :=
  forall i j u1 u2,
    users d !! i = Some u1 -> users d !! j = Some u2 ->
    User.email u1 = User.email u2 -> i = j.

(** The constraints that the schema declares, together. *)
(** What [upload_file] needs to go through, in the order it asks: an
    allowed category, an open stream, an upload that S3 takes, two ids that
    parse (to [c] and [l]), and a database that takes the row and the
    refresh. *)
Definition upload_file_accepts (E : Env) (adv_id case_id file_type : string)
    (w : W) (c l : N) : Prop :=
  file_type ∈ allowed_types
  /\ closed (file w) = false
  /\ s3_upload_ok E = true
  /\ uuid_parse E case_id = Some c
  /\ uuid_parse E adv_id = Some l
  /\ db_ok E = true
  /\ files_insert_ok (db w) (uuid_str (uuid4 E 0))
       (upload_row E adv_id case_id file_type w c l) = true
  /\ db_refresh_ok E = true.

Definition store_ok (d : DB) : Prop :=
  refs_ok d /\ s3_keys_unique d /\ emails_unique d.

End LexAI.

(* ===================================================================== *)
(** ** [src]: advocates, clients, cases and documents *)
(* ===================================================================== *)

Module Main.

(** *** [src/models.py]

    As above, a table maps the primary key [id] to the other columns. *)

Module Advocate.
Record t : Type := mk { name : string; email : string }.
End Advocate.

Module Client.
Record t : Type := mk {
  name : string; contact_number : string; address : string
}.
End Client.

(** [filing_date]: the text of the form field, or the column default
    [datetime.utcnow] when the field is absent. *)
Inductive filing : Type :=
| FilingText (s : string)
| FilingDefault (now : Z).

Module Case.
Record t : Type := mk {
  name : string;
  case_type : string;
  client_id : string;
  description : option string;
  filing_date : filing
}.
End Case.

Module Document.
Record t : Type := mk {
  doc_type : string;
  file_name : string;
  file_path : string;
  created_at : Z;
  adv_id : string;
  case_id : string
}.
End Document.

(** The four tables and the two association tables, whose rows are
    pairs [(advocate_id, case_id)] and [(advocate_id, client_id)]. *)
Record DB : Type := mkDB {
  advocates : gmap string Advocate.t;
  clients : gmap string Client.t;
  cases : gmap string Case.t;
  documents : gmap string Document.t;
  advocate_cases : list (string * string);
  advocate_clients : list (string * string)
}.

Abbreviation W := (World DB).

(** [case.advocate]: the advocates joined to the case through
    [advocate_cases], as the list of their ids. *)
Definition case_advocate (d : DB) (case_id : string) : list string :=
  List.filter (fun a => bool_decide (is_Some (advocates d !! a)))
    (List.map fst
       (List.filter (fun p => String.eqb (snd p) case_id) (advocate_cases d))).

(** [uuid.UUID(s)] *)
Definition UUID (E : Env) (s : string) : M W N :=
  match uuid_parse E s with
  | Some u => mret u
  | None => raise ValueError
  end.

(** Modelled from the spec: [utils/s3_utils.upload_to_s3] of this
    application, an awaitable that [src/main.py] imports and whose file
    is not part of the sources.  It is the adapter's
    [put(key, content) -> url|error]: the object is written under [key]
    and its bucket URL returned, or the call raises. *)
Definition upload_to_s3 (E : Env) (key : string) : M W string :=
  s3_upload_fileobj E key;; mret (s3_object_url E key).

(** *** The session *)

(** [db.add(new_case); db.commit()] with [new_case.advocate == [advocate]]:
    one row in [cases] and one in [advocate_cases], in one transaction.
    Checked: the primary key and the foreign keys of both rows. *)
Definition commit_add_case (E : Env) (id : string) (c : Case.t)
    (advocate_id : string) : M W unit :=
  w ← get_state;
  let d := db w in
  if db_ok E
     && bool_decide (cases d !! id = None)
     && bool_decide (is_Some (clients d !! Case.client_id c))
     && bool_decide (is_Some (advocates d !! advocate_id))
  then
    set_db (mkDB (advocates d) (clients d) (<[id := c]> (cases d)) (documents d)
              (advocate_cases d ++ [(advocate_id, id)]) (advocate_clients d));;
    emit (DbCommit true)
  else
    emit (DbCommit false);; raise DatabaseFault.

(** [db.add(document); db.commit()] *)
Definition commit_add_document (E : Env) (id : string) (doc : Document.t)
  : M W unit :=
  w ← get_state;
  let d := db w in
  if db_ok E
     && bool_decide (documents d !! id = None)
     && bool_decide (is_Some (advocates d !! Document.adv_id doc))
     && bool_decide (is_Some (cases d !! Document.case_id doc))
  then
    set_db (mkDB (advocates d) (clients d) (cases d) (<[id := doc]> (documents d))
              (advocate_cases d) (advocate_clients d));;
    emit (DbCommit true)
  else
    emit (DbCommit false);; raise DatabaseFault.

(** *** [src/main.py] *)

Record RegisterCaseResult : Type := mkRegisterCaseResult {
  rc_case_id : string; rc_message : string
}.

Definition register_case (E : Env)
    (case_name advocate_id client_id case_type : string)
    (case_description filing_date : option string) : M W RegisterCaseResult :=
  try_except
    ((* Validate UUIDs *)
     UUID E advocate_id;;
     UUID E client_id;;
     (* Check if advocate and client exist *)
     w ← get_state;
     let advocate := advocates (db w) !! advocate_id in
     let client := clients (db w) !! client_id in
     (if advocate is None
      then raise (HTTPException 404 (Lit "Advocate not found")) else mret tt);;
     (if client is None
      then raise (HTTPException 404 (Lit "Client not found")) else mret tt);;
     (* Create new case *)
     let new_case :=
       Case.mk case_name case_type client_id case_description
         (match filing_date with
          | Some s => FilingText s
          | None => FilingDefault (utcnow E)
          end) in
     let id := uuid_str (uuid4 E 0) in
     commit_add_case E id new_case advocate_id;;
     db_refresh E;;
     mret (mkRegisterCaseResult id "Case registered successfully"))
    (fun e =>
       if is_ValueError e
       then raise (HTTPException 400 (Lit "Invalid UUID format"))
       else
         db_rollback;;
         logging_error "Case registration failed";;
         raise (HTTPException 400 (StrOf e))).

Definition ALLOWED_EXTENSIONS : list string :=
  [".pdf"; ".doc"; ".docx"; ".txt"; ".jpg"; ".jpeg"; ".png"].

Definition MAX_FILE_SIZE : Z := 10 * 1024 * 1024.

Definition too_large : exn :=
  HTTPException 400 (Lit "File size exceeds maximum limit of 10.0MB").

(** The loop of [validate_file], for a chunk size and a limit:
    [while chunk := await file.read(chunk_size): file_size += len(chunk);
     if file_size > limit: raise HTTPException(400, ...)]. *)
Equations? size_loop (chunk_size : nat) (limit : Z) (f : UploadFile) (file_size : Z)
  : outcome unit * UploadFile by wf (length (content f) - pos f)%nat lt :=
  size_loop chunk_size limit f file_size with inspect (read chunk_size f) := {
    | exist _ ([], f') _ => (Return tt, f');
    | exist _ (b :: chunk, f') Hr
        with limit <? file_size + Z.of_nat (length (b :: chunk)) := {
        | true => (Raise too_large, f');
        | false =>
            size_loop chunk_size limit f'
              (file_size + Z.of_nat (length (b :: chunk))) } }.
Proof.
  match goal with H : take _ _ = _ :: _ |- _ => rename H into Hc end.
  assert (Hl : length (take chunk_size (drop (pos f) (content f)))
               = S (length chunk)) by (rewrite Hc; reflexivity).
  rewrite Hl. rewrite length_take, length_drop in Hl. lia.
Qed.

(** The bytes between the position of the stream and its end. *)
Definition remaining (f : UploadFile) : Z :=
  Z.of_nat (length (content f) - pos f).

(** [validate_file]: validate file size and type.  Reading a closed
    stream raises [ValueError]. *)
Definition validate_file : M W unit :=
  (* Check file size *)
  w ← get_state;
  (if closed (file w) then raise ValueError else mret tt);;
  let '(o, f') := size_loop 1024 MAX_FILE_SIZE (file w) 0 in
  set_file f';;
  match o with
  | Raise e => raise e
  | Return _ =>
      (* Reset file position after reading *)
      seek0;;
      (* Check file extension *)
      let ext := PyStr.lower (path_suffix (filename f')) in
      if bool_decide (ext ∈ ALLOWED_EXTENSIONS) then mret tt
      else raise (HTTPException 400
                    (Joined "File type not allowed. Allowed types: "
                            ALLOWED_EXTENSIONS))
  end.

(** [sanitize_filename]: [f"{uuid.uuid4()}{ext}"], with the first
    [uuid4] draw of the request. *)
Definition sanitize_filename (E : Env) (fname : string) : string :=
  (* Get the file extension *)
  let ext := path_suffix fname in
  (* Create a safe filename with UUID *)
  uuid_str (uuid4 E 0) +:+ ext.

(** [f"{advocate_id}/{case_id}/{doc_type}/{safe_filename}"] *)
Definition file_key (advocate_id case_id doc_type safe_filename : string) : string :=
  advocate_id +:+ "/" +:+ case_id +:+ "/" +:+ doc_type +:+ "/" +:+ safe_filename.

Record UploadResult : Type := mkUploadResult {
  document_id : string; url : string; file_name : string
}.

Definition upload_document (E : Env) (advocate_id case_id doc_type : string)
  : M W UploadResult :=
  try_finally
    ((* Validate UUIDs *)
     try_except (UUID E advocate_id;; UUID E case_id;; mret tt)
       (fun e => if is_ValueError e
                 then raise (HTTPException 400 (Lit "Invalid UUID format"))
                 else raise e);;
     (* Validate IDs and permissions *)
     w ← get_state;
     let advocate := advocates (db w) !! advocate_id in
     let case := cases (db w) !! case_id in
     (if advocate is None
      then raise (HTTPException 404 (Lit "Advocate not found")) else mret tt);;
     (if case is None
      then raise (HTTPException 404 (Lit "Case not found")) else mret tt);;
     (* Verify advocate has permission for this case *)
     (if bool_decide (advocate_id ∉ case_advocate (db w) case_id)
      then raise (HTTPException 403
                    (Lit "Advocate does not have permission for this case"))
      else mret tt);;
     (* Validate file *)
     validate_file;;
     (* Sanitize filename and create unique file path *)
     w ← get_state;
     let safe_filename := sanitize_filename E (filename (file w)) in
     let file_key := file_key advocate_id case_id doc_type safe_filename in
     s3_url ← try_except (upload_to_s3 E file_key)
       (fun _ =>
          logging_error "S3 upload failed";;
          raise (HTTPException 500 (Lit "Failed to upload file to storage")));
     (* Create document record *)
     let document :=
       Document.mk doc_type safe_filename s3_url (utcnow E) advocate_id case_id in
     let id := uuid_str (uuid4 E 1) in
     try_except
       (commit_add_document E id document;;
        db_refresh E;;
        mret (mkUploadResult id s3_url safe_filename))
       (fun _ =>
          db_rollback;;
          logging_error "Database operation failed";;
          raise (HTTPException 400 (Lit "Failed to save document record"))))
    (* Ensure file is closed *)
    close.

(** *** The runs of [upload_document]

    Every call ends in one of these ways.  [key] is the S3 key of the
    request and [doc] the row it builds. *)

Definition upload_key (E : Env) (advocate_id case_id doc_type : string) (w : W)
  : string :=
  file_key advocate_id case_id doc_type (sanitize_filename E (filename (file w))).

Definition upload_doc (E : Env) (advocate_id case_id doc_type : string) (w : W)
  : Document.t :=
  Document.mk doc_type (sanitize_filename E (filename (file w)))
    (s3_object_url E (upload_key E advocate_id case_id doc_type w))
    (utcnow E) advocate_id case_id.

Definition add_document (id : string) (doc : Document.t) (d : DB) : DB :=
  mkDB (advocates d) (clients d) (cases d) (<[id := doc]> (documents d))
    (advocate_cases d) (advocate_clients d).

Inductive upload_document_run (E : Env) (advocate_id case_id doc_type : string)
    (w : W) : outcome UploadResult -> W -> Prop :=
| ud_rejected (e : exn) (p : nat) :
    (* malformed or unknown ids, no permission, or a file that fails
       validation *)
    upload_document_run E advocate_id case_id doc_type w (Raise e)
      (mkWorld (db w) (s3 w) (set_closed (set_pos p (file w)))
         (trace w ++ [FileClose]))
| ud_storage_failed :
    s3_upload_ok E = false ->
    upload_document_run E advocate_id case_id doc_type w
      (Raise (HTTPException 500 (Lit "Failed to upload file to storage")))
      (mkWorld (db w) (s3 w) (set_closed (set_pos 0 (file w)))
         (trace w ++ [S3Upload (upload_key E advocate_id case_id doc_type w) false;
                      LogError "S3 upload failed"; FileClose]))
| ud_commit_failed :
    s3_upload_ok E = true ->
    upload_document_run E advocate_id case_id doc_type w
      (Raise (HTTPException 400 (Lit "Failed to save document record")))
      (mkWorld (db w)
         (<[upload_key E advocate_id case_id doc_type w := content (file w)]> (s3 w))
         (set_closed (set_pos (length (content (file w))) (file w)))
         (trace w ++ [S3Upload (upload_key E advocate_id case_id doc_type w) true;
                      DbCommit false; DbRollback;
                      LogError "Database operation failed"; FileClose]))
| ud_refresh_failed :
    s3_upload_ok E = true ->
    documents (db w) !! uuid_str (uuid4 E 1) = None ->
    upload_document_run E advocate_id case_id doc_type w
      (Raise (HTTPException 400 (Lit "Failed to save document record")))
      (mkWorld
         (add_document (uuid_str (uuid4 E 1))
            (upload_doc E advocate_id case_id doc_type w) (db w))
         (<[upload_key E advocate_id case_id doc_type w := content (file w)]> (s3 w))
         (set_closed (set_pos (length (content (file w))) (file w)))
         (trace w ++ [S3Upload (upload_key E advocate_id case_id doc_type w) true;
                      DbCommit true; DbRollback;
                      LogError "Database operation failed"; FileClose]))
| ud_committed :
    s3_upload_ok E = true ->
    documents (db w) !! uuid_str (uuid4 E 1) = None ->
    upload_document_run E advocate_id case_id doc_type w
      (Return (mkUploadResult (uuid_str (uuid4 E 1))
                 (s3_object_url E (upload_key E advocate_id case_id doc_type w))
                 (sanitize_filename E (filename (file w)))))
      (mkWorld
         (add_document (uuid_str (uuid4 E 1))
            (upload_doc E advocate_id case_id doc_type w) (db w))
         (<[upload_key E advocate_id case_id doc_type w := content (file w)]> (s3 w))
         (set_closed (set_pos (length (content (file w))) (file w)))
         (trace w ++ [S3Upload (upload_key E advocate_id case_id doc_type w) true;
                      DbCommit true; FileClose])).

(** *** Registration and lookup in [src/main.py] *)

(** [db.add(advocate); db.commit()]: checked are the primary key and
    [unique=True] on [email]. *)
Definition commit_add_advocate (E : Env) (id : string) (a : Advocate.t)
  : M W unit :=
  w ← get_state;
  let d := db w in
  if db_ok E
     && bool_decide (advocates d !! id = None)
     && bool_decide (map_Forall
                       (fun _ a' => Advocate.email a' ≠ Advocate.email a)
                       (advocates d))
  then
    set_db (mkDB (<[id := a]> (advocates d)) (clients d) (cases d) (documents d)
              (advocate_cases d) (advocate_clients d));;
    emit (DbCommit true)
  else
    emit (DbCommit false);; raise DatabaseFault.

(** [db.add(client); db.commit()] *)
Definition commit_add_client (E : Env) (id : string) (c : Client.t)
  : M W unit :=
  w ← get_state;
  let d := db w in
  if db_ok E && bool_decide (clients d !! id = None)
  then
    set_db (mkDB (advocates d) (<[id := c]> (clients d)) (cases d) (documents d)
              (advocate_cases d) (advocate_clients d));;
    emit (DbCommit true)
  else
    emit (DbCommit false);; raise DatabaseFault.

Definition register_advocate (E : Env) (name email : string) : M W string :=
  let advocate := Advocate.mk name email in
  let id := uuid_str (uuid4 E 0) in
  try_except
    (commit_add_advocate E id advocate;;
     db_refresh E;;
     mret id)
    (fun e => db_rollback;; raise (HTTPException 400 (StrOf e))).

Definition register_client (E : Env) (name contact_number address : string)
  : M W string :=
  let client := Client.mk name contact_number address in
  let id := uuid_str (uuid4 E 0) in
  try_except
    (commit_add_client E id client;;
     db_refresh E;;
     mret id)
    (fun e => db_rollback;; raise (HTTPException 400 (StrOf e))).

Record CaseView : Type := mkCaseView {
  cv_case_id : string;
  cv_name : string;
  cv_type : string;
  cv_description : option string;
  cv_filing_date : filing;
  cv_client_id : string;
  cv_advocate_id : option string
}.

(** Retrieve case details by case ID; [advocate_id] is
    [case.advocate[0].id if case.advocate else None]. *)
Definition get_case (E : Env) (case_id : string) : M W CaseView :=
  try_except
    (UUID E case_id;;
     w ← get_state;
     match cases (db w) !! case_id with
     | None => raise (HTTPException 404 (Lit "Case not found"))
     | Some c =>
         mret (mkCaseView case_id (Case.name c) (Case.case_type c)
                 (Case.description c) (Case.filing_date c) (Case.client_id c)
                 (head (case_advocate (db w) case_id)))
     end)
    (fun e => if is_ValueError e
              then raise (HTTPException 400 (Lit "Invalid case ID format"))
              else raise e).

(** The references between the tables resolve: a document names a stored
    advocate and a stored case, an association row joins a stored advocate
    and a stored case, a case names a stored client. *)
Definition refs_ok (d : DB) : Prop :=
  (forall id doc, documents d !! id = Some doc ->
     is_Some (advocates d !! Document.adv_id doc)
     /\ is_Some (cases d !! Document.case_id doc))
  /\ (forall a c, (a, c) ∈ advocate_cases d ->
        is_Some (advocates d !! a) /\ is_Some (cases d !! c))
  /\ (forall id c, cases d !! id = Some c ->
        is_Some (clients d !! Case.client_id c)).

(** No two advocates share an [email]. *)
Definition emails_unique (d : DB) : Prop :=
  forall i j a1 a2,
    advocates d !! i = Some a1 -> advocates d !! j = Some a2 ->
    Advocate.email a1 = Advocate.email a2 -> i = j.

(** The constraints that the schema declares, together. *)
Definition store_ok (d : DB) : Prop := refs_ok d /\ emails_unique d.

(** What [upload_document] needs to go through, in the order it asks: two
    ids that parse, a stored advocate, a stored case, the advocate among
    the advocates of the case, a file that passes [validate_file], an
    upload that S3 takes, and a database that takes the row (its id is
    free) and the refresh. *)
Definition upload_document_accepts (E : Env) (advocate_id case_id : string)
    (w : W) : Prop :=
  is_Some (uuid_parse E advocate_id)
  /\ is_Some (uuid_parse E case_id)
  /\ is_Some (advocates (db w) !! advocate_id)
  /\ is_Some (cases (db w) !! case_id)
  /\ advocate_id ∈ case_advocate (db w) case_id
  /\ fst (validate_file w) = Return tt
  /\ s3_upload_ok E = true
  /\ db_ok E = true
  /\ documents (db w) !! uuid_str (uuid4 E 1) = None
  /\ db_refresh_ok E = true.

End Main.

(* ===================================================================== *)
(** ** Concrete surroundings and stores *)
(* ===================================================================== *)

Module Examples.

Definition hex_val (a : ascii) : option N :=
  let n := N_of_ascii a in
  if ((48 <=? n) && (n <=? 57))%N then Some (n - 48)%N
  else if ((97 <=? n) && (n <=? 102))%N then Some (n - 87)%N
  else if ((65 <=? n) && (n <=? 70))%N then Some (n - 55)%N
  else None.

Fixpoint parse_hex (s : string) (acc : N) : option N :=
  match s with
  | EmptyString => Some acc
  | String a s' =>
      match hex_val a with
      | Some d => parse_hex s' (acc * 16 + d)%N
      | None => None
      end
  end.

Fixpoint remove_dashes (s : string) : string :=
  match s with
  | EmptyString => EmptyString
  | String a s' =>
      if Ascii.eqb a "-" then remove_dashes s' else String a (remove_dashes s')
  end.

(** A parser for the canonical 8-4-4-4-12 form, on which it agrees with
    [uuid.UUID]. *)
Definition canonical_uuid (s : string) : option N :=
  if (String.length s =? 36)%nat
     && (String.length (remove_dashes s) =? 32)%nat
     && bool_decide (String.get 8 s = Some "-"%char)
     && bool_decide (String.get 13 s = Some "-"%char)
     && bool_decide (String.get 18 s = Some "-"%char)
     && bool_decide (String.get 23 s = Some "-"%char)
  then parse_hex (remove_dashes s) 0
  else None.

Definition presign (key : string) : option string :=
  Some ("https://lexai-docs.s3.amazonaws.com/" +:+ key +:+ "?X-Amz-Expires=3600").

(** Every call to the surroundings succeeds; the [uuid4] draws of the
    request start at [seed]; a filter binds [str(u)] for a [uuid.UUID]. *)
Definition env_ok (seed : N) : Env :=
  mkEnv canonical_uuid uuid_str (fun k => (seed + N.of_nat k)%N) 1700000000
        "lexai-docs" true true presign true true.

(** As [env_ok], with the database refusing the transaction. *)
Definition env_db_down (seed : N) : Env :=
  mkEnv canonical_uuid uuid_str (fun k => (seed + N.of_nat k)%N) 1700000000
        "lexai-docs" true true presign false true.

(** As [env_ok], with the refresh after a commit failing. *)
Definition env_refresh_down (seed : N) : Env :=
  mkEnv canonical_uuid uuid_str (fun k => (seed + N.of_nat k)%N) 1700000000
        "lexai-docs" true true presign true false.

(** As [env_ok], with a filter binding [u.hex] for a [uuid.UUID]. *)
Definition env_hex (seed : N) : Env :=
  mkEnv canonical_uuid uuid_hex (fun k => (seed + N.of_nat k)%N) 1700000000
        "lexai-docs" true true presign true true.

(** As [env_ok], with S3 refusing uploads and deletions. *)
Definition env_s3_down (seed : N) : Env :=
  mkEnv canonical_uuid uuid_str (fun k => (seed + N.of_nat k)%N) 1700000000
        "lexai-docs" false false presign true true.

Definition id1 : string := "02c20b1c-7325-40cc-92dc-35d33de9208f".
Definition id2 : string := "151deed3-ce59-4f2a-af97-3490b86b2891".
Definition id3 : string := "ac965b3d-5ab4-4c41-8268-709b6a17c281".
Definition id4 : string := "5b0c1f6e-0d8a-4c54-9a55-0e1d2c3b4a59".

Definition ten_bytes : list Byte.byte :=
  [Byte.x54; Byte.x65; Byte.x73; Byte.x74; Byte.x20;
   Byte.x66; Byte.x69; Byte.x6c; Byte.x65; Byte.x0a].

Definition stream (name : string) (bytes : list Byte.byte) : UploadFile :=
  mkUploadFile name bytes 0 false.

(** [src/LexAI]: two users; a case registered by the first (its
    [client_id] is that user's id); no file yet. *)
Definition lexai_db : LexAI.DB :=
  LexAI.mkDB
    {[ id1 := LexAI.User.mk "Test Advocate" "advocate@example.com" "Lawyer" 1690000000;
       id2 := LexAI.User.mk "Other Advocate" "other@example.com" "Lawyer" 1690000001 ]}
    {[ id3 := LexAI.Case.mk "Test Case" id1 1690000002 ]}
    ∅.

Definition lexai_world : LexAI.W :=
  mkWorld lexai_db ∅ (stream "example.txt" ten_bytes) [].

(** The world after one successful upload by the first user. *)
Definition lexai_world_uploaded : LexAI.W :=
  snd (LexAI.upload_file (env_ok 0x5b0c1f6e0d8a4c549a550e1d2c3b4a59)
         id1 id3 "petition" lexai_world).

(** The same user uploads another file of the same name to the same
    case. *)
Definition other_bytes : list Byte.byte := [Byte.x4e; Byte.x65; Byte.x77; Byte.x0a].

Definition lexai_world_second : LexAI.W :=
  mkWorld (db lexai_world_uploaded) (s3 lexai_world_uploaded)
    (stream "example.txt" other_bytes) (trace lexai_world_uploaded).

(** The row of that upload. *)
Definition lexai_record : LexAI.FileMetadata.t :=
  LexAI.FileMetadata.mk "example.txt" id3 id1
    (LexAI.file_key id1 id3 "petition" "example.txt")
    (s3_object_url (env_ok 0) (LexAI.file_key id1 id3 "petition" "example.txt"))
    10 "petition" 1700000000 None false.

(** [src]: two advocates, one client, one case of the first advocate. *)
Definition main_db : Main.DB :=
  Main.mkDB
    {[ id1 := Main.Advocate.mk "A" "a@x.com";
       id4 := Main.Advocate.mk "B" "b@x.com" ]}
    {[ id2 := Main.Client.mk "C" "555-0100" "1 Court Lane" ]}
    {[ id3 := Main.Case.mk "Case1" "civil" id2 None (Main.FilingDefault 1690000002) ]}
    ∅
    [(id1, id3)]
    [].

Definition main_world : Main.W :=
  mkWorld main_db ∅ (stream "Brief.PDF" ten_bytes) [].

(** A stream of [n] zero bytes. *)
Definition zeros (n : nat) : list Byte.byte := replicate n Byte.x00.

(** One byte more than [MAX_FILE_SIZE]. *)
Definition oversize_world : Main.W :=
  mkWorld main_db ∅
    (stream "big.pdf" (zeros (Z.to_nat (Main.MAX_FILE_SIZE + 1)))) [].

End Examples.

(* ===================================================================== *)
(** ** Paths and identifiers on examples *)
(* ===================================================================== *)

Example path_suffix_pdf : path_suffix "briefs/Final.Brief.PDF" = ".PDF".
Proof. reflexivity. Qed.

Example path_suffix_hidden : path_suffix ".bashrc" = "".
Proof. reflexivity. Qed.

Example path_suffix_trailing_dot : path_suffix "notes." = "".
Proof. reflexivity. Qed.

Example path_suffix_dir : path_suffix "a.d/readme" = "".
Proof. reflexivity. Qed.

Example uuid_str_ex :
  uuid_str 0x02c20b1c732540cc92dc35d33de9208f
  = "02c20b1c-7325-40cc-92dc-35d33de9208f".
Proof. reflexivity. Qed.

(* ===================================================================== *)
(** ** Running a handler *)
(* ===================================================================== *)

(** Unfolds the monad and the primitive effects, leaving the plain
    function from worlds to outcomes. *)
Ltac munfold :=
  unfold mbind, M_bind, mret, M_ret, raise, get_state, modify, try_except,
    try_finally, emit, set_db, set_s3, set_file, logging_error, logging_info,
    seek0, close, db_rollback, db_refresh, s3_upload_fileobj,
    s3_delete_object in *.

(** Splits an equation between pairs into its components. *)
Ltac pair_inv H := injection H as ?; subst.

(** Evaluating a handler on a concrete world: the outcome is computed,
    the world it leaves is named by projection. *)
Lemma run_eq {S A} (m : M S A) (w : S) (o : outcome A) :
  fst (m w) = o -> m w = (o, snd (m w)).
Proof. intros <-. apply surjective_pairing. Qed.

(* ===================================================================== *)
(** ** Retrieval and deletion in [src/LexAI] *)
(* ===================================================================== *)

Module LexAIFacts.
Import LexAI.

Ltac unfold_handlers :=
  unfold delete_file, get_file, UUID, query_file, delete_from_s3,
    generate_presigned_url, commit_soft_delete in *;
  munfold.

(** A soft-deleted row is invisible to the one query the handlers use. *)
Lemma query_file_deleted (E : Env) (u : N) (w : W) (r : FileMetadata.t) :
  files (db w) !! uuid_bind E u = Some r ->
  FileMetadata.is_deleted r = true ->
  query_file E u w = (Return None, w).
Proof.
  intros Hr Hd. unfold query_file. munfold. simpl. rewrite Hr, Hd. reflexivity.
Qed.

Lemma query_file_absent (E : Env) (u : N) (w : W) :
  files (db w) !! uuid_bind E u = None ->
  query_file E u w = (Return None, w).
Proof.
  intros Hr. unfold query_file. munfold. simpl. rewrite Hr. reflexivity.
Qed.

Lemma query_file_live (E : Env) (u : N) (w : W) (r : FileMetadata.t) :
  files (db w) !! uuid_bind E u = Some r ->
  FileMetadata.is_deleted r = false ->
  query_file E u w = (Return (Some r), w).
Proof.
  intros Hr Hd. unfold query_file. munfold. simpl. rewrite Hr, Hd. reflexivity.
Qed.

(** What a call of [delete_file] that returns has done. *)
Lemma delete_file_returns (E : Env) (file_id : string) (w w' : W) (msg : string) :
  delete_file E file_id w = (Return msg, w') ->
  exists u r,
    uuid_parse E file_id = Some u
    /\ files (db w) !! uuid_bind E u = Some r
    /\ FileMetadata.is_deleted r = false
    /\ s3_delete_ok E = true
    /\ db_ok E = true
    /\ w' = mkWorld
              (set_files (<[uuid_bind E u := FileMetadata.set_is_deleted true r]>
                            (files (db w))) (db w))
              (delete (FileMetadata.s3_key r) (s3 w))
              (file w)
              (trace w ++ [S3Delete (FileMetadata.s3_key r) true; DbCommit true;
                           LogInfo "File deleted successfully"]).
Proof.
  unfold_handlers. intros H.
  destruct (uuid_parse E file_id) as [u|] eqn:Hu; simpl in H; [|discriminate].
  destruct (files (db w) !! uuid_bind E u) as [r|] eqn:Hr; simpl in H;
    [|discriminate].
  destruct (FileMetadata.is_deleted r) eqn:Hd; simpl in H; [discriminate|].
  destruct (s3_delete_ok E) eqn:Hs; simpl in H; [|discriminate].
  destruct (db_ok E) eqn:Hdb; simpl in H; [|discriminate].
  pair_inv H. exists u, r. repeat split; try assumption.
  rewrite <- !app_assoc. reflexivity.
Qed.

(** A request whose id the filter binds to a text that no row has as its
    id is answered 404 by both handlers, and changes nothing. *)
Lemma unbound_id_not_found
    (E : Env) (file_id : string) (w : W) (u : N) :
  uuid_parse E file_id = Some u ->
  files (db w) !! uuid_bind E u = None ->
  get_file E file_id w
  = (Raise (HTTPException 404 (Lit "File not found")), w)
  /\ delete_file E file_id w
     = (Raise (HTTPException 404 (Lit "File not found")), w).
Proof.
  intros Hu Hr. unfold_handlers. rewrite Hu. simpl. rewrite Hr. simpl.
  split; reflexivity.
Qed.

(** C4.  [delete_file] on a record that the lookup finds (the row whose
    id is the text the filter binds for the parsed [file_id]) and that is
    not deleted: when the deletion of the blob fails the call aborts with
    status 500 and the database is exactly what it was, so the record keeps
    [is_deleted = False]; the flag of the record reads [True] afterwards
    only if the blob deletion succeeded, and it was then deleted before the
    commit; and when the blob deletion and the commit both succeed the flag
    is set and committed. *)
Theorem delete_file_blob_failure_leaves_record
    (E : Env) (file_id : string) (w w' : W) (o : outcome string)
    (u : N) (r : FileMetadata.t) :
  uuid_parse E file_id = Some u ->
  files (db w) !! uuid_bind E u = Some r ->
  FileMetadata.is_deleted r = false ->
  delete_file E file_id w = (o, w') ->
  (s3_delete_ok E = false ->
     o = Raise (HTTPException 500 (Lit "Failed to delete file from storage"))
     /\ db w' = db w
     /\ files (db w') !! uuid_bind E u = Some r)
  /\ (forall r', files (db w') !! uuid_bind E u = Some r' ->
        FileMetadata.is_deleted r' = true ->
        s3_delete_ok E = true
        /\ exists post,
             trace w' = (trace w ++ S3Delete (FileMetadata.s3_key r) true
                                    :: DbCommit true :: post)%list)
  /\ (s3_delete_ok E = true -> db_ok E = true ->
        o = Return "File deleted successfully"
        /\ files (db w') !! uuid_bind E u
           = Some (FileMetadata.set_is_deleted true r)).
Proof.
  intros Hu Hr Hd H.
  unfold_handlers. rewrite Hu in H. simpl in H. rewrite Hr, Hd in H. simpl in H.
  destruct (s3_delete_ok E) eqn:Hs; simpl in H.
  - destruct (db_ok E) eqn:Hdb; simpl in H; pair_inv H; simpl.
    + split; [discriminate|]. split.
      * intros r' _ _. split; [reflexivity|].
        exists [LogInfo "File deleted successfully"].
        rewrite <- !app_assoc. reflexivity.
      * intros _ _. split; [reflexivity|]. apply lookup_insert_eq.
    + split; [discriminate|]. split; [|discriminate].
      intros r' Hr' Hd'. rewrite Hr in Hr'. congruence.
  - pair_inv H; simpl. split; [auto|]. split; [|discriminate].
    intros r' Hr' Hd'. rewrite Hr in Hr'. congruence.
Qed.

(** C5.  After [delete_file] has succeeded on an id, the row is still
    stored, with [is_deleted = True], and every later [get_file] and
    [delete_file] whose id the filter binds to the id of that row answers
    404 and changes nothing. *)
Theorem soft_deleted_record_not_found
    (E : Env) (file_id : string) (w w' : W) (msg : string) :
  delete_file E file_id w = (Return msg, w') ->
  exists u r,
    uuid_parse E file_id = Some u
    /\ files (db w') !! uuid_bind E u = Some r
    /\ FileMetadata.is_deleted r = true
    /\ forall E' file_id' u',
         uuid_parse E' file_id' = Some u' ->
         uuid_bind E' u' = uuid_bind E u ->
         query_file E' u' w' = (Return None, w')
         /\ get_file E' file_id' w'
            = (Raise (HTTPException 404 (Lit "File not found")), w')
         /\ delete_file E' file_id' w'
            = (Raise (HTTPException 404 (Lit "File not found")), w').
Proof.
  intros H. apply delete_file_returns in H.
  destruct H as (u & r & Hu & Hr & Hd & Hs & Hdb & ->).
  exists u, (FileMetadata.set_is_deleted true r).
  split; [assumption|]. split; [apply lookup_insert_eq|]. split; [reflexivity|].
  intros E' file_id' u' Hu' Hb.
  split.
  - apply (query_file_deleted E' u' _ (FileMetadata.set_is_deleted true r));
      [|reflexivity].
    cbn [db files set_files]. rewrite Hb. apply lookup_insert_eq.
  - unfold_handlers. rewrite Hu'. simpl. rewrite Hb, lookup_insert_eq. simpl.
    split; reflexivity.
Qed.

(** C10.  A [delete_file] that returns has changed, in the database,
    the [is_deleted] flag of the targeted row and nothing else: the other
    columns of the row, the other rows of [files], and the tables [users]
    and [cases] are what they were.  The targeted row is the one whose id
    is the text the filter binds for the parsed [file_id]. *)
Theorem delete_file_frame
    (E : Env) (file_id : string) (w w' : W) (msg : string) :
  delete_file E file_id w = (Return msg, w') ->
  exists u r r',
    uuid_parse E file_id = Some u
    /\ files (db w) !! uuid_bind E u = Some r
    /\ files (db w') !! uuid_bind E u = Some r'
    /\ FileMetadata.is_deleted r = false
    /\ FileMetadata.is_deleted r' = true
    /\ FileMetadata.file_name r' = FileMetadata.file_name r
    /\ FileMetadata.s3_key r' = FileMetadata.s3_key r
    /\ FileMetadata.s3_url r' = FileMetadata.s3_url r
    /\ FileMetadata.file_size r' = FileMetadata.file_size r
    /\ FileMetadata.file_type r' = FileMetadata.file_type r
    /\ FileMetadata.uploaded_at r' = FileMetadata.uploaded_at r
    /\ FileMetadata.case_id r' = FileMetadata.case_id r
    /\ FileMetadata.lawyer_id r' = FileMetadata.lawyer_id r
    /\ FileMetadata.version_id r' = FileMetadata.version_id r
    /\ (forall id, id <> uuid_bind E u ->
          files (db w') !! id = files (db w) !! id)
    /\ users (db w') = users (db w)
    /\ cases (db w') = cases (db w).
Proof.
  intros H. apply delete_file_returns in H.
  destruct H as (u & r & Hu & Hr & Hd & Hs & Hdb & ->).
  exists u, r, (FileMetadata.set_is_deleted true r). simpl.
  repeat (split; [first [assumption | reflexivity | apply lookup_insert_eq]|]).
  split; [|split; reflexivity].
  intros id Hne. apply lookup_insert_ne. congruence.
Qed.

(** The row of the example upload is stored under the canonical text of
    its id, which is the text [env_ok] binds. *)
Lemma lexai_record_stored :
  files (db Examples.lexai_world_uploaded) !! Examples.id4
  = Some Examples.lexai_record.
Proof. vm_compute. reflexivity. Qed.

Lemma delete_file_blob_failure_witness :
  fst (delete_file (Examples.env_s3_down 0) Examples.id4
         Examples.lexai_world_uploaded)
  = Raise (HTTPException 500 (Lit "Failed to delete file from storage"))
  /\ db (snd (delete_file (Examples.env_s3_down 0) Examples.id4
                Examples.lexai_world_uploaded))
     = db Examples.lexai_world_uploaded.
Proof.
  destruct (delete_file_blob_failure_leaves_record
              (Examples.env_s3_down 0) Examples.id4
              Examples.lexai_world_uploaded _ _
              0x5b0c1f6e0d8a4c549a550e1d2c3b4a59%N Examples.lexai_record
              ltac:(vm_compute; reflexivity) ltac:(vm_compute; reflexivity)
              eq_refl (surjective_pairing _))
    as [H _].
  destruct (H eq_refl) as (H1 & H2 & _). split; assumption.
Defined.

Lemma soft_deleted_record_witness :
  exists u r,
    uuid_parse (Examples.env_ok 0) Examples.id4 = Some u
    /\ files (db (snd (delete_file (Examples.env_ok 0) Examples.id4
                         Examples.lexai_world_uploaded)))
         !! uuid_bind (Examples.env_ok 0) u = Some r
    /\ FileMetadata.is_deleted r = true
    /\ fst (get_file (Examples.env_ok 1) Examples.id4
              (snd (delete_file (Examples.env_ok 0) Examples.id4
                      Examples.lexai_world_uploaded)))
       = Raise (HTTPException 404 (Lit "File not found")).
Proof.
  assert (Hrun : delete_file (Examples.env_ok 0) Examples.id4
                   Examples.lexai_world_uploaded
                 = (Return "File deleted successfully",
                    snd (delete_file (Examples.env_ok 0) Examples.id4
                           Examples.lexai_world_uploaded)))
    by (apply run_eq; vm_compute; reflexivity).
  destruct (soft_deleted_record_not_found _ _ _ _ _ Hrun)
    as (u & r & H1 & H2 & H3 & H4).
  exists u, r.
  split; [exact H1|]. split; [exact H2|]. split; [exact H3|].
  destruct (H4 (Examples.env_ok 1) Examples.id4 u H1 eq_refl) as (_ & Hg & _).
  rewrite Hg. reflexivity.
Defined.

Lemma delete_file_frame_witness :
  exists u r r',
    uuid_parse (Examples.env_ok 0) Examples.id4 = Some u
    /\ files (db Examples.lexai_world_uploaded)
         !! uuid_bind (Examples.env_ok 0) u = Some r
    /\ files (db (snd (delete_file (Examples.env_ok 0) Examples.id4
                         Examples.lexai_world_uploaded)))
         !! uuid_bind (Examples.env_ok 0) u = Some r'
    /\ FileMetadata.is_deleted r = false
    /\ FileMetadata.is_deleted r' = true.
Proof.
  assert (Hrun : delete_file (Examples.env_ok 0) Examples.id4
                   Examples.lexai_world_uploaded
                 = (Return "File deleted successfully",
                    snd (delete_file (Examples.env_ok 0) Examples.id4
                           Examples.lexai_world_uploaded)))
    by (apply run_eq; vm_compute; reflexivity).
  destruct (delete_file_frame _ _ _ _ _ Hrun)
    as (u & r & r' & H1 & H2 & H3 & H4 & H5 & _).
  exists u, r, r'.
  split; [exact H1|]. split; [exact H2|]. split; [exact H3|].
  split; [exact H4|exact H5].
Defined.

(** The binding decides whether a stored row is found.  The row of the
    example upload has the canonical text of its id; a filter that binds
    [u.hex] looks for the 32 digits, finds no row, and both handlers
    answer 404 for the file that was just uploaded, leaving it as it was. *)
Example hex_binding_not_found :
  uuid_bind (Examples.env_hex 0) 0x5b0c1f6e0d8a4c549a550e1d2c3b4a59
  = "5b0c1f6e0d8a4c549a550e1d2c3b4a59"
  /\ get_file (Examples.env_hex 0) Examples.id4 Examples.lexai_world_uploaded
     = (Raise (HTTPException 404 (Lit "File not found")),
        Examples.lexai_world_uploaded)
  /\ delete_file (Examples.env_hex 0) Examples.id4 Examples.lexai_world_uploaded
     = (Raise (HTTPException 404 (Lit "File not found")),
        Examples.lexai_world_uploaded).
Proof.
  split; [vm_compute; reflexivity|].
  apply (unbound_id_not_found (Examples.env_hex 0) Examples.id4
           Examples.lexai_world_uploaded 0x5b0c1f6e0d8a4c549a550e1d2c3b4a59%N).
  - vm_compute. reflexivity.
  - vm_compute. reflexivity.
Qed.

End LexAIFacts.

(* ===================================================================== *)
(** ** The size scan of [validate_file] *)
(* ===================================================================== *)

Module ScanFacts.
Import Main.

Lemma set_pos_id (f : UploadFile) : set_pos (pos f) f = f.
Proof. destruct f; reflexivity. Qed.

Lemma set_pos_eq (p q : nat) (f : UploadFile) :
  p = q -> set_pos p f = set_pos q f.
Proof. intros ->. reflexivity. Qed.

(** The loop equation of the [while]. *)
Lemma size_loop_unfold (c : nat) (L : Z) (f : UploadFile) (s : Z) :
  size_loop c L f s =
  match read c f with
  | ([], f') => (Return tt, f')
  | (b :: chunk, f') =>
      if L <? s + Z.of_nat (length (b :: chunk)) then (Raise too_large, f')
      else size_loop c L f' (s + Z.of_nat (length (b :: chunk)))
  end.
Proof.
  funelim (size_loop c L f s); unfold read;
    repeat match goal with
           | H : take _ _ = _ |- _ => rewrite !H; clear H
           | H : (_ <? _) = _ |- _ => rewrite H; clear H
           end; reflexivity.
Qed.

(** The loop moves the position of the stream and changes nothing else. *)
Lemma size_loop_set_pos (c : nat) (L : Z) (f : UploadFile) (s : Z) :
  snd (size_loop c L f s) = set_pos (pos (snd (size_loop c L f s))) f.
Proof.
  funelim (size_loop c L f s); try reflexivity.
  match goal with IH : snd _ = _ |- _ => rewrite IH at 1 end. reflexivity.
Qed.

Lemma read_length (c : nat) (f : UploadFile) :
  length (fst (read c f)) = Nat.min c (length (content f) - pos f).
Proof. unfold read. simpl. rewrite length_take, length_drop. reflexivity. Qed.

(** Within the limit the loop reads the stream to its end and returns. *)
Lemma size_loop_within (c : nat) (L : Z) (f : UploadFile) (s : Z) :
  (0 < c)%nat ->
  s + Z.of_nat (length (content f) - pos f) <= L ->
  size_loop c L f s
  = (Return tt, set_pos (pos f + (length (content f) - pos f)) f).
Proof.
  remember (length (content f) - pos f)%nat as n eqn:Hn.
  revert f s Hn. induction n as [n IH] using lt_wf_ind. intros f s Hn Hc Hle.
  rewrite size_loop_unfold.
  pose proof (read_length c f) as Hlen. unfold read in *. simpl in Hlen.
  destruct (take c (drop (pos f) (content f))) as [|b chunk] eqn:Ht.
  - simpl in Hlen. f_equal. apply set_pos_eq. simpl. lia.
  - remember (length (b :: chunk)) as k eqn:Hk.
    assert (Hk' : (0 < k <= n)%nat) by (simpl in Hk; lia).
    destruct (L <? s + Z.of_nat k) eqn:Hlt.
    + apply Z.ltb_lt in Hlt. lia.
    + rewrite (IH (n - k)%nat); cbn [content pos set_pos]; try lia.
      f_equal. unfold set_pos. cbn [filename content pos closed].
      f_equal. lia.
Qed.

(** Beyond the limit the loop raises at the first chunk that takes the
    running total over it, leaving the position there. *)
Lemma size_loop_exceeds (c : nat) (L : Z) (f : UploadFile) (s : Z) :
  (0 < c)%nat ->
  s <= L ->
  L < s + Z.of_nat (length (content f) - pos f) ->
  exists p : nat,
    size_loop c L f s = (Raise too_large, set_pos p f)
    /\ (pos f < p <= length (content f))%nat
    /\ L < s + Z.of_nat (p - pos f) <= L + Z.of_nat c.
Proof.
  remember (length (content f) - pos f)%nat as n eqn:Hn.
  revert f s Hn. induction n as [n IH] using lt_wf_ind. intros f s Hn Hc Hs Hlt.
  rewrite size_loop_unfold.
  pose proof (read_length c f) as Hlen. unfold read in *. simpl in Hlen.
  destruct (take c (drop (pos f) (content f))) as [|b chunk] eqn:Ht.
  - simpl in Hlen. lia.
  - remember (length (b :: chunk)) as k eqn:Hk.
    assert (Hk' : (0 < k <= n)%nat) by (simpl in Hk; lia).
    assert (Hkc : (k <= c)%nat) by lia.
    destruct (L <? s + Z.of_nat k) eqn:Hcmp.
    + apply Z.ltb_lt in Hcmp.
      exists (pos f + k)%nat. split; [reflexivity|]. lia.
    + apply Z.ltb_ge in Hcmp.
      pose proof (IH (n - k)%nat ltac:(lia) (set_pos (pos f + k) f)
                    (s + Z.of_nat k)) as Hrec.
      cbn [content pos set_pos] in Hrec.
      destruct Hrec as (p & Hrun & Hp & Hbound); [lia ..|].
      exists p. split; [rewrite Hrun; reflexivity|]. lia.
Qed.

(** [validate_file] touches the stream only: it leaves the position at 0
    when it returns. *)
Lemma validate_file_run (w w' : W) (o : outcome unit) :
  validate_file w = (o, w') ->
  exists p : nat,
    w' = mkWorld (db w) (s3 w) (set_pos p (file w)) (trace w)
    /\ (forall u, o = Return u -> p = 0%nat).
Proof.
  unfold validate_file. munfold.
  destruct (closed (file w)); simpl.
  - intros H. injection H as <- <-. exists (pos (file w)). rewrite set_pos_id.
    split; [destruct w; reflexivity|discriminate].
  - pose proof (size_loop_set_pos 1024 MAX_FILE_SIZE (file w) 0) as Hf.
    destruct (size_loop 1024 MAX_FILE_SIZE (file w) 0) as [[[]|e] f'];
      simpl in *.
    + case_bool_decide; intros Hrun; injection Hrun as <- <-;
        exists 0%nat; (split; [rewrite Hf; reflexivity|auto]).
    + intros H. injection H as <- <-. exists (pos f'). rewrite Hf at 1.
      split; [reflexivity|discriminate].
Qed.

End ScanFacts.

(* ===================================================================== *)
(** ** Every upload is one of the listed runs *)
(* ===================================================================== *)

Module MainRuns.
Import Main ScanFacts.

Lemma ud_rejected_early (E : Env) (advocate_id case_id doc_type : string)
    (w : W) (e : exn) :
  upload_document_run E advocate_id case_id doc_type w (Raise e)
    (mkWorld (db w) (s3 w) (set_closed (file w)) (trace w ++ [FileClose])).
Proof.
  rewrite <- (set_pos_id (file w)) at 1. apply ud_rejected.
Qed.

Ltac reject := apply ud_rejected_early.

Lemma upload_document_runs (E : Env) (advocate_id case_id doc_type : string)
    (w : W) :
  upload_document_run E advocate_id case_id doc_type w
    (fst (upload_document E advocate_id case_id doc_type w))
    (snd (upload_document E advocate_id case_id doc_type w)).
Proof.
  unfold upload_document, UUID, upload_to_s3, commit_add_document. munfold.
  destruct (uuid_parse E advocate_id); simpl; [|reject].
  destruct (uuid_parse E case_id); simpl; [|reject].
  destruct (advocates (db w) !! advocate_id); simpl; [|reject].
  destruct (cases (db w) !! case_id); simpl; [|reject].
  case_bool_decide; simpl; [reject|].
  destruct (validate_file w) as [[[]|e] wv] eqn:Hv;
    apply validate_file_run in Hv; destruct Hv as (p & -> & Hp); simpl.
  2: { apply ud_rejected. }
  rewrite (Hp tt eq_refl). clear Hp p.
  destruct (s3_upload_ok E) eqn:Hs3; simpl.
  - destruct (db_ok E); simpl.
    + case_bool_decide as Hpk; simpl.
      * destruct (bool_decide (is_Some (advocates (db w) !! advocate_id))
                  && bool_decide (is_Some (cases (db w) !! case_id)));
          simpl; rewrite <- ?app_assoc; simpl.
        -- destruct (db_refresh_ok E); simpl; rewrite <- ?app_assoc; simpl.
           ++ apply ud_committed; assumption.
           ++ apply ud_refresh_failed; assumption.
        -- apply ud_commit_failed; assumption.
      * rewrite <- ?app_assoc; simpl. apply ud_commit_failed; assumption.
    + rewrite <- ?app_assoc; simpl. apply ud_commit_failed; assumption.
  - rewrite <- ?app_assoc; simpl. apply ud_storage_failed; assumption.
Qed.

End MainRuns.

Module LexAIRuns.
Import LexAI.

Lemma upload_file_runs (E : Env) (adv_id case_id file_type : string) (w : W) :
  upload_file_run E adv_id case_id file_type w
    (fst (upload_file E adv_id case_id file_type w))
    (snd (upload_file E adv_id case_id file_type w)).
Proof.
  unfold upload_file, measure_size, upload_to_s3, UUID, commit_add_file. munfold.
  case_bool_decide; simpl; [|apply uf_rejected].
  destruct (closed (file w)); simpl; [apply uf_rejected|].
  destruct (s3_upload_ok E) eqn:Hs3; simpl.
  - destruct (uuid_parse E case_id) as [c|] eqn:Hc; simpl.
    + destruct (uuid_parse E adv_id) as [l|] eqn:Hl; simpl.
      * destruct (db_ok E); simpl.
        -- destruct (files_insert_ok _ _ _) eqn:Hok; simpl;
             rewrite <- ?app_assoc; simpl.
           ++ destruct (db_refresh_ok E); simpl; rewrite <- ?app_assoc; simpl.
              ** apply (uf_committed E adv_id case_id file_type w c l);
                   assumption.
              ** apply (uf_refresh_failed E adv_id case_id file_type w c l);
                   assumption.
           ++ apply uf_commit_failed; assumption.
        -- rewrite <- ?app_assoc; simpl. apply uf_commit_failed; assumption.
      * rewrite <- ?app_assoc; simpl. apply uf_bad_ids; auto.
    + rewrite <- ?app_assoc; simpl. apply uf_bad_ids; auto.
  - rewrite <- ?app_assoc; simpl. apply uf_storage_failed; assumption.
Qed.

End LexAIRuns.

(* ===================================================================== *)
(** ** Facts about the generated names and keys *)
(* ===================================================================== *)

Module NameFacts.

Lemma contains_app (c : ascii) (a b : string) :
  PyStr.contains c (a +:+ b) = PyStr.contains c a || PyStr.contains c b.
Proof.
  induction a as [|x a IH]; simpl; [reflexivity|].
  rewrite IH. apply orb_assoc.
Qed.

Lemma length_app (a b : string) :
  String.length (a +:+ b) = (String.length a + String.length b)%nat.
Proof. induction a as [|x a IH]; simpl; [reflexivity|]. rewrite IH. reflexivity. Qed.

(** Two concatenations with left parts of one length agree part by part. *)
Lemma app_inj_length (a1 b1 a2 b2 : string) :
  String.length a1 = String.length a2 ->
  a1 +:+ b1 = a2 +:+ b2 -> a1 = a2 /\ b1 = b2.
Proof.
  revert a2. induction a1 as [|x a1 IH]; intros [|y a2] Hlen Heq;
    simpl in *; try discriminate.
  - split; [reflexivity|assumption].
  - injection Heq as -> Heq. injection Hlen as Hlen.
    destruct (IH a2 Hlen Heq) as [-> ->]. split; reflexivity.
Qed.

(** What follows the last ["/"] of a key is its file name. *)
Lemma last_component_inj (p1 n1 p2 n2 : string) :
  PyStr.contains "/" n1 = false ->
  PyStr.contains "/" n2 = false ->
  p1 +:+ "/" +:+ n1 = p2 +:+ "/" +:+ n2 -> n1 = n2.
Proof.
  intros H1 H2. revert p2.
  induction p1 as [|x p1 IH]; intros [|y p2] Heq;
    cbv [append] in Heq; fold append in Heq.
  - injection Heq as Heq. exact Heq.
  - injection Heq as <- Heq. subst n1.
    rewrite contains_app in H1. simpl in H1.
    rewrite orb_true_r in H1. discriminate.
  - injection Heq as -> Heq. subst n2.
    rewrite contains_app in H2. simpl in H2.
    rewrite orb_true_r in H2. discriminate.
  - injection Heq as _ Heq. exact (IH p2 Heq).
Qed.

Lemma hex_char_not_slash (d : N) : Ascii.eqb (PyStr.hex_char d) "/" = false.
Proof.
  unfold PyStr.hex_char.
  repeat match goal with
         | |- context [match ?x with _ => _ end] => destruct x
         end; reflexivity.
Qed.

Lemma hex_acc_length (w : nat) (n : N) (acc : string) :
  String.length (PyStr.hex_acc w n acc) = (w + String.length acc)%nat.
Proof.
  revert n acc. induction w as [|w IH]; intros n acc; simpl; [reflexivity|].
  rewrite IH. simpl. lia.
Qed.

Lemma hex_acc_no_slash (w : nat) (n : N) (acc : string) :
  PyStr.contains "/" acc = false ->
  PyStr.contains "/" (PyStr.hex_acc w n acc) = false.
Proof.
  revert n acc. induction w as [|w IH]; intros n acc Hacc; simpl; [assumption|].
  apply IH. simpl. rewrite hex_char_not_slash, Hacc. reflexivity.
Qed.

Lemma hex_length (w : nat) (n : N) : String.length (PyStr.hex w n) = w.
Proof. unfold PyStr.hex. rewrite hex_acc_length. simpl. lia. Qed.

Lemma hex_no_slash (w : nat) (n : N) : PyStr.contains "/" (PyStr.hex w n) = false.
Proof. apply hex_acc_no_slash. reflexivity. Qed.

(** [str(uuid)] has 36 characters, none of them ["/"]. *)
Lemma uuid_str_length (u : N) : String.length (uuid_str u) = 36%nat.
Proof.
  unfold uuid_str. rewrite !length_app, !hex_length. reflexivity.
Qed.

Lemma uuid_str_no_slash (u : N) : PyStr.contains "/" (uuid_str u) = false.
Proof.
  unfold uuid_str. rewrite !contains_app, !hex_no_slash. reflexivity.
Qed.

Lemma drop_no_slash (i : nat) (s : string) :
  PyStr.contains "/" s = false -> PyStr.contains "/" (PyStr.drop i s) = false.
Proof.
  revert s. induction i as [|i IH]; intros [|x s] H; simpl in *; try assumption.
  apply IH. apply orb_false_iff in H. tauto.
Qed.

(** No component of [s.split("/")] holds a ["/"]. *)
Lemma split_no_sep (s x : string) :
  In x (PyStr.split "/" s) -> PyStr.contains "/" x = false.
Proof.
  revert x. induction s as [|a s IH]; intros x Hin; simpl in Hin.
  - destruct Hin as [<-|[]]. reflexivity.
  - destruct (Ascii.eqb a "/") eqn:Ha.
    + destruct Hin as [<-|Hin]; [reflexivity|auto].
    + destruct (PyStr.split "/" s) as [|h t] eqn:Hs.
      * destruct Hin as [<-|[]]. simpl. rewrite Ha. reflexivity.
      * destruct Hin as [<-|Hin].
        -- simpl. rewrite Ha. apply IH. left. reflexivity.
        -- apply IH. right. assumption.
Qed.

Lemma last_in_or_default {A} (l : list A) (d : A) :
  List.last l d = d \/ In (List.last l d) l.
Proof.
  induction l as [|x [|y l] IH]; simpl in *; auto.
  destruct IH as [IH|IH]; auto.
Qed.

Lemma path_name_no_slash (p : string) : PyStr.contains "/" (path_name p) = false.
Proof.
  unfold path_name.
  match goal with |- context [List.last ?l ?d] =>
    destruct (last_in_or_default l d) as [->|Hin]; [reflexivity|]
  end.
  apply filter_In in Hin. destruct Hin as [Hin _].
  exact (split_no_sep _ _ Hin).
Qed.

(** The extension that [Path(p).suffix] returns holds no ["/"]. *)
Lemma path_suffix_no_slash (p : string) :
  PyStr.contains "/" (path_suffix p) = false.
Proof.
  unfold path_suffix.
  destruct (PyStr.rfind "." (path_name p)) as [i|]; [|reflexivity].
  destruct (_ && _); [|reflexivity].
  apply drop_no_slash, path_name_no_slash.
Qed.

Lemma drop_app_length (a b : string) : PyStr.drop (String.length a) (a +:+ b) = b.
Proof. induction a as [|x a IH]; simpl; [destruct b; reflexivity|exact IH]. Qed.

End NameFacts.

(* ===================================================================== *)
(** ** Events of a request *)
(* ===================================================================== *)

Module TraceFacts.

Lemma new_events_app {DB} (w : World DB) (d : DB) (b : gmap string (list Byte.byte))
    (f : UploadFile) (evs : list event) :
  new_events w (mkWorld d b f (trace w ++ evs)) = evs.
Proof. unfold new_events. simpl. apply drop_app_length. Qed.

(** A list that starts with a successful upload has its commits after it. *)
Lemma write_before_commit_upload_first (k : string) (evs : list event) :
  write_before_commit (S3Upload k true :: evs).
Proof.
  intros [|i] b Hi; [discriminate|].
  exists 0%nat, k. split; [lia|reflexivity].
Qed.

(** A list without commits satisfies the order vacuously. *)
Lemma write_before_commit_no_commit (evs : list event) :
  (forall b, DbCommit b ∉ evs) -> write_before_commit evs.
Proof.
  intros Hno i b Hi. exfalso. apply (Hno b).
  apply list_elem_of_lookup. exists i. exact Hi.
Qed.

End TraceFacts.

(** Decides membership of an event in an explicit list. *)
Ltac elem_of_cases H :=
  repeat (apply elem_of_cons in H; destruct H as [H|H];
          [try discriminate H|]);
  try (apply elem_of_nil in H; destruct H).

Ltac not_elem := let H := fresh "Hin" in intros H; elem_of_cases H.

(* ===================================================================== *)
(** ** The upload pipelines *)
(* ===================================================================== *)

Module UploadFacts.
Import TraceFacts.

(** C2, [src/main.py]. *)
Lemma upload_document_write_then_commit
    (E : Env) (advocate_id case_id doc_type : string) (w w' : Main.W)
    (o : outcome Main.UploadResult) :
  Main.upload_document E advocate_id case_id doc_type w = (o, w') ->
  trace w' = (trace w ++ new_events w w')%list
  /\ write_before_commit (new_events w w')
  /\ (forall k, S3Upload k false ∈ new_events w w' ->
        o = Raise (HTTPException 500 (Lit "Failed to upload file to storage"))
        /\ db w' = db w /\ s3 w' = s3 w)
  /\ (forall id doc,
        Main.documents (db w) !! id = None ->
        Main.documents (db w') !! id = Some doc ->
        exists k, Main.Document.file_path doc = s3_object_url E k
                  /\ s3 w' !! k = Some (content (file w))
                  /\ S3Upload k true ∈ new_events w w').
Proof.
  intros Hrun.
  pose proof (MainRuns.upload_document_runs E advocate_id case_id doc_type w) as R.
  rewrite Hrun in R. simpl in R.
  inversion R; subst; rewrite new_events_app; simpl;
    (split; [reflexivity|]).
  - split; [apply write_before_commit_no_commit; intros b; not_elem|].
    split; [intros k; not_elem|].
    intros id doc Hn Hs. congruence.
  - split; [apply write_before_commit_no_commit; intros b; not_elem|].
    split; [intros k _; auto|].
    intros id doc Hn Hs. congruence.
  - split; [apply write_before_commit_upload_first|].
    split; [intros k; not_elem|].
    intros id doc Hn Hs. congruence.
  - split; [apply write_before_commit_upload_first|].
    split; [intros k; not_elem|].
    intros id doc Hn Hs.
    destruct (decide (uuid_str (uuid4 E 1) = id)) as [<-|Hne].
    + rewrite lookup_insert_eq in Hs. injection Hs as <-.
      eexists. split; [reflexivity|]. rewrite lookup_insert_eq.
      split; [reflexivity|]. apply elem_of_cons. left. reflexivity.
    + rewrite lookup_insert_ne in Hs by assumption. congruence.
  - split; [apply write_before_commit_upload_first|].
    split; [intros k; not_elem|].
    intros id doc Hn Hs.
    destruct (decide (uuid_str (uuid4 E 1) = id)) as [<-|Hne].
    + rewrite lookup_insert_eq in Hs. injection Hs as <-.
      eexists. split; [reflexivity|]. rewrite lookup_insert_eq.
      split; [reflexivity|]. apply elem_of_cons. left. reflexivity.
    + rewrite lookup_insert_ne in Hs by assumption. congruence.
Qed.

(** C2, [src/LexAI/main.py]. *)
Lemma upload_file_write_then_commit
    (E : Env) (adv_id case_id file_type : string) (w w' : LexAI.W)
    (o : outcome LexAI.UploadResult) :
  LexAI.upload_file E adv_id case_id file_type w = (o, w') ->
  trace w' = (trace w ++ new_events w w')%list
  /\ write_before_commit (new_events w w')
  /\ (forall k, S3Upload k false ∈ new_events w w' ->
        o = Raise (HTTPException 500 (Lit "Upload failed"))
        /\ db w' = db w /\ s3 w' = s3 w)
  /\ (forall id row,
        LexAI.files (db w) !! id = None ->
        LexAI.files (db w') !! id = Some row ->
        s3 w' !! LexAI.FileMetadata.s3_key row = Some (content (file w))
        /\ S3Upload (LexAI.FileMetadata.s3_key row) true ∈ new_events w w').
Proof.
  intros Hrun.
  pose proof (LexAIRuns.upload_file_runs E adv_id case_id file_type w) as R.
  rewrite Hrun in R. simpl in R.
  inversion R; subst; rewrite new_events_app; simpl;
    (split; [reflexivity|]).
  - split; [apply write_before_commit_no_commit; intros b; not_elem|].
    split; [intros k; not_elem|].
    intros id row Hn Hs. congruence.
  - split; [apply write_before_commit_no_commit; intros b; not_elem|].
    split; [intros k _; auto|].
    intros id row Hn Hs. congruence.
  - split; [apply write_before_commit_upload_first|].
    split; [intros k; not_elem|].
    intros id row Hn Hs. congruence.
  - split; [apply write_before_commit_upload_first|].
    split; [intros k; not_elem|].
    intros id row Hn Hs. congruence.
  - split; [apply write_before_commit_upload_first|].
    split; [intros k; not_elem|].
    intros id row Hn Hs.
    destruct (decide (uuid_str (uuid4 E 0) = id)) as [<-|Hne].
    + rewrite lookup_insert_eq in Hs. injection Hs as <-. simpl.
      rewrite lookup_insert_eq.
      split; [reflexivity|]. apply elem_of_cons. left. reflexivity.
    + rewrite lookup_insert_ne in Hs by assumption. congruence.
  - split; [apply write_before_commit_upload_first|].
    split; [intros k; not_elem|].
    intros id row Hn Hs.
    destruct (decide (uuid_str (uuid4 E 0) = id)) as [<-|Hne].
    + rewrite lookup_insert_eq in Hs. injection Hs as <-. simpl.
      rewrite lookup_insert_eq.
      split; [reflexivity|]. apply elem_of_cons. left. reflexivity.
    + rewrite lookup_insert_ne in Hs by assumption. congruence.
Qed.

(** C2.  In both upload pipelines the blob is written before the
    metadata is committed: in the events of a request every commit comes
    after a successful upload; when the upload to S3 fails the request ends
    with status 500 and the database and the bucket are what they were; and
    a row that the request has added names a blob that the request has
    written and that the bucket holds. *)
Theorem blob_write_precedes_commit :
  (forall (E : Env) (advocate_id case_id doc_type : string) (w w' : Main.W)
          (o : outcome Main.UploadResult),
      Main.upload_document E advocate_id case_id doc_type w = (o, w') ->
      trace w' = (trace w ++ new_events w w')%list
      /\ write_before_commit (new_events w w')
      /\ (forall k, S3Upload k false ∈ new_events w w' ->
            o = Raise (HTTPException 500 (Lit "Failed to upload file to storage"))
            /\ db w' = db w /\ s3 w' = s3 w)
      /\ (forall id doc,
            Main.documents (db w) !! id = None ->
            Main.documents (db w') !! id = Some doc ->
            exists k, Main.Document.file_path doc = s3_object_url E k
                      /\ s3 w' !! k = Some (content (file w))
                      /\ S3Upload k true ∈ new_events w w'))
  /\ (forall (E : Env) (adv_id case_id file_type : string) (w w' : LexAI.W)
             (o : outcome LexAI.UploadResult),
        LexAI.upload_file E adv_id case_id file_type w = (o, w') ->
        trace w' = (trace w ++ new_events w w')%list
        /\ write_before_commit (new_events w w')
        /\ (forall k, S3Upload k false ∈ new_events w w' ->
              o = Raise (HTTPException 500 (Lit "Upload failed"))
              /\ db w' = db w /\ s3 w' = s3 w)
        /\ (forall id row,
              LexAI.files (db w) !! id = None ->
              LexAI.files (db w') !! id = Some row ->
              s3 w' !! LexAI.FileMetadata.s3_key row = Some (content (file w))
              /\ S3Upload (LexAI.FileMetadata.s3_key row) true
                   ∈ new_events w w')).
Proof.
  split.
  - intros E advocate_id case_id doc_type w w' o.
    apply upload_document_write_then_commit.
  - intros E adv_id case_id file_type w w' o.
    apply upload_file_write_then_commit.
Qed.

Lemma blob_write_precedes_commit_witness :
  write_before_commit
    (new_events Examples.main_world
       (snd (Main.upload_document (Examples.env_ok 7) Examples.id1 Examples.id3
               "evidence" Examples.main_world)))
  /\ write_before_commit
       (new_events Examples.lexai_world
          (snd (LexAI.upload_file (Examples.env_ok 7) Examples.id1 Examples.id3
                  "petition" Examples.lexai_world))).
Proof.
  destruct blob_write_precedes_commit as [Hmain Hlex]. split.
  - exact (proj1 (proj2 (Hmain (Examples.env_ok 7) Examples.id1 Examples.id3
                           "evidence" Examples.main_world _ _
                           (surjective_pairing _)))).
  - exact (proj1 (proj2 (Hlex (Examples.env_ok 7) Examples.id1 Examples.id3
                           "petition" Examples.lexai_world _ _
                           (surjective_pairing _)))).
Defined.

(** Neither pipeline ever asks S3 to delete an object. *)
Lemma upload_document_never_deletes
    (E : Env) (advocate_id case_id doc_type : string) (w : Main.W) :
  no_s3_delete
    (new_events w (snd (Main.upload_document E advocate_id case_id doc_type w))).
Proof.
  pose proof (MainRuns.upload_document_runs E advocate_id case_id doc_type w) as R.
  inversion R; rewrite new_events_app; intros k ok; not_elem.
Qed.

Lemma upload_file_never_deletes
    (E : Env) (adv_id case_id file_type : string) (w : LexAI.W) :
  no_s3_delete
    (new_events w (snd (LexAI.upload_file E adv_id case_id file_type w))).
Proof.
  pose proof (LexAIRuns.upload_file_runs E adv_id case_id file_type w) as R.
  inversion R; rewrite new_events_app; intros k ok; not_elem.
Qed.

(** C1, as the code has it.  When the commit fails after the blob has
    been written, no deletion of the blob is attempted, in either pipeline:
    [upload_document] rolls the session back, logs the failure and answers
    400 "Failed to save document record"; [upload_file] lets the exception
    of the commit propagate.  In both the database is what it was and the
    bucket holds the blob of the request. *)
Theorem commit_failure_leaves_blob :
  (forall (E : Env) (advocate_id case_id doc_type : string) (w w' : Main.W)
          (o : outcome Main.UploadResult),
      Main.upload_document E advocate_id case_id doc_type w = (o, w') ->
      DbCommit false ∈ new_events w w' ->
      o = Raise (HTTPException 400 (Lit "Failed to save document record"))
      /\ new_events w w'
         = [S3Upload (Main.upload_key E advocate_id case_id doc_type w) true;
            DbCommit false; DbRollback;
            LogError "Database operation failed"; FileClose]
      /\ no_s3_delete (new_events w w')
      /\ db w' = db w
      /\ s3 w' !! Main.upload_key E advocate_id case_id doc_type w
         = Some (content (file w)))
  /\ (forall (E : Env) (adv_id case_id file_type : string) (w w' : LexAI.W)
             (o : outcome LexAI.UploadResult),
        LexAI.upload_file E adv_id case_id file_type w = (o, w') ->
        DbCommit false ∈ new_events w w' ->
        o = Raise DatabaseFault
        /\ new_events w w'
           = [S3Upload (LexAI.upload_key adv_id case_id file_type w) true;
              DbCommit false]
        /\ no_s3_delete (new_events w w')
        /\ db w' = db w
        /\ s3 w' !! LexAI.upload_key adv_id case_id file_type w
           = Some (content (file w))).
Proof.
  split.
  - intros E advocate_id case_id doc_type w w' o Hrun Hin.
    pose proof (upload_document_never_deletes E advocate_id case_id doc_type w)
      as Hdel.
    pose proof (MainRuns.upload_document_runs E advocate_id case_id doc_type w)
      as R.
    rewrite Hrun in *. simpl in *.
    inversion R; subst; rewrite new_events_app in *;
      try (exfalso; elem_of_cases Hin; fail).
    repeat (split; [first [reflexivity | assumption]|]).
    simpl. apply lookup_insert_eq.
  - intros E adv_id case_id file_type w w' o Hrun Hin.
    pose proof (upload_file_never_deletes E adv_id case_id file_type w) as Hdel.
    pose proof (LexAIRuns.upload_file_runs E adv_id case_id file_type w) as R.
    rewrite Hrun in *. simpl in *.
    inversion R; subst; rewrite new_events_app in *;
      try (exfalso; elem_of_cases Hin; fail).
    repeat (split; [first [reflexivity | assumption]|]).
    simpl. apply lookup_insert_eq.
Qed.

Lemma commit_failure_leaves_blob_witness :
  fst (Main.upload_document (Examples.env_db_down 7) Examples.id1 Examples.id3
         "evidence" Examples.main_world)
  = Raise (HTTPException 400 (Lit "Failed to save document record"))
  /\ fst (LexAI.upload_file (Examples.env_db_down 7) Examples.id1 Examples.id3
            "petition" Examples.lexai_world)
     = Raise DatabaseFault.
Proof.
  destruct commit_failure_leaves_blob as [Hmain Hlex]. split.
  - refine (proj1 (Hmain (Examples.env_db_down 7) Examples.id1 Examples.id3
                     "evidence" Examples.main_world _ _
                     (surjective_pairing _) _)).
    vm_compute. apply elem_of_cons. right. apply elem_of_cons. left. reflexivity.
  - refine (proj1 (Hlex (Examples.env_db_down 7) Examples.id1 Examples.id3
                     "petition" Examples.lexai_world _ _
                     (surjective_pairing _) _)).
    vm_compute. apply elem_of_cons. right. apply elem_of_cons. left. reflexivity.
Defined.

(** C1 fails as stated: an upload whose commit fails after the blob has
    been written ends without any attempt to delete the blob, which stays
    in the bucket with no row naming it. *)
Lemma upload_document_no_compensating_delete :
  trace (snd (Main.upload_document (Examples.env_db_down 7) Examples.id1
                Examples.id3 "evidence" Examples.main_world))
  = [S3Upload "02c20b1c-7325-40cc-92dc-35d33de9208f/ac965b3d-5ab4-4c41-8268-709b6a17c281/evidence/00000000-0000-0000-0000-000000000007.PDF" true;
     DbCommit false; DbRollback; LogError "Database operation failed";
     FileClose]
  /\ no_s3_delete
       (trace (snd (Main.upload_document (Examples.env_db_down 7) Examples.id1
                      Examples.id3 "evidence" Examples.main_world)))
  /\ s3 (snd (Main.upload_document (Examples.env_db_down 7) Examples.id1
                Examples.id3 "evidence" Examples.main_world))
       !! "02c20b1c-7325-40cc-92dc-35d33de9208f/ac965b3d-5ab4-4c41-8268-709b6a17c281/evidence/00000000-0000-0000-0000-000000000007.PDF"
     = Some Examples.ten_bytes
  /\ Main.documents
       (db (snd (Main.upload_document (Examples.env_db_down 7) Examples.id1
                   Examples.id3 "evidence" Examples.main_world)))
     = ∅.
Proof.
  assert (Ht : trace (snd (Main.upload_document (Examples.env_db_down 7)
                             Examples.id1 Examples.id3 "evidence"
                             Examples.main_world))
               = [S3Upload "02c20b1c-7325-40cc-92dc-35d33de9208f/ac965b3d-5ab4-4c41-8268-709b6a17c281/evidence/00000000-0000-0000-0000-000000000007.PDF" true;
                  DbCommit false; DbRollback;
                  LogError "Database operation failed"; FileClose])
    by (vm_compute; reflexivity).
  split; [exact Ht|]. split; [rewrite Ht; intros k ok; not_elem|].
  split; vm_compute; reflexivity.
Qed.

End UploadFacts.

(* ===================================================================== *)
(** ** The permission gate and the registration of cases *)
(* ===================================================================== *)

Module GateFacts.
Import TraceFacts.

(** C3, as the code has it.  In [upload_document], a request with
    well-formed ids by an advocate that exists, for a case that exists and
    to which the advocate is not joined, is answered 403; the stream is
    closed and nothing else happens: no blob is written and no row added. *)
Theorem upload_document_forbidden
    (E : Env) (advocate_id case_id doc_type : string) (w : Main.W) :
  is_Some (uuid_parse E advocate_id) ->
  is_Some (uuid_parse E case_id) ->
  is_Some (Main.advocates (db w) !! advocate_id) ->
  is_Some (Main.cases (db w) !! case_id) ->
  advocate_id ∉ Main.case_advocate (db w) case_id ->
  Main.upload_document E advocate_id case_id doc_type w
  = (Raise (HTTPException 403
              (Lit "Advocate does not have permission for this case")),
     mkWorld (db w) (s3 w) (set_closed (file w)) (trace w ++ [FileClose])).
Proof.
  intros [u Hu] [c Hc] [a Ha] [k Hk] Hnot.
  unfold Main.upload_document, Main.UUID. munfold.
  rewrite Hu, Hc. simpl. rewrite Ha, Hk. simpl.
  rewrite bool_decide_eq_true_2 by assumption. reflexivity.
Qed.

Lemma upload_document_forbidden_witness :
  Main.upload_document (Examples.env_ok 7) Examples.id4 Examples.id3 "evidence"
    Examples.main_world
  = (Raise (HTTPException 403
              (Lit "Advocate does not have permission for this case")),
     mkWorld (db Examples.main_world) (s3 Examples.main_world)
       (set_closed (file Examples.main_world))
       (trace Examples.main_world ++ [FileClose])).
Proof.
  apply (upload_document_forbidden (Examples.env_ok 7) Examples.id4
           Examples.id3 "evidence" Examples.main_world).
  - vm_compute. eauto.
  - vm_compute. eauto.
  - vm_compute. eauto.
  - vm_compute. eauto.
  - vm_compute. intros H. elem_of_cases H.
Defined.

(** C3 fails as stated on [upload_file]: the second user exists and the
    case was registered by the first, yet the second user's upload to that
    case is answered 200, writes the blob and adds the row. *)
Lemma upload_file_has_no_permission_gate :
  is_Some (LexAI.users Examples.lexai_db !! Examples.id2)
  /\ (LexAI.Case.client_id <$> LexAI.cases Examples.lexai_db !! Examples.id3)
     = Some Examples.id1
  /\ http_status (fst (LexAI.upload_file (Examples.env_ok 7) Examples.id2
                         Examples.id3 "petition" Examples.lexai_world))
     = 200
  /\ new_events Examples.lexai_world
       (snd (LexAI.upload_file (Examples.env_ok 7) Examples.id2 Examples.id3
               "petition" Examples.lexai_world))
     = [S3Upload "151deed3-ce59-4f2a-af97-3490b86b2891/ac965b3d-5ab4-4c41-8268-709b6a17c281/petition/example.txt" true;
        DbCommit true; LogInfo "File uploaded successfully"]
  /\ (LexAI.FileMetadata.lawyer_id <$>
        LexAI.files
          (db (snd (LexAI.upload_file (Examples.env_ok 7) Examples.id2
                      Examples.id3 "petition" Examples.lexai_world)))
          !! "00000000-0000-0000-0000-000000000007")
     = Some Examples.id2.
Proof.
  split; [vm_compute; eauto|].
  repeat split; vm_compute; reflexivity.
Qed.

(** C9, where the code departs from it.  With both ids well formed,
    [register_case] does not answer 404 when the advocate or the client is
    missing: the 404 raised in the [try] block is caught by the handler's
    own [except Exception], which rolls back, logs and answers 400 with the
    caught exception as detail. *)
Theorem register_case_missing_row_is_400
    (E : Env) (case_name advocate_id client_id case_type : string)
    (case_description filing_date : option string) (w : Main.W) :
  is_Some (uuid_parse E advocate_id) ->
  is_Some (uuid_parse E client_id) ->
  Main.advocates (db w) !! advocate_id = None
  \/ Main.clients (db w) !! client_id = None ->
  exists what,
    Main.register_case E case_name advocate_id client_id case_type
      case_description filing_date w
    = (Raise (HTTPException 400 (StrOf (HTTPException 404 (Lit what)))),
       mkWorld (db w) (s3 w) (file w)
         (trace w ++ [DbRollback; LogError "Case registration failed"])).
Proof.
  intros [u Hu] [c Hc] Hmiss.
  unfold Main.register_case, Main.UUID. munfold.
  rewrite Hu, Hc. simpl.
  destruct (Main.advocates (db w) !! advocate_id) as [a|] eqn:Ha; simpl.
  - destruct Hmiss as [Hmiss|Hmiss]; [discriminate|]. rewrite Hmiss. simpl.
    exists "Client not found". rewrite <- app_assoc. reflexivity.
  - exists "Advocate not found". rewrite <- app_assoc. reflexivity.
Qed.

Lemma register_case_missing_row_witness :
  http_status
    (fst (Main.register_case (Examples.env_ok 7) "Case2" Examples.id3
            Examples.id2 "civil" None None Examples.main_world))
  = 400.
Proof.
  destruct (register_case_missing_row_is_400 (Examples.env_ok 7) "Case2"
              Examples.id3 Examples.id2 "civil" None None Examples.main_world)
    as [what Hrun].
  - vm_compute. eauto.
  - vm_compute. eauto.
  - left. vm_compute. reflexivity.
  - rewrite Hrun. reflexivity.
Defined.

(** [register_case] never answers 404. *)
Lemma register_case_never_404
    (E : Env) (case_name advocate_id client_id case_type : string)
    (case_description filing_date : option string) (w : Main.W) :
  http_status
    (fst (Main.register_case E case_name advocate_id client_id case_type
            case_description filing_date w))
  <> 404.
Proof.
  unfold Main.register_case, Main.UUID, Main.commit_add_case. munfold.
  destruct (uuid_parse E advocate_id); simpl; [|discriminate].
  destruct (uuid_parse E client_id); simpl; [|discriminate].
  destruct (Main.advocates (db w) !! advocate_id); simpl; [|discriminate].
  destruct (Main.clients (db w) !! client_id); simpl; [|discriminate].
  destruct (db_ok E); simpl; [|discriminate].
  destruct (_ && _); simpl; [|discriminate].
  destruct (db_refresh_ok E); simpl; discriminate.
Qed.

(** When [register_case] returns, the new case carries the client's id
    and is joined to the advocate. *)
Lemma register_case_links
    (E : Env) (case_name advocate_id client_id case_type : string)
    (case_description filing_date : option string) (w w' : Main.W)
    (r : Main.RegisterCaseResult) :
  Main.register_case E case_name advocate_id client_id case_type
    case_description filing_date w = (Return r, w') ->
  is_Some (Main.advocates (db w) !! advocate_id)
  /\ is_Some (Main.clients (db w) !! client_id)
  /\ (Main.Case.client_id <$> Main.cases (db w') !! Main.rc_case_id r)
     = Some client_id
  /\ (advocate_id, Main.rc_case_id r) ∈ Main.advocate_cases (db w')
  /\ advocate_id ∈ Main.case_advocate (db w') (Main.rc_case_id r).
Proof.
  unfold Main.register_case, Main.UUID, Main.commit_add_case. munfold.
  destruct (uuid_parse E advocate_id); simpl; [|discriminate].
  destruct (uuid_parse E client_id); simpl; [|discriminate].
  destruct (Main.advocates (db w) !! advocate_id) as [a|] eqn:Ha; simpl;
    [|discriminate].
  destruct (Main.clients (db w) !! client_id) as [c|] eqn:Hc; simpl;
    [|discriminate].
  destruct (db_ok E); simpl; [|discriminate].
  destruct (_ && _); simpl; [|discriminate].
  destruct (db_refresh_ok E); simpl; [|discriminate].
  intros H. injection H as <- <-. simpl.
  split; [eauto|]. split; [eauto|].
  split; [rewrite lookup_insert_eq; reflexivity|].
  split; [apply elem_of_app; right; apply elem_of_cons; left; reflexivity|].
  unfold Main.case_advocate. simpl.
  apply list_elem_of_In, filter_In. split.
  - apply in_map_iff. exists (advocate_id, uuid_str (uuid4 E 0)).
    split; [reflexivity|]. apply filter_In. split.
    + apply in_or_app. right. left. reflexivity.
    + cbn [snd]. apply String.eqb_refl.
  - apply bool_decide_eq_true_2. rewrite Ha. eauto.
Qed.

End GateFacts.

(* ===================================================================== *)
(** ** The size check *)
(* ===================================================================== *)

Module SizeFacts.
Import Main ScanFacts TraceFacts.

Lemma max_file_size_value : MAX_FILE_SIZE = 10485760.
Proof. reflexivity. Qed.

(** A stream with more than [MAX_FILE_SIZE] bytes left: the scan raises
    within one chunk of crossing the limit and leaves the position there. *)
Lemma validate_file_oversize (w : W) :
  closed (file w) = false ->
  MAX_FILE_SIZE < remaining (file w) ->
  exists p : nat,
    validate_file w
    = (Raise too_large, mkWorld (db w) (s3 w) (set_pos p (file w)) (trace w))
    /\ (pos (file w) < p <= length (content (file w)))%nat
    /\ MAX_FILE_SIZE < Z.of_nat (p - pos (file w)) <= MAX_FILE_SIZE + 1024.
Proof.
  intros Hopen Hbig. unfold remaining in Hbig.
  destruct (size_loop_exceeds 1024 MAX_FILE_SIZE (file w) 0)
    as (p & Hrun & Hp & Hb); [lia | unfold MAX_FILE_SIZE; lia | lia |].
  exists p. unfold validate_file. munfold. rewrite Hopen, Hrun.
  split; [reflexivity|]. split; [exact Hp|]. lia.
Qed.

(** A stream within the limit: the scan reads it to its end, the position
    is set back to 0, and the extension decides. *)
Lemma validate_file_within (w : W) :
  closed (file w) = false ->
  remaining (file w) <= MAX_FILE_SIZE ->
  validate_file w
  = (if bool_decide (PyStr.lower (path_suffix (filename (file w)))
                     ∈ ALLOWED_EXTENSIONS)
     then Return tt
     else Raise (HTTPException 400
                   (Joined "File type not allowed. Allowed types: "
                           ALLOWED_EXTENSIONS)),
     mkWorld (db w) (s3 w) (set_pos 0 (file w)) (trace w)).
Proof.
  intros Hopen Hfit. unfold remaining in Hfit.
  unfold validate_file. munfold. rewrite Hopen.
  rewrite size_loop_within by lia.
  cbn [filename set_pos]. case_bool_decide; reflexivity.
Qed.

(** An upload of such a stream is rejected before anything is written:
    the request leaves the database and the bucket as they were, its only
    event is the closing of the stream, and past the checks of the ids and
    of the permission the rejection is the 400 of the size check. *)
Lemma upload_document_oversize
    (E : Env) (advocate_id case_id doc_type : string) (w : W) :
  closed (file w) = false ->
  MAX_FILE_SIZE < remaining (file w) ->
  exists (e : exn) (p : nat),
    upload_document E advocate_id case_id doc_type w
    = (Raise e,
       mkWorld (db w) (s3 w) (set_closed (set_pos p (file w)))
         (trace w ++ [FileClose]))
    /\ (is_Some (uuid_parse E advocate_id) ->
        is_Some (uuid_parse E case_id) ->
        is_Some (advocates (db w) !! advocate_id) ->
        is_Some (cases (db w) !! case_id) ->
        advocate_id ∈ case_advocate (db w) case_id ->
        e = too_large /\ (pos (file w) < p)%nat).
Proof.
  intros Hopen Hbig.
  destruct (validate_file_oversize w Hopen Hbig) as (p & Hv & Hp & _).
  unfold upload_document, UUID. munfold.
  destruct (uuid_parse E advocate_id) as [u|]; simpl.
  2: { eexists _, (pos (file w)). rewrite set_pos_id.
       split; [reflexivity|]. intros [? ?]; discriminate. }
  destruct (uuid_parse E case_id) as [c|]; simpl.
  2: { eexists _, (pos (file w)). rewrite set_pos_id.
       split; [reflexivity|]. intros _ [? ?]; discriminate. }
  destruct (advocates (db w) !! advocate_id) as [a|]; simpl.
  2: { eexists _, (pos (file w)). rewrite set_pos_id.
       split; [reflexivity|]. intros _ _ [? ?]; discriminate. }
  destruct (cases (db w) !! case_id) as [k|]; simpl.
  2: { eexists _, (pos (file w)). rewrite set_pos_id.
       split; [reflexivity|]. intros _ _ _ [? ?]; discriminate. }
  case_bool_decide as Hperm; simpl.
  - eexists _, (pos (file w)). rewrite set_pos_id.
    split; [reflexivity|]. intros _ _ _ _ Hin. contradiction.
  - rewrite Hv. simpl.
    exists too_large, p. split; [reflexivity|]. intros _ _ _ _ _.
    split; [reflexivity|lia].
Qed.

(** C8, as the code has it.  The size check reads the stream in chunks
    of 1024 bytes with a running count and raises the 400 of the size check
    within one chunk of the count exceeding [MAX_FILE_SIZE] (10 MiB), before
    any blob is written.  On that abort the position of the stream is not
    set back: it stays where the scan stopped, and the request only closes
    the stream.  The position is set back to 0 when the scan has reached the
    end of the stream within the limit. *)
Theorem size_check_aborts_without_reset (w : W) :
  closed (file w) = false ->
  MAX_FILE_SIZE = 10 * 1024 * 1024
  /\ (MAX_FILE_SIZE < remaining (file w) ->
      (exists p : nat,
         validate_file w
         = (Raise too_large,
            mkWorld (db w) (s3 w) (set_pos p (file w)) (trace w))
         /\ (pos (file w) < p <= length (content (file w)))%nat
         /\ MAX_FILE_SIZE < Z.of_nat (p - pos (file w))
            <= MAX_FILE_SIZE + 1024)
      /\ forall (E : Env) (advocate_id case_id doc_type : string),
           (exists e,
              fst (upload_document E advocate_id case_id doc_type w) = Raise e)
           /\ new_events w
                (snd (upload_document E advocate_id case_id doc_type w))
              = [FileClose]
           /\ s3 (snd (upload_document E advocate_id case_id doc_type w))
              = s3 w
           /\ db (snd (upload_document E advocate_id case_id doc_type w))
              = db w)
  /\ (remaining (file w) <= MAX_FILE_SIZE ->
      file (snd (validate_file w)) = set_pos 0 (file w)).
Proof.
  intros Hopen. split; [reflexivity|]. split.
  - intros Hbig. split; [exact (validate_file_oversize w Hopen Hbig)|].
    intros E advocate_id case_id doc_type.
    destruct (upload_document_oversize E advocate_id case_id doc_type w
                Hopen Hbig) as (e & p & Hrun & _).
    rewrite Hrun. cbn [fst snd]. rewrite new_events_app.
    split; [exists e; reflexivity|]. auto.
  - intros Hfit. rewrite (validate_file_within w Hopen Hfit). reflexivity.
Qed.

Lemma size_check_witness :
  file (snd (validate_file Examples.main_world))
  = set_pos 0 (file Examples.main_world).
Proof.
  refine (proj2 (proj2 (size_check_aborts_without_reset Examples.main_world
                          eq_refl)) _).
  vm_compute. discriminate.
Defined.

Lemma oversize_remaining :
  remaining (file Examples.oversize_world) = MAX_FILE_SIZE + 1.
Proof.
  unfold remaining, Examples.oversize_world, Examples.stream, Examples.zeros.
  cbn [file content pos]. rewrite length_replicate, Nat.sub_0_r.
  unfold MAX_FILE_SIZE. lia.
Qed.

(** C8 fails as stated: on a stream of [MAX_FILE_SIZE + 1] bytes the size
    check raises and the position of the stream is left after the last byte
    read, not at 0; the request then closes the stream, the position
    unchanged. *)
Lemma size_check_abort_keeps_position :
  fst (validate_file Examples.oversize_world) = Raise too_large
  /\ pos (file (snd (validate_file Examples.oversize_world))) <> 0%nat
  /\ fst (upload_document (Examples.env_ok 7) Examples.id1 Examples.id3
            "evidence" Examples.oversize_world)
     = Raise too_large
  /\ pos (file (snd (upload_document (Examples.env_ok 7) Examples.id1
                       Examples.id3 "evidence" Examples.oversize_world)))
     <> 0%nat.
Proof.
  assert (Hbig : MAX_FILE_SIZE < remaining (file Examples.oversize_world))
    by (rewrite oversize_remaining; lia).
  destruct (validate_file_oversize Examples.oversize_world eq_refl Hbig)
    as (p & Hrun & Hp & _).
  destruct (upload_document_oversize (Examples.env_ok 7) Examples.id1
              Examples.id3 "evidence" Examples.oversize_world eq_refl Hbig)
    as (e & q & Hup & Hq).
  destruct Hq as [-> Hq].
  - vm_compute. eauto.
  - vm_compute. eauto.
  - unfold Examples.oversize_world. cbn [db]. vm_compute. eauto.
  - unfold Examples.oversize_world. cbn [db]. vm_compute. eauto.
  - unfold Examples.oversize_world. cbn [db].
    apply list_elem_of_In. vm_compute. left. reflexivity.
  - rewrite Hrun, Hup. cbn [fst snd file pos set_pos set_closed].
    repeat split; first [reflexivity | lia].
Qed.

End SizeFacts.

(* ===================================================================== *)
(** ** File names and storage keys *)
(* ===================================================================== *)

Module KeyFacts.
Import NameFacts TraceFacts.

Lemma append_assoc (a b c : string) : (a +:+ b) +:+ c = a +:+ b +:+ c.
Proof.
  induction a as [|x a IH]; cbv [append]; fold append; [reflexivity|].
  rewrite IH. reflexivity.
Qed.

(** A key ends in ["/"] and the file name. *)
Lemma main_file_key_split (a c t n : string) :
  Main.file_key a c t n = (a +:+ "/" +:+ c +:+ "/" +:+ t) +:+ "/" +:+ n.
Proof. unfold Main.file_key. rewrite !append_assoc. reflexivity. Qed.

Lemma sanitize_filename_no_slash (E : Env) (fname : string) :
  PyStr.contains "/" (Main.sanitize_filename E fname) = false.
Proof.
  unfold Main.sanitize_filename.
  rewrite contains_app, uuid_str_no_slash, path_suffix_no_slash. reflexivity.
Qed.

(** Names generated from different identifiers differ, and so do the keys
    that end in them. *)
Lemma sanitize_filename_inj (E1 E2 : Env) (f1 f2 : string) :
  Main.sanitize_filename E1 f1 = Main.sanitize_filename E2 f2 ->
  uuid_str (uuid4 E1 0) = uuid_str (uuid4 E2 0).
Proof.
  unfold Main.sanitize_filename. intros H.
  apply app_inj_length in H; [tauto|]. rewrite !uuid_str_length. reflexivity.
Qed.

Lemma main_file_key_inj (E1 E2 : Env) (a1 c1 t1 f1 a2 c2 t2 f2 : string) :
  Main.file_key a1 c1 t1 (Main.sanitize_filename E1 f1)
  = Main.file_key a2 c2 t2 (Main.sanitize_filename E2 f2) ->
  uuid_str (uuid4 E1 0) = uuid_str (uuid4 E2 0).
Proof.
  rewrite !main_file_key_split. intros H.
  apply last_component_inj in H; try apply sanitize_filename_no_slash.
  exact (sanitize_filename_inj _ _ _ _ H).
Qed.

(** What an upload that returns has stored. *)
Lemma upload_document_returns
    (E : Env) (advocate_id case_id doc_type : string) (w w' : Main.W)
    (r : Main.UploadResult) :
  Main.upload_document E advocate_id case_id doc_type w = (Return r, w') ->
  Main.file_name r = Main.sanitize_filename E (filename (file w))
  /\ Main.documents (db w') !! Main.document_id r
     = Some (Main.upload_doc E advocate_id case_id doc_type w)
  /\ S3Upload (Main.upload_key E advocate_id case_id doc_type w) true
       ∈ new_events w w'
  /\ s3 w' !! Main.upload_key E advocate_id case_id doc_type w
     = Some (content (file w)).
Proof.
  intros Hrun.
  pose proof (MainRuns.upload_document_runs E advocate_id case_id doc_type w) as R.
  rewrite Hrun in R. simpl in R. inversion R; subst.
  rewrite new_events_app. simpl.
  split; [reflexivity|]. split; [apply lookup_insert_eq|].
  split; [apply elem_of_cons; left; reflexivity|apply lookup_insert_eq].
Qed.

(** C7, as the code has it.  [sanitize_filename] keeps nothing of the
    client's name but its extension, which it appends as given, without
    lower-casing it, to the 36 characters of a fresh [uuid4]: the result
    holds no ["/"], it is the same for two names of one extension, and it is
    the [file_name] that a successful upload returns and stores. *)
Theorem sanitize_filename_keeps_extension_only (E : Env) (fname : string) :
  Main.sanitize_filename E fname = uuid_str (uuid4 E 0) +:+ path_suffix fname
  /\ String.length (uuid_str (uuid4 E 0)) = 36%nat
  /\ PyStr.drop 36 (Main.sanitize_filename E fname) = path_suffix fname
  /\ PyStr.contains "/" (Main.sanitize_filename E fname) = false
  /\ (forall fname',
        path_suffix fname' = path_suffix fname ->
        Main.sanitize_filename E fname' = Main.sanitize_filename E fname)
  /\ (forall (advocate_id case_id doc_type : string) (w w' : Main.W)
             (r : Main.UploadResult),
        filename (file w) = fname ->
        Main.upload_document E advocate_id case_id doc_type w = (Return r, w') ->
        Main.file_name r = Main.sanitize_filename E fname
        /\ (Main.Document.file_name <$>
              Main.documents (db w') !! Main.document_id r)
           = Some (Main.sanitize_filename E fname)).
Proof.
  split; [reflexivity|]. split; [apply uuid_str_length|].
  split.
  { unfold Main.sanitize_filename.
    rewrite <- (uuid_str_length (uuid4 E 0)). apply drop_app_length. }
  split; [apply sanitize_filename_no_slash|].
  split.
  { intros fname' Hext. unfold Main.sanitize_filename. rewrite Hext.
    reflexivity. }
  intros advocate_id case_id doc_type w w' r <- Hrun.
  destruct (upload_document_returns _ _ _ _ _ _ _ Hrun) as (Hn & Hd & _).
  split; [exact Hn|]. rewrite Hd. reflexivity.
Qed.

Lemma sanitize_filename_witness :
  (Main.Document.file_name <$>
     Main.documents
       (db (snd (Main.upload_document (Examples.env_ok 7) Examples.id1
                   Examples.id3 "evidence" Examples.main_world)))
       !! "00000000-0000-0000-0000-000000000008")
  = Some (Main.sanitize_filename (Examples.env_ok 7) "Brief.PDF").
Proof.
  assert (Hrun : Main.upload_document (Examples.env_ok 7) Examples.id1
                   Examples.id3 "evidence" Examples.main_world
                 = (Return (Main.mkUploadResult
                              "00000000-0000-0000-0000-000000000008"
                              "https://lexai-docs.s3.amazonaws.com/02c20b1c-7325-40cc-92dc-35d33de9208f/ac965b3d-5ab4-4c41-8268-709b6a17c281/evidence/00000000-0000-0000-0000-000000000007.PDF"
                              "00000000-0000-0000-0000-000000000007.PDF"),
                    snd (Main.upload_document (Examples.env_ok 7) Examples.id1
                           Examples.id3 "evidence" Examples.main_world)))
    by (apply run_eq; vm_compute; reflexivity).
  destruct (sanitize_filename_keeps_extension_only (Examples.env_ok 7)
              "Brief.PDF") as (_ & _ & _ & _ & _ & Hup).
  destruct (Hup Examples.id1 Examples.id3 "evidence" Examples.main_world
              _ _ eq_refl Hrun) as [_ Hd].
  exact Hd.
Defined.

(** C7 fails as stated: the extension is kept in the case the client
    sent it in.  ["Brief.PDF"] passes the extension check, which compares in
    lower case, and is stored under a name that ends in [".PDF"]. *)
Lemma sanitize_filename_keeps_case :
  Main.sanitize_filename (Examples.env_ok 7) "Brief.PDF"
  = "00000000-0000-0000-0000-000000000007.PDF"
  /\ Main.sanitize_filename (Examples.env_ok 7) "Brief.PDF"
     <> uuid_str (uuid4 (Examples.env_ok 7) 0)
        +:+ PyStr.lower (path_suffix "Brief.PDF")
  /\ (Main.Document.file_name <$>
        Main.documents
          (db (snd (Main.upload_document (Examples.env_ok 7) Examples.id1
                      Examples.id3 "evidence" Examples.main_world)))
          !! "00000000-0000-0000-0000-000000000008")
     = Some "00000000-0000-0000-0000-000000000007.PDF".
Proof.
  split; [vm_compute; reflexivity|].
  split; [vm_compute; discriminate|vm_compute; reflexivity].
Qed.

(** What an upload through [upload_file] that returns has stored. *)
Lemma upload_file_returns
    (E : Env) (adv_id case_id file_type : string) (w w' : LexAI.W)
    (r : LexAI.UploadResult) :
  LexAI.upload_file E adv_id case_id file_type w = (Return r, w') ->
  exists row,
    LexAI.files (db w') !! LexAI.up_file_id r = Some row
    /\ LexAI.FileMetadata.s3_key row
       = LexAI.file_key adv_id case_id file_type (filename (file w)).
Proof.
  intros Hrun.
  pose proof (LexAIRuns.upload_file_runs E adv_id case_id file_type w) as R.
  rewrite Hrun in R. simpl in R. inversion R; subst. simpl.
  eexists. split; [apply lookup_insert_eq|reflexivity].
Qed.

(** The [unique=True] of [s3_key] keeps the keys of [files] distinct. *)
Lemma upload_file_keeps_keys_unique
    (E : Env) (adv_id case_id file_type : string) (w : LexAI.W) :
  LexAI.s3_keys_unique (db w) ->
  LexAI.s3_keys_unique
    (db (snd (LexAI.upload_file E adv_id case_id file_type w))).
Proof.
  intros Huniq.
  pose proof (LexAIRuns.upload_file_runs E adv_id case_id file_type w) as R.
  assert (Hins : forall c l,
             LexAI.files_insert_ok (db w) (uuid_str (uuid4 E 0))
               (LexAI.upload_row E adv_id case_id file_type w c l) = true ->
             LexAI.s3_keys_unique
               (LexAI.set_files
                  (<[uuid_str (uuid4 E 0) :=
                       LexAI.upload_row E adv_id case_id file_type w c l]>
                     (LexAI.files (db w))) (db w))).
  { intros c l Hok. unfold LexAI.files_insert_ok in Hok.
    repeat (apply andb_true_iff in Hok; destruct Hok as [Hok ?]).
    apply bool_decide_eq_true in Hok.
    match goal with H : bool_decide (map_Forall _ _) = true |- _ =>
      apply bool_decide_eq_true in H; rename H into Hfresh end.
    intros i j r1 r2 Hi Hj Hkey. simpl in Hi, Hj.
    destruct (decide (uuid_str (uuid4 E 0) = i)) as [<-|Hni];
      destruct (decide (uuid_str (uuid4 E 0) = j)) as [<-|Hnj];
      [reflexivity| | |].
    - rewrite lookup_insert_eq in Hi. injection Hi as <-.
      rewrite lookup_insert_ne in Hj by assumption.
      exfalso. exact (Hfresh j r2 Hj (eq_sym Hkey)).
    - rewrite lookup_insert_eq in Hj. injection Hj as <-.
      rewrite lookup_insert_ne in Hi by assumption.
      exfalso. exact (Hfresh i r1 Hi Hkey).
    - rewrite lookup_insert_ne in Hi by assumption.
      rewrite lookup_insert_ne in Hj by assumption.
      exact (Huniq i j r1 r2 Hi Hj Hkey). }
  inversion R; simpl; auto.
Qed.

(** C6, as the code has it.  [upload_document] builds the key as
    [{advocate_id}/{case_id}/{doc_type}/{generated name}], and two uploads
    whose generated identifiers differ write under different keys and store
    different names.  [upload_file] ends the key in the file name the client
    sent; there the rows of two uploads have different keys because
    [s3_key] is unique in the table. *)
Theorem storage_keys_distinct :
  (forall (E1 E2 : Env) (a1 c1 t1 a2 c2 t2 : string)
          (w1 w1' w2 w2' : Main.W) (r1 r2 : Main.UploadResult),
      Main.upload_document E1 a1 c1 t1 w1 = (Return r1, w1') ->
      Main.upload_document E2 a2 c2 t2 w2 = (Return r2, w2') ->
      uuid_str (uuid4 E1 0) <> uuid_str (uuid4 E2 0) ->
      Main.upload_key E1 a1 c1 t1 w1
      = a1 +:+ "/" +:+ c1 +:+ "/" +:+ t1 +:+ "/" +:+ Main.file_name r1
      /\ S3Upload (Main.upload_key E1 a1 c1 t1 w1) true ∈ new_events w1 w1'
      /\ S3Upload (Main.upload_key E2 a2 c2 t2 w2) true ∈ new_events w2 w2'
      /\ Main.upload_key E1 a1 c1 t1 w1 <> Main.upload_key E2 a2 c2 t2 w2
      /\ Main.file_name r1 <> Main.file_name r2)
  /\ (forall (E : Env) (adv_id case_id file_type : string) (w w' : LexAI.W)
             (r : LexAI.UploadResult),
        LexAI.upload_file E adv_id case_id file_type w = (Return r, w') ->
        (exists row,
           LexAI.files (db w') !! LexAI.up_file_id r = Some row
           /\ LexAI.FileMetadata.s3_key row
              = adv_id +:+ "/" +:+ case_id +:+ "/" +:+ file_type +:+ "/"
                +:+ filename (file w))
        /\ (LexAI.s3_keys_unique (db w) -> LexAI.s3_keys_unique (db w'))).
Proof.
  split.
  - intros E1 E2 a1 c1 t1 a2 c2 t2 w1 w1' w2 w2' r1 r2 H1 H2 Hne.
    destruct (upload_document_returns _ _ _ _ _ _ _ H1) as (Hn1 & _ & Hu1 & _).
    destruct (upload_document_returns _ _ _ _ _ _ _ H2) as (Hn2 & _ & Hu2 & _).
    split; [rewrite Hn1; reflexivity|].
    split; [exact Hu1|]. split; [exact Hu2|]. split.
    + intros Hk. apply Hne. exact (main_file_key_inj _ _ _ _ _ _ _ _ _ _ Hk).
    + rewrite Hn1, Hn2. intros Hk. apply Hne.
      exact (sanitize_filename_inj _ _ _ _ Hk).
  - intros E adv_id case_id file_type w w' r Hrun.
    split; [exact (upload_file_returns _ _ _ _ _ _ _ Hrun)|].
    intros Huniq.
    pose proof (upload_file_keeps_keys_unique E adv_id case_id file_type w
                  Huniq) as Hk.
    rewrite Hrun in Hk. exact Hk.
Qed.

Lemma storage_keys_distinct_witness :
  Main.upload_key (Examples.env_ok 7) Examples.id1 Examples.id3 "evidence"
    Examples.main_world
  <> Main.upload_key (Examples.env_ok 9) Examples.id1 Examples.id3 "evidence"
       Examples.main_world.
Proof.
  assert (H1 : Main.upload_document (Examples.env_ok 7) Examples.id1
                 Examples.id3 "evidence" Examples.main_world
               = (Return (Main.mkUploadResult
                            "00000000-0000-0000-0000-000000000008"
                            "https://lexai-docs.s3.amazonaws.com/02c20b1c-7325-40cc-92dc-35d33de9208f/ac965b3d-5ab4-4c41-8268-709b6a17c281/evidence/00000000-0000-0000-0000-000000000007.PDF"
                            "00000000-0000-0000-0000-000000000007.PDF"),
                  snd (Main.upload_document (Examples.env_ok 7) Examples.id1
                         Examples.id3 "evidence" Examples.main_world)))
    by (apply run_eq; vm_compute; reflexivity).
  assert (H2 : Main.upload_document (Examples.env_ok 9) Examples.id1
                 Examples.id3 "evidence" Examples.main_world
               = (Return (Main.mkUploadResult
                            "00000000-0000-0000-0000-00000000000a"
                            "https://lexai-docs.s3.amazonaws.com/02c20b1c-7325-40cc-92dc-35d33de9208f/ac965b3d-5ab4-4c41-8268-709b6a17c281/evidence/00000000-0000-0000-0000-000000000009.PDF"
                            "00000000-0000-0000-0000-000000000009.PDF"),
                  snd (Main.upload_document (Examples.env_ok 9) Examples.id1
                         Examples.id3 "evidence" Examples.main_world)))
    by (apply run_eq; vm_compute; reflexivity).
  assert (Hne : uuid_str (uuid4 (Examples.env_ok 7) 0)
                <> uuid_str (uuid4 (Examples.env_ok 9) 0))
    by (vm_compute; discriminate).
  destruct storage_keys_distinct as [Hmain _].
  exact (proj1 (proj2 (proj2 (proj2 (Hmain _ _ _ _ _ _ _ _ _ _ _ _ _ _
                                        H1 H2 Hne))))).
Defined.

(** C6 fails as stated on [upload_file]: its key has no generated part.
    The key of a second upload of a file named ["example.txt"] is the key
    of the first, whatever the identifiers drawn; the second upload replaces
    the blob of the first and is then refused by the commit. *)
Lemma upload_file_key_is_client_name :
  uuid_str (uuid4 (Examples.env_ok 0x5b0c1f6e0d8a4c549a550e1d2c3b4a59) 0)
  <> uuid_str (uuid4 (Examples.env_ok 7) 0)
  /\ LexAI.upload_key Examples.id1 Examples.id3 "petition" Examples.lexai_world
     = "02c20b1c-7325-40cc-92dc-35d33de9208f/ac965b3d-5ab4-4c41-8268-709b6a17c281/petition/example.txt"
  /\ LexAI.upload_key Examples.id1 Examples.id3 "petition"
       Examples.lexai_world_second
     = "02c20b1c-7325-40cc-92dc-35d33de9208f/ac965b3d-5ab4-4c41-8268-709b6a17c281/petition/example.txt"
  /\ s3 Examples.lexai_world_second
       !! "02c20b1c-7325-40cc-92dc-35d33de9208f/ac965b3d-5ab4-4c41-8268-709b6a17c281/petition/example.txt"
     = Some Examples.ten_bytes
  /\ new_events Examples.lexai_world_second
       (snd (LexAI.upload_file (Examples.env_ok 7) Examples.id1 Examples.id3
               "petition" Examples.lexai_world_second))
     = [S3Upload "02c20b1c-7325-40cc-92dc-35d33de9208f/ac965b3d-5ab4-4c41-8268-709b6a17c281/petition/example.txt" true;
        DbCommit false]
  /\ s3 (snd (LexAI.upload_file (Examples.env_ok 7) Examples.id1 Examples.id3
                "petition" Examples.lexai_world_second))
       !! "02c20b1c-7325-40cc-92dc-35d33de9208f/ac965b3d-5ab4-4c41-8268-709b6a17c281/petition/example.txt"
     = Some Examples.other_bytes
  /\ fst (LexAI.upload_file (Examples.env_ok 7) Examples.id1 Examples.id3
            "petition" Examples.lexai_world_second)
     = Raise DatabaseFault.
Proof.
  split; [vm_compute; discriminate|].
  repeat split; vm_compute; reflexivity.
Qed.

End KeyFacts.

(* ===================================================================== *)
(** ** More on [src/LexAI]: reading, deleting, uploading, registering *)
(* ===================================================================== *)

Module LexAIMore.
Import LexAI TraceFacts.

Ltac unfold_all :=
  unfold upload_file, get_file, delete_file, register_user, register_case,
    measure_size, upload_to_s3, delete_from_s3, generate_presigned_url,
    UUID, query_file, commit_add_file, commit_soft_delete, commit_add_user,
    commit_add_case in *;
  munfold.

Lemma s3_object_url_not_empty (E : Env) (k : string) :
  falsy (Some (s3_object_url E k)) = false.
Proof. reflexivity. Qed.

Lemma get_file_db (E : Env) (file_id : string) (w : W) :
  db (snd (get_file E file_id w)) = db w.
Proof.
  unfold_all.
  destruct (uuid_parse E file_id) as [u|]; simpl; [|auto].
  destruct (files (db w) !! uuid_bind E u) as [r|]; simpl; [|auto].
  destruct (FileMetadata.is_deleted r); simpl; [auto|].
  destruct (s3_presign E (FileMetadata.s3_key r)) as [url|]; simpl; [|auto].
  destruct (String.eqb url ""); simpl; auto.
Qed.

(** X1.  [get_file] only reads: whatever it answers, the database, the
    bucket and the stream are what they were. *)
Theorem get_file_read_only (E : Env) (file_id : string) (w : W) :
  db (snd (get_file E file_id w)) = db w
  /\ s3 (snd (get_file E file_id w)) = s3 w
  /\ file (snd (get_file E file_id w)) = file w.
Proof.
  unfold_all.
  destruct (uuid_parse E file_id) as [u|]; simpl; [|auto].
  destruct (files (db w) !! uuid_bind E u) as [r|]; simpl; [|auto].
  destruct (FileMetadata.is_deleted r); simpl; [auto|].
  destruct (s3_presign E (FileMetadata.s3_key r)) as [url|]; simpl; [|auto].
  destruct (String.eqb url ""); simpl; auto.
Qed.

(** X2.  A malformed id is refused with 400 before anything is looked up or
    touched, by [get_file] and by [delete_file]. *)
Theorem malformed_file_id_rejected (E : Env) (file_id : string) (w : W) :
  uuid_parse E file_id = None ->
  get_file E file_id w
  = (Raise (HTTPException 400 (Lit "Invalid file_id format")), w)
  /\ delete_file E file_id w
     = (Raise (HTTPException 400 (Lit "Invalid file_id format")), w).
Proof.
  intros Hu. unfold_all. rewrite Hu. simpl. split; reflexivity.
Qed.

Lemma malformed_file_id_witness :
  get_file (Examples.env_ok 0) "not-a-uuid" Examples.lexai_world
  = (Raise (HTTPException 400 (Lit "Invalid file_id format")),
     Examples.lexai_world)
  /\ delete_file (Examples.env_ok 0) "not-a-uuid" Examples.lexai_world
     = (Raise (HTTPException 400 (Lit "Invalid file_id format")),
        Examples.lexai_world).
Proof.
  apply (malformed_file_id_rejected (Examples.env_ok 0) "not-a-uuid"
           Examples.lexai_world).
  vm_compute. reflexivity.
Defined.

Lemma get_file_live_url
    (E : Env) (file_id : string) (w : W) (u : N) (r : FileMetadata.t)
    (url : string) :
  uuid_parse E file_id = Some u ->
  files (db w) !! uuid_bind E u = Some r ->
  FileMetadata.is_deleted r = false ->
  s3_presign E (FileMetadata.s3_key r) = Some url -> url <> "" ->
  get_file E file_id w
  = (Return (mkFileView (FileMetadata.file_name r) url
               (FileMetadata.file_size r) (FileMetadata.file_type r)
               (FileMetadata.uploaded_at r)),
     mkWorld (db w) (s3 w) (file w)
       (trace w ++ [S3Presign (FileMetadata.s3_key r) true])).
Proof.
  intros Hu Hr Hd Hurl Hne. unfold_all. rewrite Hu. simpl.
  rewrite Hr, Hd, Hurl. simpl.
  destruct (String.eqb_spec url ""); [contradiction|]. reflexivity.
Qed.

(** X3.  What [get_file] answers for a record that the lookup finds (the
    row whose id is the text the filter binds for the parsed [file_id]) and
    that is not deleted: the columns of the record with a fresh presigned
    URL, and 500 when no URL can be generated. *)
Theorem get_file_live_record
    (E : Env) (file_id : string) (w : W) (u : N) (r : FileMetadata.t) :
  uuid_parse E file_id = Some u ->
  files (db w) !! uuid_bind E u = Some r ->
  FileMetadata.is_deleted r = false ->
  (forall url, s3_presign E (FileMetadata.s3_key r) = Some url -> url <> "" ->
     get_file E file_id w
     = (Return (mkFileView (FileMetadata.file_name r) url
                  (FileMetadata.file_size r) (FileMetadata.file_type r)
                  (FileMetadata.uploaded_at r)),
        mkWorld (db w) (s3 w) (file w)
          (trace w ++ [S3Presign (FileMetadata.s3_key r) true])))
  /\ (s3_presign E (FileMetadata.s3_key r) = None ->
      get_file E file_id w
      = (Raise (HTTPException 500 (Lit "Could not generate access URL")),
         mkWorld (db w) (s3 w) (file w)
           (trace w ++ [S3Presign (FileMetadata.s3_key r) false;
                        LogError "Error generating presigned URL";
                        LogError "Failed to generate presigned URL for file"]))).
Proof.
  intros Hu Hr Hd. split.
  - intros url Hurl Hne. exact (get_file_live_url _ _ _ _ _ _ Hu Hr Hd Hurl Hne).
  - intros Hurl. unfold_all. rewrite Hu. simpl. rewrite Hr, Hd, Hurl. simpl.
    rewrite <- !app_assoc. reflexivity.
Qed.

Lemma get_file_live_record_witness :
  get_file (Examples.env_ok 0) Examples.id4 Examples.lexai_world_uploaded
  = (Return (mkFileView "example.txt"
               "https://lexai-docs.s3.amazonaws.com/02c20b1c-7325-40cc-92dc-35d33de9208f/ac965b3d-5ab4-4c41-8268-709b6a17c281/petition/example.txt?X-Amz-Expires=3600"
               10 "petition" 1700000000),
     mkWorld (db Examples.lexai_world_uploaded) (s3 Examples.lexai_world_uploaded)
       (file Examples.lexai_world_uploaded)
       (trace Examples.lexai_world_uploaded
          ++ [S3Presign (FileMetadata.s3_key Examples.lexai_record) true])).
Proof.
  refine (proj1 (get_file_live_record (Examples.env_ok 0) Examples.id4
                   Examples.lexai_world_uploaded
                   0x5b0c1f6e0d8a4c549a550e1d2c3b4a59%N Examples.lexai_record
                   _ _ eq_refl) _ _ _).
  - vm_compute. reflexivity.
  - vm_compute. reflexivity.
  - vm_compute. reflexivity.
  - discriminate.
Defined.

(** X4.  A [delete_file] that returns has removed the blob of the record
    it found (the row whose id is the text the filter binds for the parsed
    [file_id]) from the bucket and no other object. *)
Theorem delete_file_removes_blob
    (E : Env) (file_id : string) (w w' : W) (msg : string) :
  delete_file E file_id w = (Return msg, w') ->
  exists u r,
    uuid_parse E file_id = Some u
    /\ files (db w) !! uuid_bind E u = Some r
    /\ s3 w' !! FileMetadata.s3_key r = None
    /\ forall k, k <> FileMetadata.s3_key r -> s3 w' !! k = s3 w !! k.
Proof.
  intros H. apply LexAIFacts.delete_file_returns in H.
  destruct H as (u & r & Hu & Hr & _ & _ & _ & ->).
  exists u, r. split; [exact Hu|]. split; [exact Hr|]. simpl.
  split; [apply lookup_delete_eq|].
  intros k Hk. apply lookup_delete_ne. congruence.
Qed.

Lemma delete_file_removes_blob_witness :
  exists u r,
    uuid_parse (Examples.env_ok 0) Examples.id4 = Some u
    /\ files (db Examples.lexai_world_uploaded) !! uuid_bind (Examples.env_ok 0) u = Some r
    /\ s3 (snd (delete_file (Examples.env_ok 0) Examples.id4
                  Examples.lexai_world_uploaded))
         !! FileMetadata.s3_key r = None.
Proof.
  assert (Hrun : delete_file (Examples.env_ok 0) Examples.id4
                   Examples.lexai_world_uploaded
                 = (Return "File deleted successfully",
                    snd (delete_file (Examples.env_ok 0) Examples.id4
                           Examples.lexai_world_uploaded)))
    by (apply run_eq; vm_compute; reflexivity).
  destruct (delete_file_removes_blob _ _ _ _ _ Hrun) as (u & r & H1 & H2 & H3 & _).
  exists u, r. split; [exact H1|]. split; [exact H2|exact H3].
Defined.

(** X5.  When the lookup has found the record, the blob has been deleted
    and the commit of the flag then fails, [delete_file] ends with the
    exception of the commit: the blob is gone from the bucket while the
    record is still stored as not deleted, and the same lookup keeps
    finding it. *)
Theorem delete_file_commit_failure
    (E : Env) (file_id : string) (w : W) (u : N) (r : FileMetadata.t) :
  uuid_parse E file_id = Some u ->
  files (db w) !! uuid_bind E u = Some r ->
  FileMetadata.is_deleted r = false ->
  s3_delete_ok E = true ->
  db_ok E = false ->
  delete_file E file_id w
  = (Raise DatabaseFault,
     mkWorld (db w) (delete (FileMetadata.s3_key r) (s3 w)) (file w)
       (trace w ++ [S3Delete (FileMetadata.s3_key r) true; DbCommit false]))
  /\ s3 (snd (delete_file E file_id w)) !! FileMetadata.s3_key r = None
  /\ query_file E u (snd (delete_file E file_id w))
     = (Return (Some r), snd (delete_file E file_id w)).
Proof.
  intros Hu Hr Hd Hs Hdb.
  assert (Hrun : delete_file E file_id w
                 = (Raise DatabaseFault,
                    mkWorld (db w) (delete (FileMetadata.s3_key r) (s3 w))
                      (file w)
                      (trace w ++ [S3Delete (FileMetadata.s3_key r) true;
                                   DbCommit false]))).
  { unfold_all. rewrite Hu. simpl. rewrite Hr, Hd, Hs. simpl.
    rewrite Hdb. simpl. rewrite <- !app_assoc. reflexivity. }
  rewrite Hrun. split; [reflexivity|]. simpl.
  split; [apply lookup_delete_eq|].
  apply LexAIFacts.query_file_live; assumption.
Qed.

Lemma delete_file_commit_failure_witness :
  fst (delete_file (Examples.env_db_down 0) Examples.id4
         Examples.lexai_world_uploaded)
  = Raise DatabaseFault.
Proof.
  pose proof (delete_file_commit_failure (Examples.env_db_down 0) Examples.id4
                Examples.lexai_world_uploaded
                0x5b0c1f6e0d8a4c549a550e1d2c3b4a59%N Examples.lexai_record
                ltac:(vm_compute; reflexivity) ltac:(vm_compute; reflexivity)
                eq_refl eq_refl eq_refl) as [Hrun _].
  rewrite Hrun. reflexivity.
Defined.

(** X6.  A document category outside the allowed four is refused with 400
    before the stream, the bucket or the database is touched. *)
Theorem upload_file_invalid_type
    (E : Env) (adv_id case_id file_type : string) (w : W) :
  file_type ∉ allowed_types ->
  upload_file E adv_id case_id file_type w
  = (Raise (HTTPException 400
              (Joined "Invalid file_type. Allowed values: " allowed_types)),
     mkWorld (db w) (s3 w) (file w)
       (trace w ++ [LogError "Invalid file_type provided"])).
Proof.
  intros Hty. unfold_all.
  rewrite bool_decide_eq_false_2 by assumption. reflexivity.
Qed.

Lemma upload_file_invalid_type_witness :
  upload_file (Examples.env_ok 7) Examples.id1 Examples.id3 "LEGAL_DOCUMENT"
    Examples.lexai_world
  = (Raise (HTTPException 400
              (Joined "Invalid file_type. Allowed values: " allowed_types)),
     mkWorld (db Examples.lexai_world) (s3 Examples.lexai_world)
       (file Examples.lexai_world)
       (trace Examples.lexai_world ++ [LogError "Invalid file_type provided"])).
Proof.
  apply (upload_file_invalid_type (Examples.env_ok 7) Examples.id1
           Examples.id3 "LEGAL_DOCUMENT" Examples.lexai_world).
  intros H. elem_of_cases H.
Defined.

(** X7.  [upload_file] parses [case_id] and [adv_id] only after the upload
    to S3: with a malformed id the request is answered 400, the blob has
    been written and no row names it. *)
Theorem upload_file_malformed_ids_after_write
    (E : Env) (adv_id case_id file_type : string) (w : W) :
  file_type ∈ allowed_types ->
  closed (file w) = false ->
  s3_upload_ok E = true ->
  uuid_parse E case_id = None \/ uuid_parse E adv_id = None ->
  upload_file E adv_id case_id file_type w
  = (Raise (HTTPException 400
              (Lit "Invalid IDs provided. Ensure adv_id and case_id are valid UUIDs.")),
     mkWorld (db w)
       (<[upload_key adv_id case_id file_type w := content (file w)]> (s3 w))
       (set_pos (length (content (file w))) (file w))
       (trace w ++ [S3Upload (upload_key adv_id case_id file_type w) true;
                    LogError "Error creating file metadata record"])).
Proof.
  intros Hty Hopen Hs3 Hbad. unfold_all.
  rewrite bool_decide_eq_true_2 by assumption. simpl.
  rewrite Hopen. simpl. rewrite Hs3. simpl.
  destruct (uuid_parse E case_id) as [c|]; simpl.
  - destruct Hbad as [Hbad|Hbad]; [discriminate|]. rewrite Hbad. simpl.
    rewrite <- !app_assoc. reflexivity.
  - rewrite <- !app_assoc. reflexivity.
Qed.

Lemma upload_file_malformed_ids_witness :
  fst (upload_file (Examples.env_ok 7) "advocate-1" Examples.id3 "petition"
         Examples.lexai_world)
  = Raise (HTTPException 400
             (Lit "Invalid IDs provided. Ensure adv_id and case_id are valid UUIDs.")).
Proof.
  rewrite (upload_file_malformed_ids_after_write (Examples.env_ok 7)
             "advocate-1" Examples.id3 "petition" Examples.lexai_world).
  - reflexivity.
  - apply list_elem_of_In. left. reflexivity.
  - reflexivity.
  - reflexivity.
  - right. vm_compute. reflexivity.
Defined.

(** The conditions under which [upload_file] returns, and what it has
    then done. *)
Lemma upload_file_return_shape
    (E : Env) (adv_id case_id file_type : string) (w : W) :
  (exists r, fst (upload_file E adv_id case_id file_type w) = Return r) ->
  file_type ∈ allowed_types
  /\ closed (file w) = false
  /\ s3_upload_ok E = true
  /\ db_ok E = true
  /\ db_refresh_ok E = true
  /\ exists c l,
       uuid_parse E case_id = Some c
       /\ uuid_parse E adv_id = Some l
       /\ files_insert_ok (db w) (uuid_str (uuid4 E 0))
            (upload_row E adv_id case_id file_type w c l) = true
       /\ upload_file E adv_id case_id file_type w
          = (Return (mkUploadResult "File uploaded successfully"
                       (uuid_str (uuid4 E 0))
                       (s3_object_url E
                          (upload_key adv_id case_id file_type w))),
             mkWorld
               (set_files
                  (<[uuid_str (uuid4 E 0) :=
                       upload_row E adv_id case_id file_type w c l]>
                     (files (db w))) (db w))
               (<[upload_key adv_id case_id file_type w :=
                    content (file w)]> (s3 w))
               (set_pos (length (content (file w))) (file w))
               (trace w
                  ++ [S3Upload (upload_key adv_id case_id file_type w) true;
                      DbCommit true;
                      LogInfo "File uploaded successfully"])).
Proof.
  intros [r Hr]. revert Hr. unfold_all.
  case_bool_decide as Hty; simpl; [|discriminate].
  destruct (closed (file w)) eqn:Hopen; simpl; [discriminate|].
  destruct (s3_upload_ok E) eqn:Hs3; simpl; [|discriminate].
  destruct (uuid_parse E case_id) as [c|] eqn:Hc; simpl; [|discriminate].
  destruct (uuid_parse E adv_id) as [l|] eqn:Hl; simpl; [|discriminate].
  destruct (db_ok E) eqn:Hdb; simpl; [|discriminate].
  destruct (files_insert_ok _ _ _) eqn:Hok; simpl; [|discriminate].
  destruct (db_refresh_ok E) eqn:Hrf; simpl; [|discriminate].
  intros _. repeat (split; [first [assumption | reflexivity]|]).
  exists c, l. repeat (split; [first [assumption | reflexivity]|]).
  rewrite <- !app_assoc. reflexivity.
Qed.

(** X8.  When [upload_file] returns.  It returns exactly when the
    category is allowed, the stream is open, S3 takes the upload, both ids
    parse, and the database accepts the row and the refresh; and these
    conditions fix the whole run: the bucket then holds the whole content
    of the stream under the key, the row records the client's file name,
    the key, its bucket URL and the byte length of the content, and the
    answer carries the id of the row and the URL. *)
Theorem upload_file_returns_iff
    (E : Env) (adv_id case_id file_type : string) (w : W) :
  ((exists r, fst (upload_file E adv_id case_id file_type w) = Return r)
   <-> (exists c l, upload_file_accepts E adv_id case_id file_type w c l))
  /\ (forall c l,
        upload_file_accepts E adv_id case_id file_type w c l ->
        upload_file E adv_id case_id file_type w
        = (Return (mkUploadResult "File uploaded successfully"
                     (uuid_str (uuid4 E 0))
                     (s3_object_url E (upload_key adv_id case_id file_type w))),
           mkWorld
             (set_files
                (<[uuid_str (uuid4 E 0) :=
                     upload_row E adv_id case_id file_type w c l]>
                   (files (db w))) (db w))
             (<[upload_key adv_id case_id file_type w := content (file w)]>
                (s3 w))
             (set_pos (length (content (file w))) (file w))
             (trace w
                ++ [S3Upload (upload_key adv_id case_id file_type w) true;
                    DbCommit true;
                    LogInfo "File uploaded successfully"]))).
Proof.
  assert (Hsuff : forall c l,
             upload_file_accepts E adv_id case_id file_type w c l ->
             upload_file E adv_id case_id file_type w
             = (Return (mkUploadResult "File uploaded successfully"
                          (uuid_str (uuid4 E 0))
                          (s3_object_url E
                             (upload_key adv_id case_id file_type w))),
                mkWorld
                  (set_files
                     (<[uuid_str (uuid4 E 0) :=
                          upload_row E adv_id case_id file_type w c l]>
                        (files (db w))) (db w))
                  (<[upload_key adv_id case_id file_type w :=
                       content (file w)]> (s3 w))
                  (set_pos (length (content (file w))) (file w))
                  (trace w
                     ++ [S3Upload (upload_key adv_id case_id file_type w) true;
                         DbCommit true;
                         LogInfo "File uploaded successfully"]))).
  { intros c l (Hty & Hopen & Hs3 & Hc & Hl & Hdb & Hok & Hrf).
    unfold upload_row, upload_key in Hok. unfold_all.
    rewrite bool_decide_eq_true_2 by exact Hty. simpl.
    rewrite Hopen. simpl. rewrite Hs3. simpl.
    rewrite Hc. simpl. rewrite Hl. simpl. rewrite Hdb. simpl.
    rewrite Hok. simpl. rewrite Hrf. simpl.
    rewrite <- !app_assoc. reflexivity. }
  split; [|exact Hsuff]. split.
  - intros Hret. apply upload_file_return_shape in Hret.
    destruct Hret as (Hty & Hopen & Hs3 & Hdb & Hrf & c & l & Hc & Hl & Hok & _).
    exists c, l. unfold upload_file_accepts. tauto.
  - intros (c & l & Hacc). rewrite (Hsuff c l Hacc). eexists. reflexivity.
Qed.

(** X9.  An uploaded file is read back by [get_file] under the returned
    id when the filter binds, for that id, the text the row was stored
    under: the view carries the client's file name, the byte length of the
    content, the category and the upload time.  When the filter binds a
    text that no row has as its id, [get_file] answers 404 for the file
    just uploaded.  The bucket holds the content in both cases. *)
Theorem upload_then_get_file
    (E E' : Env) (adv_id case_id file_type : string) (w w' : W)
    (r : UploadResult) (u : N) :
  upload_file E adv_id case_id file_type w = (Return r, w') ->
  uuid_parse E' (up_file_id r) = Some u ->
  s3 w' !! upload_key adv_id case_id file_type w = Some (content (file w))
  /\ (uuid_bind E' u = up_file_id r ->
      forall url,
        s3_presign E' (upload_key adv_id case_id file_type w) = Some url ->
        url <> "" ->
        fst (get_file E' (up_file_id r) w')
        = Return (mkFileView (filename (file w)) url
                    (Z.of_nat (length (content (file w)))) file_type
                    (utcnow E)))
  /\ (files (db w') !! uuid_bind E' u = None ->
      get_file E' (up_file_id r) w'
      = (Raise (HTTPException 404 (Lit "File not found")), w')).
Proof.
  intros Hrun Hu.
  assert (Hex : exists r0, fst (upload_file E adv_id case_id file_type w)
                           = Return r0)
    by (rewrite Hrun; eexists; reflexivity).
  apply upload_file_return_shape in Hex.
  destruct Hex as (_ & _ & _ & _ & _ & c & l & _ & _ & _ & Hrun').
  rewrite Hrun' in Hrun. injection Hrun as <- <-. cbn [up_file_id] in *.
  split; [apply lookup_insert_eq|]. split.
  - intros Hbind url Hurl Hne.
    assert (Hrow : files
                     (db (mkWorld
                            (set_files
                               (<[uuid_str (uuid4 E 0) :=
                                    upload_row E adv_id case_id file_type w c l]>
                                  (files (db w))) (db w))
                            (<[upload_key adv_id case_id file_type w :=
                                 content (file w)]> (s3 w))
                            (set_pos (length (content (file w))) (file w))
                            (trace w
                               ++ [S3Upload
                                     (upload_key adv_id case_id file_type w)
                                     true; DbCommit true;
                                   LogInfo "File uploaded successfully"])))
                     !! uuid_bind E' u
                   = Some (upload_row E adv_id case_id file_type w c l))
      by (rewrite Hbind; apply lookup_insert_eq).
    rewrite (get_file_live_url E' (uuid_str (uuid4 E 0)) _ u _ url Hu Hrow
               eq_refl Hurl Hne).
    reflexivity.
  - intros Hnone.
    exact (proj1 (LexAIFacts.unbound_id_not_found E' _ _ u Hu Hnone)).
Qed.

Lemma upload_then_get_file_witness :
  fst (get_file (Examples.env_ok 0) Examples.id4 Examples.lexai_world_uploaded)
  = Return (mkFileView "example.txt"
              "https://lexai-docs.s3.amazonaws.com/02c20b1c-7325-40cc-92dc-35d33de9208f/ac965b3d-5ab4-4c41-8268-709b6a17c281/petition/example.txt?X-Amz-Expires=3600"
              10 "petition" 1700000000).
Proof.
  unfold Examples.lexai_world_uploaded.
  assert (Hrun : upload_file (Examples.env_ok 0x5b0c1f6e0d8a4c549a550e1d2c3b4a59)
                   Examples.id1 Examples.id3 "petition" Examples.lexai_world
                 = (Return (mkUploadResult "File uploaded successfully"
                              Examples.id4
                              "https://lexai-docs.s3.amazonaws.com/02c20b1c-7325-40cc-92dc-35d33de9208f/ac965b3d-5ab4-4c41-8268-709b6a17c281/petition/example.txt"),
                    snd (upload_file
                           (Examples.env_ok 0x5b0c1f6e0d8a4c549a550e1d2c3b4a59)
                           Examples.id1 Examples.id3 "petition"
                           Examples.lexai_world)))
    by (apply run_eq; vm_compute; reflexivity).
  assert (Hu : uuid_parse (Examples.env_ok 0) Examples.id4
               = Some 0x5b0c1f6e0d8a4c549a550e1d2c3b4a59%N)
    by (vm_compute; reflexivity).
  assert (Hs : uuid_bind (Examples.env_ok 0)
                 0x5b0c1f6e0d8a4c549a550e1d2c3b4a59%N = Examples.id4)
    by (vm_compute; reflexivity).
  assert (Hp : s3_presign (Examples.env_ok 0)
                 (upload_key Examples.id1 Examples.id3 "petition"
                    Examples.lexai_world)
               = Some "https://lexai-docs.s3.amazonaws.com/02c20b1c-7325-40cc-92dc-35d33de9208f/ac965b3d-5ab4-4c41-8268-709b6a17c281/petition/example.txt?X-Amz-Expires=3600")
    by (vm_compute; reflexivity).
  destruct (upload_then_get_file _ (Examples.env_ok 0) _ _ _ _ _ _ _
              Hrun Hu) as (_ & Hget & _).
  exact (Hget Hs _ Hp ltac:(discriminate)).
Defined.

(** X10.  [register_user] refuses an email that a stored user has: the
    answer is 400 after a rollback, and the database is what it was. *)
Theorem register_user_duplicate_email
    (E : Env) (name email role : string) (w : W) (id : string) (u : User.t) :
  users (db w) !! id = Some u ->
  User.email u = email ->
  register_user E name email role w
  = (Raise (HTTPException 400 (Lit "User registration failed.")),
     mkWorld (db w) (s3 w) (file w)
       (trace w ++ [DbCommit false; DbRollback;
                    LogError "Error registering user"])).
Proof.
  intros Hu He. unfold_all.
  assert (Hdup : bool_decide
                   (map_Forall (fun (_ : string) u' => User.email u' ≠ email)
                      (users (db w))) = false).
  { apply bool_decide_eq_false_2. intros Hall.
    exact (Hall id u Hu He). }
  simpl. rewrite Hdup, !andb_false_r. simpl.
  rewrite <- !app_assoc. reflexivity.
Qed.

Lemma register_user_duplicate_email_witness :
  fst (register_user (Examples.env_ok 7) "Impostor" "advocate@example.com"
         "Lawyer" Examples.lexai_world)
  = Raise (HTTPException 400 (Lit "User registration failed.")).
Proof.
  rewrite (register_user_duplicate_email (Examples.env_ok 7) "Impostor"
             "advocate@example.com" "Lawyer" Examples.lexai_world Examples.id1
             (User.mk "Test Advocate" "advocate@example.com" "Lawyer"
                1690000000)).
  - reflexivity.
  - vm_compute. reflexivity.
  - reflexivity.
Defined.

(** X11.  [register_case] of [src/LexAI] checks the form of [adv_id] and
    nothing else about it: a malformed id is answered 400, and a well-formed
    one yields a case whose [client_id] is the text of [adv_id], whether or
    not a user has that id. *)
Theorem register_case_checks_form_only
    (E : Env) (adv_id case_name : string) (w : W) :
  (uuid_parse E adv_id = None ->
   register_case E adv_id case_name w
   = (Raise (HTTPException 400 (Lit "Invalid adv_id provided.")),
      mkWorld (db w) (s3 w) (file w)
        (trace w ++ [LogError "Invalid adv_id provided"])))
  /\ (is_Some (uuid_parse E adv_id) ->
      db_ok E = true -> db_refresh_ok E = true ->
      cases (db w) !! uuid_str (uuid4 E 0) = None ->
      register_case E adv_id case_name w
      = (Return (uuid_str (uuid4 E 0)),
         mkWorld
           (mkDB (users (db w))
              (<[uuid_str (uuid4 E 0) := Case.mk case_name adv_id (utcnow E)]>
                 (cases (db w)))
              (files (db w)))
           (s3 w) (file w)
           (trace w ++ [DbCommit true; LogInfo "Case registered with ID"]))).
Proof.
  split.
  - intros Hu. unfold_all. rewrite Hu. reflexivity.
  - intros [u Hu] Hdb Hrf Hfresh. unfold_all. rewrite Hu. simpl.
    rewrite Hdb, Hfresh, Hrf. simpl. rewrite <- !app_assoc. reflexivity.
Qed.

Lemma register_case_checks_form_only_witness :
  users (db Examples.lexai_world) !! Examples.id4 = None
  /\ fst (register_case (Examples.env_ok 7) Examples.id4 "Test Case"
            Examples.lexai_world)
     = Return "00000000-0000-0000-0000-000000000007".
Proof.
  split; [vm_compute; reflexivity|].
  rewrite (proj2 (register_case_checks_form_only (Examples.env_ok 7)
                    Examples.id4 "Test Case" Examples.lexai_world)).
  - vm_compute. reflexivity.
  - vm_compute. eauto.
  - reflexivity.
  - reflexivity.
  - vm_compute. reflexivity.
Defined.

(** How each handler can change the database. *)
Lemma register_user_db (E : Env) (name email role : string) (w : W) :
  db (snd (register_user E name email role w)) = db w
  \/ (users (db w) !! uuid_str (uuid4 E 0) = None
      /\ map_Forall (fun (_ : string) u' => User.email u' ≠ email)
           (users (db w))
      /\ db (snd (register_user E name email role w))
         = mkDB (<[uuid_str (uuid4 E 0) := User.mk name email role (utcnow E)]>
                   (users (db w)))
             (cases (db w)) (files (db w))).
Proof.
  unfold_all. simpl.
  destruct (db_ok E); simpl; [|auto].
  case_bool_decide as Hpk; simpl; [|auto].
  case_bool_decide as Hem; simpl; [|auto].
  right. split; [exact Hpk|]. split; [exact Hem|].
  destruct (db_refresh_ok E); reflexivity.
Qed.

Lemma lexai_register_case_db (E : Env) (adv_id case_name : string) (w : W) :
  db (snd (register_case E adv_id case_name w)) = db w
  \/ db (snd (register_case E adv_id case_name w))
     = mkDB (users (db w))
         (<[uuid_str (uuid4 E 0) := Case.mk case_name adv_id (utcnow E)]>
            (cases (db w)))
         (files (db w)).
Proof.
  unfold_all.
  destruct (uuid_parse E adv_id); simpl; [|auto].
  destruct (db_ok E); simpl; [|auto].
  case_bool_decide as Hpk; simpl; [|auto].
  right. destruct (db_refresh_ok E); reflexivity.
Qed.

Lemma upload_file_db (E : Env) (adv_id case_id file_type : string) (w : W) :
  db (snd (upload_file E adv_id case_id file_type w)) = db w
  \/ exists c l,
       files_insert_ok (db w) (uuid_str (uuid4 E 0))
         (upload_row E adv_id case_id file_type w c l) = true
       /\ db (snd (upload_file E adv_id case_id file_type w))
          = set_files
              (<[uuid_str (uuid4 E 0) :=
                   upload_row E adv_id case_id file_type w c l]>
                 (files (db w))) (db w).
Proof.
  pose proof (LexAIRuns.upload_file_runs E adv_id case_id file_type w) as R.
  inversion R; simpl; eauto.
Qed.

Lemma delete_file_db (E : Env) (file_id : string) (w : W) :
  db (snd (delete_file E file_id w)) = db w
  \/ exists id r,
       files (db w) !! id = Some r
       /\ db (snd (delete_file E file_id w))
          = set_files (<[id := FileMetadata.set_is_deleted true r]>
                         (files (db w))) (db w).
Proof.
  unfold_all.
  destruct (uuid_parse E file_id) as [u|]; simpl; [|auto].
  destruct (files (db w) !! uuid_bind E u) as [r|] eqn:Hr; simpl; [|auto].
  destruct (FileMetadata.is_deleted r); simpl; [auto|].
  destruct (s3_delete_ok E); simpl; [|auto].
  destruct (db_ok E); simpl; [|auto].
  right. exists (uuid_bind E u), r. split; [exact Hr|reflexivity].
Qed.

(** X12.  The constraints of the schema survive every handler of
    [src/LexAI]: after any call, every file row still names a stored case
    and a stored user, no two rows share a storage key and no two users an
    email. *)
Theorem lexai_handlers_keep_store_ok (E : Env) (w : W) :
  store_ok (db w) ->
  (forall name email role,
      store_ok (db (snd (register_user E name email role w))))
  /\ (forall adv_id case_name,
        store_ok (db (snd (register_case E adv_id case_name w))))
  /\ (forall adv_id case_id file_type,
        store_ok (db (snd (upload_file E adv_id case_id file_type w))))
  /\ (forall file_id, store_ok (db (snd (get_file E file_id w))))
  /\ (forall file_id, store_ok (db (snd (delete_file E file_id w)))).
Proof.
  intros Hall. pose proof Hall as (Hrefs & Hkeys & Hmail).
  split; [|split; [|split; [|split]]].
  - intros name email role.
    destruct (register_user_db E name email role w) as [->|(Hpk & Hem & ->)];
      [exact Hall|].
    split; [|split].
    + intros id r Hr. simpl in Hr. destruct (Hrefs id r Hr) as [Hc Hu].
      split; [exact Hc|]. simpl. rewrite lookup_insert_is_Some'. tauto.
    + exact Hkeys.
    + intros i j u1 u2 Hi Hj He. simpl in Hi, Hj.
      destruct (decide (uuid_str (uuid4 E 0) = i)) as [<-|Hni];
        destruct (decide (uuid_str (uuid4 E 0) = j)) as [<-|Hnj];
        [reflexivity| | |].
      * rewrite lookup_insert_eq in Hi. injection Hi as <-.
        rewrite lookup_insert_ne in Hj by assumption.
        exfalso. exact (Hem j u2 Hj (eq_sym He)).
      * rewrite lookup_insert_eq in Hj. injection Hj as <-.
        rewrite lookup_insert_ne in Hi by assumption.
        exfalso. exact (Hem i u1 Hi He).
      * rewrite lookup_insert_ne in Hi by assumption.
        rewrite lookup_insert_ne in Hj by assumption.
        exact (Hmail i j u1 u2 Hi Hj He).
  - intros adv_id case_name.
    destruct (lexai_register_case_db E adv_id case_name w) as [->| ->];
      [exact Hall|].
    split; [|split; assumption].
    intros id r Hr. simpl in Hr. destruct (Hrefs id r Hr) as [Hc Hu].
    split; [|exact Hu]. simpl. rewrite lookup_insert_is_Some'. tauto.
  - intros adv_id case_id file_type.
    split; [|split].
    + destruct (upload_file_db E adv_id case_id file_type w)
        as [->|(c & l & Hok & ->)]; [exact Hrefs|].
      unfold files_insert_ok in Hok.
      repeat (apply andb_true_iff in Hok; destruct Hok as [Hok ?]).
      intros id r Hr. simpl in Hr.
      destruct (decide (uuid_str (uuid4 E 0) = id)) as [<-|Hne].
      * rewrite lookup_insert_eq in Hr. injection Hr as <-. simpl.
        split; eapply bool_decide_eq_true; eassumption.
      * rewrite lookup_insert_ne in Hr by assumption. exact (Hrefs id r Hr).
    + apply KeyFacts.upload_file_keeps_keys_unique. exact Hkeys.
    + destruct (upload_file_db E adv_id case_id file_type w)
        as [->|(c & l & Hok & ->)]; exact Hmail.
  - intros file_id.
    rewrite get_file_db. exact Hall.
  - intros file_id.
    destruct (delete_file_db E file_id w) as [->|(id & r & Hr & ->)];
      [exact Hall|].
    split; [|split].
    + intros i r' Hi. simpl in Hi.
      destruct (decide (id = i)) as [<-|Hne].
      * rewrite lookup_insert_eq in Hi. injection Hi as <-. simpl.
        exact (Hrefs id r Hr).
      * rewrite lookup_insert_ne in Hi by assumption. exact (Hrefs i r' Hi).
    + intros i j r1 r2 Hi Hj Hk. simpl in Hi, Hj.
      assert (Hold : forall k r', (<[id := FileMetadata.set_is_deleted true r]>
                                     (files (db w))) !! k = Some r' ->
                       exists r0, files (db w) !! k = Some r0
                                  /\ FileMetadata.s3_key r0
                                     = FileMetadata.s3_key r').
      { intros k r' Hk'. destruct (decide (id = k)) as [<-|Hne].
        - rewrite lookup_insert_eq in Hk'. injection Hk' as <-.
          exists r. split; [exact Hr|reflexivity].
        - rewrite lookup_insert_ne in Hk' by assumption.
          exists r'. split; [exact Hk'|reflexivity]. }
      destruct (Hold i r1 Hi) as (r1' & Hi' & E1).
      destruct (Hold j r2 Hj) as (r2' & Hj' & E2).
      apply (Hkeys i j r1' r2' Hi' Hj'). congruence.
    + exact Hmail.
Qed.

Lemma lexai_db_store_ok : store_ok Examples.lexai_db.
Proof.
  split; [|split].
  - intros id r Hr. unfold Examples.lexai_db in Hr. cbn [files] in Hr.
    rewrite lookup_empty in Hr. discriminate.
  - intros i j r1 r2 Hi. unfold Examples.lexai_db in Hi. cbn [files] in Hi.
    rewrite lookup_empty in Hi. discriminate.
  - intros i j u1 u2 Hi Hj He.
    unfold Examples.lexai_db in Hi, Hj. cbn [users] in Hi, Hj.
    apply lookup_insert_Some in Hi. apply lookup_insert_Some in Hj.
    destruct Hi as [[<- <-]|[_ Hi]]; destruct Hj as [[<- <-]|[_ Hj]];
      try reflexivity;
      repeat match goal with
             | H : {[ _ := _ ]} !! _ = Some _ |- _ =>
                 apply lookup_singleton_Some in H; destruct H as [<- <-]
             end;
      try reflexivity; discriminate He.
Qed.

Lemma lexai_handlers_keep_store_ok_witness :
  store_ok
    (db (snd (upload_file (Examples.env_ok 7) Examples.id1 Examples.id3
                "petition" Examples.lexai_world)))
  /\ store_ok
       (db (snd (register_user (Examples.env_ok 7) "Third" "third@example.com"
                   "Lawyer" Examples.lexai_world))).
Proof.
  destruct (lexai_handlers_keep_store_ok (Examples.env_ok 7)
              Examples.lexai_world lexai_db_store_ok)
    as (Hu & _ & Hf & _).
  split; [apply Hf|apply Hu].
Defined.

End LexAIMore.

(* ===================================================================== *)
(** ** More on [src]: uploading, validating, registering, looking up *)
(* ===================================================================== *)

Module MainMore.
Import Main ScanFacts SizeFacts TraceFacts.

Ltac unfold_all :=
  unfold upload_document, register_case, register_advocate, register_client,
    get_case, UUID, upload_to_s3, commit_add_document, commit_add_case,
    commit_add_advocate, commit_add_client in *;
  munfold.

(** X13.  [validate_file] on an open stream returns exactly when no more
    than [MAX_FILE_SIZE] bytes are left to read and the extension of the
    file name, compared in lower case, is one of the allowed seven;
    otherwise it raises a 400. *)
Theorem validate_file_accepts_iff (w : W) :
  closed (file w) = false ->
  (fst (validate_file w) = Return tt
   <-> remaining (file w) <= MAX_FILE_SIZE
       /\ PyStr.lower (path_suffix (filename (file w))) ∈ ALLOWED_EXTENSIONS)
  /\ (fst (validate_file w) = Return tt
      \/ exists d, fst (validate_file w) = Raise (HTTPException 400 d)).
Proof.
  intros Hopen.
  destruct (Z_le_gt_dec (remaining (file w)) MAX_FILE_SIZE) as [Hfit|Hbig].
  - rewrite (validate_file_within w Hopen Hfit). cbn [fst].
    case_bool_decide as Hext.
    + split; [tauto|left; reflexivity].
    + split; [|right; eexists; reflexivity].
      split; [discriminate|]. tauto.
  - destruct (validate_file_oversize w Hopen ltac:(lia)) as (p & Hrun & _).
    rewrite Hrun. cbn [fst].
    split; [|right; eexists; reflexivity].
    split; [discriminate|]. lia.
Qed.

Lemma validate_file_accepts_witness :
  fst (validate_file Examples.main_world) = Return tt.
Proof.
  apply (proj1 (validate_file_accepts_iff Examples.main_world eq_refl)).
  split.
  - vm_compute. discriminate.
  - apply list_elem_of_In. vm_compute. left. reflexivity.
Defined.

Lemma last_appended {A} (l l' : list A) (d : A) :
  l' <> [] -> List.last (l ++ l')%list d = List.last l' d.
Proof.
  intros Hne. induction l as [|x l IH]; [reflexivity|].
  simpl. destruct (l ++ l')%list eqn:Hl; [|exact IH].
  apply app_eq_nil in Hl. destruct Hl as [_ ->]. contradiction.
Qed.

(** X14.  Whatever [upload_document] answers, it has closed the stream, and
    the closing is the last thing it did. *)
Theorem upload_document_closes_stream
    (E : Env) (advocate_id case_id doc_type : string) (w : W) :
  closed (file (snd (upload_document E advocate_id case_id doc_type w))) = true
  /\ List.last (trace (snd (upload_document E advocate_id case_id doc_type w)))
       (LogInfo "")
     = FileClose.
Proof.
  pose proof (MainRuns.upload_document_runs E advocate_id case_id doc_type w) as R.
  inversion R; simpl; (split; [reflexivity|]);
    rewrite last_appended by discriminate; reflexivity.
Qed.

(** X15.  The checks of [upload_document] come in this order and none has a
    side effect beyond the closing of the stream: a malformed id is answered
    400, then an unknown advocate 404, then an unknown case 404. *)
Theorem upload_document_lookup_errors
    (E : Env) (advocate_id case_id doc_type : string) (w : W) :
  let closed_world :=
    mkWorld (db w) (s3 w) (set_closed (file w)) (trace w ++ [FileClose]) in
  (uuid_parse E advocate_id = None \/ uuid_parse E case_id = None ->
   upload_document E advocate_id case_id doc_type w
   = (Raise (HTTPException 400 (Lit "Invalid UUID format")), closed_world))
  /\ (is_Some (uuid_parse E advocate_id) -> is_Some (uuid_parse E case_id) ->
      advocates (db w) !! advocate_id = None ->
      upload_document E advocate_id case_id doc_type w
      = (Raise (HTTPException 404 (Lit "Advocate not found")), closed_world))
  /\ (is_Some (uuid_parse E advocate_id) -> is_Some (uuid_parse E case_id) ->
      is_Some (advocates (db w) !! advocate_id) ->
      cases (db w) !! case_id = None ->
      upload_document E advocate_id case_id doc_type w
      = (Raise (HTTPException 404 (Lit "Case not found")), closed_world)).
Proof.
  intros closed_world. subst closed_world. split; [|split].
  - intros Hbad. unfold_all.
    destruct (uuid_parse E advocate_id) as [u|]; simpl; [|reflexivity].
    destruct Hbad as [Hbad|Hbad]; [discriminate|]. rewrite Hbad. reflexivity.
  - intros [u Hu] [c Hc] Ha. unfold_all. rewrite Hu, Hc. simpl.
    rewrite Ha. reflexivity.
  - intros [u Hu] [c Hc] [a Ha] Hk. unfold_all. rewrite Hu, Hc. simpl.
    rewrite Ha, Hk. reflexivity.
Qed.

Lemma upload_document_lookup_errors_witness :
  fst (upload_document (Examples.env_ok 7) Examples.id2 Examples.id3 "evidence"
         Examples.main_world)
  = Raise (HTTPException 404 (Lit "Advocate not found")).
Proof.
  destruct (upload_document_lookup_errors (Examples.env_ok 7) Examples.id2
              Examples.id3 "evidence" Examples.main_world) as (_ & H & _).
  rewrite H.
  - reflexivity.
  - vm_compute. eauto.
  - vm_compute. eauto.
  - vm_compute. reflexivity.
Defined.

(** X16.  When [upload_document] returns.  It returns exactly when both
    ids parse, the advocate and the case are stored and joined, the file
    passes validation, S3 takes the upload, and the database accepts the
    row and the refresh; and these conditions fix the whole run: the bucket
    then holds the whole content of the stream under
    [{advocate_id}/{case_id}/{doc_type}/{generated name}], the row carries
    the generated name and the bucket URL of that key, and the answer
    carries the id of the row, the URL and the name. *)
Theorem upload_document_returns_iff
    (E : Env) (advocate_id case_id doc_type : string) (w : W) :
  ((exists r, fst (upload_document E advocate_id case_id doc_type w) = Return r)
   <-> upload_document_accepts E advocate_id case_id w)
  /\ (upload_document_accepts E advocate_id case_id w ->
      upload_document E advocate_id case_id doc_type w
      = (Return (mkUploadResult (uuid_str (uuid4 E 1))
                   (s3_object_url E
                      (upload_key E advocate_id case_id doc_type w))
                   (sanitize_filename E (filename (file w)))),
         mkWorld
           (add_document (uuid_str (uuid4 E 1))
              (upload_doc E advocate_id case_id doc_type w) (db w))
           (<[upload_key E advocate_id case_id doc_type w :=
                content (file w)]> (s3 w))
           (set_closed (set_pos (length (content (file w))) (file w)))
           (trace w
              ++ [S3Upload (upload_key E advocate_id case_id doc_type w) true;
                  DbCommit true; FileClose]))).
Proof.
  assert (Hsuff : upload_document_accepts E advocate_id case_id w ->
                  upload_document E advocate_id case_id doc_type w
                  = (Return (mkUploadResult (uuid_str (uuid4 E 1))
                               (s3_object_url E
                                  (upload_key E advocate_id case_id doc_type w))
                               (sanitize_filename E (filename (file w)))),
                     mkWorld
                       (add_document (uuid_str (uuid4 E 1))
                          (upload_doc E advocate_id case_id doc_type w) (db w))
                       (<[upload_key E advocate_id case_id doc_type w :=
                            content (file w)]> (s3 w))
                       (set_closed
                          (set_pos (length (content (file w))) (file w)))
                       (trace w
                          ++ [S3Upload
                                (upload_key E advocate_id case_id doc_type w)
                                true; DbCommit true; FileClose]))).
  { intros ([u Hu] & [c Hc] & [a Ha] & [k Hk] & Hperm & Hval & Hs3 & Hdb
            & Hpk & Hrf).
    unfold_all. rewrite Hu. simpl. rewrite Hc. simpl. rewrite Ha. simpl.
    rewrite Hk. simpl.
    rewrite bool_decide_eq_false_2 by (intros Hn; exact (Hn Hperm)). simpl.
    destruct (validate_file w) as [[[]|e] wv] eqn:Hv; simpl in Hval;
      [|discriminate].
    apply validate_file_run in Hv. destruct Hv as (p & -> & Hp).
    rewrite (Hp tt eq_refl). simpl.
    rewrite Hs3. simpl. rewrite Hdb. simpl.
    rewrite !bool_decide_eq_true_2 by eauto. simpl.
    rewrite Hrf. simpl. rewrite <- !app_assoc. reflexivity. }
  split; [|exact Hsuff]. split.
  - intros [r Hr]. revert Hr. unfold upload_document_accepts. unfold_all.
    destruct (uuid_parse E advocate_id) as [u|] eqn:Hu; simpl; [|discriminate].
    destruct (uuid_parse E case_id) as [c|] eqn:Hc; simpl; [|discriminate].
    destruct (advocates (db w) !! advocate_id) as [a|] eqn:Ha; simpl;
      [|discriminate].
    destruct (cases (db w) !! case_id) as [k|] eqn:Hk; simpl; [|discriminate].
    case_bool_decide as Hperm; simpl; [discriminate|].
    destruct (validate_file w) as [[[]|e] wv] eqn:Hv; [|discriminate].
    apply validate_file_run in Hv. destruct Hv as (p & -> & Hp).
    rewrite (Hp tt eq_refl). simpl.
    destruct (s3_upload_ok E) eqn:Hs3; simpl; [|discriminate].
    destruct (db_ok E) eqn:Hdb; simpl; [|discriminate].
    case_bool_decide as Hpk; simpl; [|discriminate].
    rewrite !bool_decide_eq_true_2 by eauto. simpl.
    destruct (db_refresh_ok E) eqn:Hrf; simpl; [|discriminate].
    intros _.
    repeat (split; [first [assumption | reflexivity | eauto]|]).
    reflexivity.
  - intros Hacc. rewrite (Hsuff Hacc). eexists. reflexivity.
Qed.

(** X17.  The row can be stored and the request still be answered 400: when
    everything up to the commit succeeds and the refresh after it fails,
    [upload_document] answers "Failed to save document record" while the row
    is in [documents] and the blob in the bucket. *)
Theorem upload_document_refresh_failure
    (E : Env) (advocate_id case_id doc_type : string) (w : W) :
  is_Some (uuid_parse E advocate_id) ->
  is_Some (uuid_parse E case_id) ->
  is_Some (advocates (db w) !! advocate_id) ->
  is_Some (cases (db w) !! case_id) ->
  advocate_id ∈ case_advocate (db w) case_id ->
  fst (validate_file w) = Return tt ->
  s3_upload_ok E = true ->
  db_ok E = true ->
  documents (db w) !! uuid_str (uuid4 E 1) = None ->
  db_refresh_ok E = false ->
  upload_document E advocate_id case_id doc_type w
  = (Raise (HTTPException 400 (Lit "Failed to save document record")),
     mkWorld
       (add_document (uuid_str (uuid4 E 1))
          (upload_doc E advocate_id case_id doc_type w) (db w))
       (<[upload_key E advocate_id case_id doc_type w := content (file w)]>
          (s3 w))
       (set_closed (set_pos (length (content (file w))) (file w)))
       (trace w
          ++ [S3Upload (upload_key E advocate_id case_id doc_type w) true;
              DbCommit true; DbRollback;
              LogError "Database operation failed"; FileClose])).
Proof.
  intros [u Hu] [c Hc] [a Ha] [k Hk] Hperm Hval Hs3 Hdb Hpk Hrf.
  unfold_all. rewrite Hu, Hc. simpl. rewrite Ha, Hk. simpl.
  rewrite bool_decide_eq_false_2 by (intros Hn; exact (Hn Hperm)). simpl.
  destruct (validate_file w) as [[[]|e] wv] eqn:Hv; [|discriminate Hval].
  apply validate_file_run in Hv. destruct Hv as (p & -> & Hp).
  rewrite (Hp tt eq_refl). simpl.
  rewrite Hs3. simpl. rewrite Hdb, Hpk. simpl.
  rewrite !bool_decide_eq_true_2 by eauto. simpl.
  rewrite Hrf. simpl. rewrite <- !app_assoc. reflexivity.
Qed.

Lemma main_world_validates :
  fst (validate_file Examples.main_world) = Return tt.
Proof.
  rewrite (validate_file_within Examples.main_world eq_refl)
    by (vm_compute; discriminate).
  vm_compute. reflexivity.
Qed.

Lemma upload_document_refresh_failure_witness :
  fst (upload_document (Examples.env_refresh_down 7) Examples.id1 Examples.id3
         "evidence" Examples.main_world)
  = Raise (HTTPException 400 (Lit "Failed to save document record"))
  /\ is_Some
       (documents
          (db (snd (upload_document (Examples.env_refresh_down 7) Examples.id1
                      Examples.id3 "evidence" Examples.main_world)))
          !! uuid_str (uuid4 (Examples.env_refresh_down 7) 1)).
Proof.
  rewrite (upload_document_refresh_failure (Examples.env_refresh_down 7)
             Examples.id1 Examples.id3 "evidence" Examples.main_world).
  - split; [reflexivity|]. cbn [snd db add_document documents].
    rewrite lookup_insert_eq. eauto.
  - vm_compute. eauto.
  - vm_compute. eauto.
  - vm_compute. eauto.
  - vm_compute. eauto.
  - apply list_elem_of_In. vm_compute. left. reflexivity.
  - exact main_world_validates.
  - reflexivity.
  - reflexivity.
  - vm_compute. reflexivity.
  - reflexivity.
Defined.

Lemma get_case_world (E : Env) (case_id : string) (w : W) :
  snd (get_case E case_id w) = w.
Proof.
  unfold_all.
  destruct (uuid_parse E case_id) as [u|]; simpl; [|reflexivity].
  destruct (cases (db w) !! case_id) as [c|]; reflexivity.
Qed.

(** X18.  [get_case] changes nothing, not even the trace; a malformed id is
    answered 400 and an unknown one 404. *)
Theorem get_case_read_only (E : Env) (case_id : string) (w : W) :
  snd (get_case E case_id w) = w
  /\ (uuid_parse E case_id = None ->
      fst (get_case E case_id w)
      = Raise (HTTPException 400 (Lit "Invalid case ID format")))
  /\ (is_Some (uuid_parse E case_id) -> cases (db w) !! case_id = None ->
      fst (get_case E case_id w)
      = Raise (HTTPException 404 (Lit "Case not found"))).
Proof.
  unfold_all.
  destruct (uuid_parse E case_id) as [u|]; simpl.
  - destruct (cases (db w) !! case_id) as [c|]; simpl.
    + split; [reflexivity|]. split; [discriminate|]. intros _ ?. discriminate.
    + split; [reflexivity|]. split; [discriminate|]. reflexivity.
  - split; [reflexivity|]. split; [reflexivity|]. intros [? ?]. discriminate.
Qed.

(** X19.  [register_advocate] refuses an email that a stored advocate has:
    the answer is 400 after a rollback, and the database is what it was. *)
Theorem register_advocate_duplicate_email
    (E : Env) (name email : string) (w : W) (id : string) (a : Advocate.t) :
  advocates (db w) !! id = Some a ->
  Advocate.email a = email ->
  register_advocate E name email w
  = (Raise (HTTPException 400 (StrOf DatabaseFault)),
     mkWorld (db w) (s3 w) (file w) (trace w ++ [DbCommit false; DbRollback])).
Proof.
  intros Ha He. unfold_all.
  assert (Hdup : bool_decide
                   (map_Forall
                      (fun (_ : string) a' => Advocate.email a' ≠ email)
                      (advocates (db w))) = false).
  { apply bool_decide_eq_false_2. intros Hall. exact (Hall id a Ha He). }
  simpl. rewrite Hdup, !andb_false_r. simpl.
  rewrite <- !app_assoc. reflexivity.
Qed.

Lemma register_advocate_duplicate_email_witness :
  http_status (fst (register_advocate (Examples.env_ok 7) "A2" "a@x.com"
                      Examples.main_world))
  = 400.
Proof.
  rewrite (register_advocate_duplicate_email (Examples.env_ok 7) "A2"
             "a@x.com" Examples.main_world Examples.id1
             (Advocate.mk "A" "a@x.com")).
  - reflexivity.
  - vm_compute. reflexivity.
  - reflexivity.
Defined.

(** The one path on which [register_case] returns. *)
Ltac register_case_returning E w advocate_id client_id :=
  let Ha := fresh "Ha" in
  let Hc := fresh "Hc" in
  let H := fresh "Hrun" in
  unfold_all;
  (destruct (uuid_parse E advocate_id); simpl; [|discriminate]);
  (destruct (uuid_parse E client_id); simpl; [|discriminate]);
  (destruct (advocates (db w) !! advocate_id) eqn:Ha; simpl; [|discriminate]);
  (destruct (clients (db w) !! client_id) eqn:Hc; simpl; [|discriminate]);
  (destruct (db_ok E); simpl; [|discriminate]);
  (case_bool_decide; simpl; [|discriminate]);
  rewrite !bool_decide_eq_true_2 by (rewrite ?Hc, ?Ha; eauto);
  simpl;
  (destruct (db_refresh_ok E); simpl; [|discriminate]);
  intros H; injection H as <- <-; simpl.

(** The database that a returning [register_case] leaves. *)
Lemma register_case_return_shape
    (E : Env) (case_name advocate_id client_id case_type : string)
    (case_description filing_date : option string) (w w' : W)
    (r : RegisterCaseResult) :
  register_case E case_name advocate_id client_id case_type
    case_description filing_date w = (Return r, w') ->
  is_Some (advocates (db w) !! advocate_id)
  /\ cases (db w) !! rc_case_id r = None
  /\ db w'
     = mkDB (advocates (db w)) (clients (db w))
         (<[rc_case_id r :=
              Case.mk case_name case_type client_id case_description
                (match filing_date with
                 | Some s => FilingText s
                 | None => FilingDefault (utcnow E)
                 end)]> (cases (db w)))
         (documents (db w))
         (advocate_cases (db w) ++ [(advocate_id, rc_case_id r)])
         (advocate_clients (db w)).
Proof.
  register_case_returning E w advocate_id client_id.
  split; [eauto|]. split; [assumption|reflexivity].
Qed.

(** X20.  What a [register_case] that returns has done: the advocate and the
    client were stored, the id of the case was free, and the database has
    one more case, carrying the client's id, and one more association row,
    joining the advocate to that case; the other tables and the bucket are
    what they were. *)
Theorem register_case_returns
    (E : Env) (case_name advocate_id client_id case_type : string)
    (case_description filing_date : option string) (w w' : W)
    (r : RegisterCaseResult) :
  register_case E case_name advocate_id client_id case_type
    case_description filing_date w = (Return r, w') ->
  rc_case_id r = uuid_str (uuid4 E 0)
  /\ is_Some (advocates (db w) !! advocate_id)
  /\ is_Some (clients (db w) !! client_id)
  /\ cases (db w) !! rc_case_id r = None
  /\ db w'
     = mkDB (advocates (db w)) (clients (db w))
         (<[rc_case_id r :=
              Case.mk case_name case_type client_id case_description
                (match filing_date with
                 | Some s => FilingText s
                 | None => FilingDefault (utcnow E)
                 end)]> (cases (db w)))
         (documents (db w))
         (advocate_cases (db w) ++ [(advocate_id, rc_case_id r)])
         (advocate_clients (db w))
  /\ s3 w' = s3 w.
Proof.
  register_case_returning E w advocate_id client_id.
  split; [reflexivity|]. split; [eauto|]. split; [eauto|].
  split; [assumption|]. split; reflexivity.
Qed.

Lemma filter_none {A} (f : A -> bool) (l : list A) :
  (forall x, In x l -> f x = false) -> List.filter f l = [].
Proof.
  induction l as [|x l IH]; intros H; [reflexivity|].
  simpl. rewrite (H x (or_introl eq_refl)). apply IH.
  intros y Hy. apply H. right. exact Hy.
Qed.

(** X21.  A registered case is read back by [get_case] under the returned
    id, with the name, type, description and client it was registered with
    and with the registering advocate as its advocate, provided the
    references of the store resolved before. *)
Theorem register_case_then_get_case
    (E E' : Env) (case_name advocate_id client_id case_type : string)
    (case_description filing_date : option string) (w w' : W)
    (r : RegisterCaseResult) :
  refs_ok (db w) ->
  register_case E case_name advocate_id client_id case_type
    case_description filing_date w = (Return r, w') ->
  is_Some (uuid_parse E' (rc_case_id r)) ->
  get_case E' (rc_case_id r) w'
  = (Return (mkCaseView (rc_case_id r) case_name case_type case_description
               (match filing_date with
                | Some s => FilingText s
                | None => FilingDefault (utcnow E)
                end)
               client_id (Some advocate_id)),
     w').
Proof.
  intros (_ & Hassoc & _) Hrun [u Hu].
  destruct (register_case_return_shape _ _ _ _ _ _ _ _ _ _ Hrun)
    as ([a Ha] & Hfree & Hdb).
  unfold get_case, UUID. munfold. rewrite Hu. simpl.
  rewrite Hdb. cbn [cases]. rewrite lookup_insert_eq. simpl.
  assert (Hhead : case_advocate
                    (mkDB (advocates (db w)) (clients (db w))
                       (<[rc_case_id r :=
                            Case.mk case_name case_type client_id
                              case_description
                              (match filing_date with
                               | Some s => FilingText s
                               | None => FilingDefault (utcnow E)
                               end)]> (cases (db w)))
                       (documents (db w))
                       (advocate_cases (db w) ++ [(advocate_id, rc_case_id r)])
                       (advocate_clients (db w)))
                    (rc_case_id r)
                  = [advocate_id]).
  { unfold case_advocate. cbn [advocate_cases advocates].
    rewrite List.filter_app.
    rewrite (filter_none _ (advocate_cases (db w))).
    - simpl. rewrite String.eqb_refl. simpl.
      rewrite bool_decide_eq_true_2 by (rewrite Ha; eauto). reflexivity.
    - intros [a' c'] Hin. cbn [snd]. apply String.eqb_neq. intros ->.
      apply list_elem_of_In in Hin. destruct (Hassoc _ _ Hin) as [_ [k Hk]].
      rewrite Hfree in Hk. discriminate. }
  rewrite Hhead. reflexivity.
Qed.

Lemma main_db_refs_ok : refs_ok Examples.main_db.
Proof.
  split; [|split].
  - intros id doc Hd. unfold Examples.main_db in Hd. cbn [documents] in Hd.
    rewrite lookup_empty in Hd. discriminate.
  - intros a c Hin. unfold Examples.main_db in Hin.
    cbn [advocate_cases] in Hin.
    apply elem_of_cons in Hin. destruct Hin as [Hin|Hin].
    + injection Hin as -> ->. split; vm_compute; eauto.
    + apply elem_of_nil in Hin. destruct Hin.
  - intros id c Hc. unfold Examples.main_db in Hc. cbn [cases] in Hc.
    apply lookup_singleton_Some in Hc. destruct Hc as [<- <-].
    vm_compute. eauto.
Qed.

Lemma register_case_example_run :
  register_case (Examples.env_ok 7) "Case2" Examples.id1 Examples.id2 "civil"
    None None Examples.main_world
  = (Return (mkRegisterCaseResult "00000000-0000-0000-0000-000000000007"
               "Case registered successfully"),
     snd (register_case (Examples.env_ok 7) "Case2" Examples.id1 Examples.id2
            "civil" None None Examples.main_world)).
Proof. apply run_eq. vm_compute. reflexivity. Qed.

Lemma register_case_returns_witness :
  cases (db Examples.main_world) !! "00000000-0000-0000-0000-000000000007"
  = None
  /\ s3 (snd (register_case (Examples.env_ok 7) "Case2" Examples.id1
                Examples.id2 "civil" None None Examples.main_world))
     = s3 Examples.main_world.
Proof.
  destruct (register_case_returns _ _ _ _ _ _ _ _ _ _
              register_case_example_run) as (_ & _ & _ & Hfree & _ & Hs3).
  split; [exact Hfree|exact Hs3].
Defined.

Lemma register_case_then_get_case_witness :
  fst (get_case (Examples.env_ok 9) "00000000-0000-0000-0000-000000000007"
         (snd (register_case (Examples.env_ok 7) "Case2" Examples.id1
                 Examples.id2 "civil" None None Examples.main_world)))
  = Return (mkCaseView "00000000-0000-0000-0000-000000000007" "Case2" "civil"
              None (FilingDefault 1700000000) Examples.id2 (Some Examples.id1)).
Proof.
  assert (Hu : is_Some (uuid_parse (Examples.env_ok 9)
                          "00000000-0000-0000-0000-000000000007"))
    by (vm_compute; eauto).
  pose proof (register_case_then_get_case (Examples.env_ok 7)
                (Examples.env_ok 9) "Case2" Examples.id1 Examples.id2 "civil"
                None None Examples.main_world _ _ main_db_refs_ok
                register_case_example_run Hu) as Hget.
  cbn [rc_case_id] in Hget. rewrite Hget. reflexivity.
Defined.

(** References resolve in a store whose tables have only grown. *)
Lemma refs_ok_grow (d d' : DB) :
  refs_ok d ->
  (forall k, is_Some (advocates d !! k) -> is_Some (advocates d' !! k)) ->
  (forall k, is_Some (clients d !! k) -> is_Some (clients d' !! k)) ->
  (forall k, is_Some (cases d !! k) -> is_Some (cases d' !! k)) ->
  (forall id doc, documents d' !! id = Some doc ->
     documents d !! id = Some doc
     \/ (is_Some (advocates d' !! Document.adv_id doc)
         /\ is_Some (cases d' !! Document.case_id doc))) ->
  (forall a c, (a, c) ∈ advocate_cases d' ->
     (a, c) ∈ advocate_cases d
     \/ (is_Some (advocates d' !! a) /\ is_Some (cases d' !! c))) ->
  (forall id c, cases d' !! id = Some c ->
     cases d !! id = Some c \/ is_Some (clients d' !! Case.client_id c)) ->
  refs_ok d'.
Proof.
  intros (Hdoc & Hassoc & Hcase) Ha Hc Hk Hdoc' Hassoc' Hcase'.
  split; [|split].
  - intros id doc Hd. destruct (Hdoc' id doc Hd) as [Hold|Hnew]; [|exact Hnew].
    destruct (Hdoc id doc Hold). split; auto.
  - intros a c Hin. destruct (Hassoc' a c Hin) as [Hold|Hnew]; [|exact Hnew].
    destruct (Hassoc a c Hold). split; auto.
  - intros id c Hin. destruct (Hcase' id c Hin) as [Hold|Hnew]; [|exact Hnew].
    apply Hc. exact (Hcase id c Hold).
Qed.

Lemma is_Some_insert {A} (m : gmap string A) (i k : string) (x : A) :
  is_Some (m !! k) -> is_Some (<[i := x]> m !! k).
Proof. intros H. apply lookup_insert_is_Some'. right. exact H. Qed.

(** How each handler can change the database. *)
Lemma register_advocate_db (E : Env) (name email : string) (w : W) :
  db (snd (register_advocate E name email w)) = db w
  \/ (map_Forall (fun (_ : string) a' => Advocate.email a' ≠ email)
        (advocates (db w))
      /\ db (snd (register_advocate E name email w))
         = mkDB (<[uuid_str (uuid4 E 0) := Advocate.mk name email]>
                   (advocates (db w)))
             (clients (db w)) (cases (db w)) (documents (db w))
             (advocate_cases (db w)) (advocate_clients (db w))).
Proof.
  unfold_all. simpl.
  destruct (db_ok E); simpl; [|auto].
  case_bool_decide as Hpk; simpl; [|auto].
  case_bool_decide as Hem; simpl; [|auto].
  right. split; [exact Hem|]. destruct (db_refresh_ok E); reflexivity.
Qed.

Lemma register_client_db (E : Env) (name contact_number address : string)
    (w : W) :
  db (snd (register_client E name contact_number address w)) = db w
  \/ db (snd (register_client E name contact_number address w))
     = mkDB (advocates (db w))
         (<[uuid_str (uuid4 E 0) := Client.mk name contact_number address]>
            (clients (db w)))
         (cases (db w)) (documents (db w))
         (advocate_cases (db w)) (advocate_clients (db w)).
Proof.
  unfold_all. simpl.
  destruct (db_ok E); simpl; [|auto].
  case_bool_decide as Hpk; simpl; [|auto].
  right. destruct (db_refresh_ok E); reflexivity.
Qed.

Lemma register_case_db
    (E : Env) (case_name advocate_id client_id case_type : string)
    (case_description filing_date : option string) (w : W) :
  db (snd (register_case E case_name advocate_id client_id case_type
             case_description filing_date w)) = db w
  \/ exists c,
       Case.client_id c = client_id
       /\ is_Some (advocates (db w) !! advocate_id)
       /\ is_Some (clients (db w) !! client_id)
       /\ db (snd (register_case E case_name advocate_id client_id case_type
                     case_description filing_date w))
          = mkDB (advocates (db w)) (clients (db w))
              (<[uuid_str (uuid4 E 0) := c]> (cases (db w)))
              (documents (db w))
              (advocate_cases (db w) ++ [(advocate_id, uuid_str (uuid4 E 0))])
              (advocate_clients (db w)).
Proof.
  unfold_all.
  destruct (uuid_parse E advocate_id); simpl; [|auto].
  destruct (uuid_parse E client_id); simpl; [|auto].
  destruct (advocates (db w) !! advocate_id) as [a|] eqn:Ha; simpl; [|auto].
  destruct (clients (db w) !! client_id) as [c|] eqn:Hc; simpl; [|auto].
  destruct (db_ok E); simpl; [|auto].
  case_bool_decide as Hpk; simpl; [|auto].
  rewrite !bool_decide_eq_true_2 by (rewrite ?Hc, ?Ha; eauto). simpl.
  right. eexists. split; [|split; [eauto|split; [eauto|]]].
  2: { destruct (db_refresh_ok E); reflexivity. }
  reflexivity.
Qed.

Lemma upload_document_db
    (E : Env) (advocate_id case_id doc_type : string) (w : W) :
  db (snd (upload_document E advocate_id case_id doc_type w)) = db w
  \/ (is_Some (advocates (db w) !! advocate_id)
      /\ is_Some (cases (db w) !! case_id)
      /\ db (snd (upload_document E advocate_id case_id doc_type w))
         = add_document (uuid_str (uuid4 E 1))
             (upload_doc E advocate_id case_id doc_type w) (db w)).
Proof.
  unfold_all.
  destruct (uuid_parse E advocate_id); simpl; [|auto].
  destruct (uuid_parse E case_id); simpl; [|auto].
  destruct (advocates (db w) !! advocate_id) as [a|] eqn:Ha; simpl; [|auto].
  destruct (cases (db w) !! case_id) as [k|] eqn:Hk; simpl; [|auto].
  case_bool_decide as Hperm; simpl; [auto|].
  destruct (validate_file w) as [[[]|e] wv] eqn:Hv;
    apply validate_file_run in Hv; destruct Hv as (p & -> & Hp); simpl;
    [|auto].
  destruct (s3_upload_ok E); simpl; [|auto].
  destruct (db_ok E); simpl; [|auto].
  case_bool_decide as Hpk; simpl; [|auto].
  rewrite !bool_decide_eq_true_2 by eauto. simpl.
  right. split; [eauto|]. split; [eauto|].
  rewrite (Hp tt eq_refl). destruct (db_refresh_ok E); reflexivity.
Qed.

(** X22.  The constraints of the schema survive every handler of [src]:
    after any call, every document still names a stored advocate and a
    stored case, every association row a stored advocate and a stored case,
    every case a stored client, and no two advocates share an email. *)
Theorem main_handlers_keep_store_ok (E : Env) (w : W) :
  store_ok (db w) ->
  (forall name email,
      store_ok (db (snd (register_advocate E name email w))))
  /\ (forall name contact_number address,
        store_ok (db (snd (register_client E name contact_number address w))))
  /\ (forall case_name advocate_id client_id case_type case_description
             filing_date,
        store_ok (db (snd (register_case E case_name advocate_id client_id
                             case_type case_description filing_date w))))
  /\ (forall case_id, store_ok (db (snd (get_case E case_id w))))
  /\ (forall advocate_id case_id doc_type,
        store_ok (db (snd (upload_document E advocate_id case_id doc_type w)))).
Proof.
  intros Hall. pose proof Hall as (Hrefs & Hmail).
  split; [|split; [|split; [|split]]].
  - intros name email.
    destruct (register_advocate_db E name email w) as [->|(Hem & ->)];
      [exact Hall|].
    split.
    + apply (refs_ok_grow (db w)); cbn [advocates clients cases documents
                                          advocate_cases]; auto.
      intros k. apply is_Some_insert.
    + intros i j a1 a2 Hi Hj He. cbn [advocates] in Hi, Hj.
      destruct (decide (uuid_str (uuid4 E 0) = i)) as [<-|Hni];
        destruct (decide (uuid_str (uuid4 E 0) = j)) as [<-|Hnj];
        [reflexivity| | |].
      * rewrite lookup_insert_eq in Hi. injection Hi as <-.
        rewrite lookup_insert_ne in Hj by assumption.
        exfalso. exact (Hem j a2 Hj (eq_sym He)).
      * rewrite lookup_insert_eq in Hj. injection Hj as <-.
        rewrite lookup_insert_ne in Hi by assumption.
        exfalso. exact (Hem i a1 Hi He).
      * rewrite lookup_insert_ne in Hi by assumption.
        rewrite lookup_insert_ne in Hj by assumption.
        exact (Hmail i j a1 a2 Hi Hj He).
  - intros name contact_number address.
    destruct (register_client_db E name contact_number address w) as [->| ->];
      [exact Hall|].
    split; [|exact Hmail].
    apply (refs_ok_grow (db w)); cbn [advocates clients cases documents
                                        advocate_cases]; auto.
    intros k. apply is_Some_insert.
  - intros case_name advocate_id client_id case_type case_description
      filing_date.
    destruct (register_case_db E case_name advocate_id client_id case_type
                case_description filing_date w)
      as [->|(c & Hcl & Ha & Hc & ->)]; [exact Hall|].
    split; [|exact Hmail].
    apply (refs_ok_grow (db w)); cbn [advocates clients cases documents
                                        advocate_cases]; auto.
    + intros k. apply is_Some_insert.
    + intros a k Hin. apply elem_of_app in Hin. destruct Hin as [Hin|Hin];
        [left; exact Hin|right].
      apply elem_of_cons in Hin. destruct Hin as [Hin|Hin].
      * injection Hin as -> ->. split; [exact Ha|].
        rewrite lookup_insert_eq. eauto.
      * apply elem_of_nil in Hin. destruct Hin.
    + intros id k Hk.
      destruct (decide (uuid_str (uuid4 E 0) = id)) as [<-|Hne].
      * rewrite lookup_insert_eq in Hk. injection Hk as <-. right.
        rewrite Hcl. exact Hc.
      * rewrite lookup_insert_ne in Hk by assumption. left. exact Hk.
  - intros case_id. rewrite get_case_world. exact Hall.
  - intros advocate_id case_id doc_type.
    destruct (upload_document_db E advocate_id case_id doc_type w)
      as [->|(Ha & Hk & ->)]; [exact Hall|].
    split; [|exact Hmail].
    apply (refs_ok_grow (db w)); unfold add_document;
      cbn [advocates clients cases documents advocate_cases]; auto.
    intros id doc Hd.
    destruct (decide (uuid_str (uuid4 E 1) = id)) as [<-|Hne].
    + rewrite lookup_insert_eq in Hd. injection Hd as <-. right.
      split; [exact Ha|exact Hk].
    + rewrite lookup_insert_ne in Hd by assumption. left. exact Hd.
Qed.

Lemma main_db_store_ok : store_ok Examples.main_db.
Proof.
  split; [exact main_db_refs_ok|].
  intros i j a1 a2 Hi Hj He.
  unfold Examples.main_db in Hi, Hj. cbn [advocates] in Hi, Hj.
  apply lookup_insert_Some in Hi. apply lookup_insert_Some in Hj.
  destruct Hi as [[<- <-]|[_ Hi]]; destruct Hj as [[<- <-]|[_ Hj]];
    try reflexivity;
    repeat match goal with
           | H : {[ _ := _ ]} !! _ = Some _ |- _ =>
               apply lookup_singleton_Some in H; destruct H as [<- <-]
           end;
    try reflexivity; discriminate He.
Qed.

Lemma main_handlers_keep_store_ok_witness :
  store_ok
    (db (snd (upload_document (Examples.env_ok 7) Examples.id1 Examples.id3
                "evidence" Examples.main_world)))
  /\ store_ok
       (db (snd (register_case (Examples.env_ok 7) "Case2" Examples.id1
                   Examples.id2 "civil" None None Examples.main_world))).
Proof.
  destruct (main_handlers_keep_store_ok (Examples.env_ok 7)
              Examples.main_world main_db_store_ok)
    as (_ & _ & Hc & _ & Hu).
  split; [apply Hu|apply Hc].
Defined.

End MainMore.

(* ===================================================================== *)
(** ** The status codes of the handlers *)
(* ===================================================================== *)

Module StatusFacts.
Import TraceFacts.

Lemma validate_file_status (w : Main.W) :
  http_status (fst (Main.validate_file w)) = 200
  \/ http_status (fst (Main.validate_file w)) = 400
  \/ http_status (fst (Main.validate_file w)) = 500.
Proof.
  destruct (closed (file w)) eqn:Hopen.
  - right. right. unfold Main.validate_file. munfold. rewrite Hopen.
    reflexivity.
  - destruct (Z_le_gt_dec (Main.remaining (file w)) Main.MAX_FILE_SIZE)
      as [Hfit|Hbig].
    + rewrite (SizeFacts.validate_file_within w Hopen Hfit). cbn [fst].
      case_bool_decide; auto.
    + destruct (SizeFacts.validate_file_oversize w Hopen ltac:(lia))
        as (p & Hrun & _).
      rewrite Hrun. auto.
Qed.

(** X23.  The handlers of [src/LexAI] answer 200, 400, 404 or 500 and
    nothing else: [upload_file] never answers 403 or 404, and the two
    registrations never 404.  Queries are taken to succeed; a commit, a
    refresh and a call to S3 may each fail. *)
Theorem lexai_status_codes (E : Env) (w : LexAI.W) :
  (forall adv_id case_id file_type,
      http_status (fst (LexAI.upload_file E adv_id case_id file_type w))
      ∈ [200; 400; 500])
  /\ (forall file_id,
        http_status (fst (LexAI.get_file E file_id w)) ∈ [200; 400; 404; 500])
  /\ (forall file_id,
        http_status (fst (LexAI.delete_file E file_id w))
        ∈ [200; 400; 404; 500])
  /\ (forall name email role,
        http_status (fst (LexAI.register_user E name email role w))
        ∈ [200; 400; 500])
  /\ (forall adv_id case_name,
        http_status (fst (LexAI.register_case E adv_id case_name w))
        ∈ [200; 400; 500]).
Proof.
  assert (H200 : forall l, (200 : Z) ∈ 200 :: l) by (intros; left).
  assert (H400 : forall l, (400 : Z) ∈ 200 :: 400 :: l)
    by (intros; right; left).
  assert (H404 : (404 : Z) ∈ [200; 400; 404; 500])
    by (right; right; left).
  assert (H500 : (500 : Z) ∈ [200; 400; 500]) by (right; right; left).
  assert (H500' : (500 : Z) ∈ [200; 400; 404; 500])
    by (right; right; right; left).
  split; [|split; [|split; [|split]]].
  - intros adv_id case_id file_type. LexAIMore.unfold_all.
    case_bool_decide; simpl; [|apply H400].
    destruct (closed (file w)); simpl; [apply H500|].
    destruct (s3_upload_ok E); simpl; [|apply H500].
    destruct (uuid_parse E case_id); simpl; [|apply H400].
    destruct (uuid_parse E adv_id); simpl; [|apply H400].
    destruct (db_ok E && _); simpl; [|apply H500].
    destruct (db_refresh_ok E); simpl; [apply H200|apply H500].
  - intros file_id. LexAIMore.unfold_all.
    destruct (uuid_parse E file_id) as [u|]; simpl; [|apply H400].
    destruct (LexAI.files (db w) !! uuid_bind E u) as [r|]; simpl; [|apply H404].
    destruct (LexAI.FileMetadata.is_deleted r); simpl; [apply H404|].
    destruct (s3_presign E _) as [url|]; simpl; [|apply H500'].
    destruct (String.eqb url ""); simpl; [apply H500'|apply H200].
  - intros file_id. LexAIMore.unfold_all.
    destruct (uuid_parse E file_id) as [u|]; simpl; [|apply H400].
    destruct (LexAI.files (db w) !! uuid_bind E u) as [r|]; simpl; [|apply H404].
    destruct (LexAI.FileMetadata.is_deleted r); simpl; [apply H404|].
    destruct (s3_delete_ok E); simpl; [|apply H500'].
    destruct (db_ok E); simpl; [apply H200|apply H500'].
  - intros name email role. LexAIMore.unfold_all. simpl.
    destruct (db_ok E && _ && _); simpl; [|apply H400].
    destruct (db_refresh_ok E); simpl; [apply H200|apply H500].
  - intros adv_id case_name. LexAIMore.unfold_all.
    destruct (uuid_parse E adv_id); simpl; [|apply H400].
    destruct (db_ok E && _); simpl; [|apply H400].
    destruct (db_refresh_ok E); simpl; [apply H200|apply H500].
Qed.

(** X24.  The handlers of [src] answer 200, 400, 403, 404 or 500 and nothing
    else: the three registrations answer only 200 or 400, and 403 comes from
    [upload_document] alone.  Queries are taken to succeed; a commit, a
    refresh and a call to S3 may each fail. *)
Theorem main_status_codes (E : Env) (w : Main.W) :
  (forall advocate_id case_id doc_type,
      http_status (fst (Main.upload_document E advocate_id case_id doc_type w))
      ∈ [200; 400; 403; 404; 500])
  /\ (forall case_id,
        http_status (fst (Main.get_case E case_id w)) ∈ [200; 400; 404])
  /\ (forall name email,
        http_status (fst (Main.register_advocate E name email w))
        ∈ [200; 400])
  /\ (forall name contact_number address,
        http_status
          (fst (Main.register_client E name contact_number address w))
        ∈ [200; 400])
  /\ (forall case_name advocate_id client_id case_type case_description
             filing_date,
        http_status
          (fst (Main.register_case E case_name advocate_id client_id case_type
                  case_description filing_date w))
        ∈ [200; 400]).
Proof.
  assert (H200 : forall l, (200 : Z) ∈ 200 :: l) by (intros; left).
  assert (H400 : forall l, (400 : Z) ∈ 200 :: 400 :: l)
    by (intros; right; left).
  assert (H403 : (403 : Z) ∈ [200; 400; 403; 404; 500])
    by (repeat constructor).
  assert (H404 : (404 : Z) ∈ [200; 400; 403; 404; 500])
    by (repeat constructor).
  assert (H500 : (500 : Z) ∈ [200; 400; 403; 404; 500])
    by (repeat constructor).
  split; [|split; [|split; [|split]]].
  - intros advocate_id case_id doc_type. MainMore.unfold_all.
    destruct (uuid_parse E advocate_id); simpl; [|apply H400].
    destruct (uuid_parse E case_id); simpl; [|apply H400].
    destruct (Main.advocates (db w) !! advocate_id); simpl; [|apply H404].
    destruct (Main.cases (db w) !! case_id); simpl; [|apply H404].
    case_bool_decide; simpl; [apply H403|].
    pose proof (validate_file_status w) as Hst.
    destruct (Main.validate_file w) as [[[]|e] wv] eqn:Hv; simpl in *.
    + destruct (s3_upload_ok E); simpl; [|apply H500].
      destruct (db_ok E && _ && _ && _); simpl; [|apply H400].
      destruct (db_refresh_ok E); simpl; [apply H200|apply H400].
    + destruct Hst as [Hst|[Hst|Hst]]; rewrite Hst;
        [apply H200|apply H400|apply H500].
  - intros case_id. MainMore.unfold_all.
    destruct (uuid_parse E case_id); simpl; [|apply H400].
    destruct (Main.cases (db w) !! case_id); simpl;
      [apply H200|repeat constructor].
  - intros name email. MainMore.unfold_all. simpl.
    destruct (db_ok E && _ && _); simpl; [|apply H400].
    destruct (db_refresh_ok E); simpl; [apply H200|apply H400].
  - intros name contact_number address. MainMore.unfold_all. simpl.
    destruct (db_ok E && _); simpl; [|apply H400].
    destruct (db_refresh_ok E); simpl; [apply H200|apply H400].
  - intros case_name advocate_id client_id case_type case_description
      filing_date. MainMore.unfold_all.
    destruct (uuid_parse E advocate_id); simpl; [|apply H400].
    destruct (uuid_parse E client_id); simpl; [|apply H400].
    destruct (Main.advocates (db w) !! advocate_id); simpl; [|apply H400].
    destruct (Main.clients (db w) !! client_id); simpl; [|apply H400].
    destruct (db_ok E && _ && _ && _); simpl; [|apply H400].
    destruct (db_refresh_ok E); simpl; [apply H200|apply H400].
Qed.

End StatusFacts.

(* ===================================================================== *)
(** ** The characterisations on the example stores *)
(* ===================================================================== *)

Module MoreExamples.

Lemma upload_file_returns_witness :
  fst (LexAI.upload_file (Examples.env_ok 7) Examples.id1 Examples.id3
         "petition" Examples.lexai_world)
  = Return (LexAI.mkUploadResult "File uploaded successfully"
              "00000000-0000-0000-0000-000000000007"
              "https://lexai-docs.s3.amazonaws.com/02c20b1c-7325-40cc-92dc-35d33de9208f/ac965b3d-5ab4-4c41-8268-709b6a17c281/petition/example.txt").
Proof.
  destruct (LexAIMore.upload_file_returns_iff (Examples.env_ok 7) Examples.id1
              Examples.id3 "petition" Examples.lexai_world) as [_ Hrun].
  rewrite (Hrun 0xac965b3d5ab44c418268709b6a17c281%N
             0x02c20b1c732540cc92dc35d33de9208f%N).
  - vm_compute. reflexivity.
  - unfold LexAI.upload_file_accepts.
    split; [apply list_elem_of_In; vm_compute; left; reflexivity|].
    split; [reflexivity|]. split; [reflexivity|].
    split; [vm_compute; reflexivity|]. split; [vm_compute; reflexivity|].
    split; [reflexivity|]. split; [vm_compute; reflexivity|reflexivity].
Defined.

Lemma upload_document_returns_witness :
  exists r,
    fst (Main.upload_document (Examples.env_ok 7) Examples.id1 Examples.id3
           "evidence" Examples.main_world) = Return r.
Proof.
  apply (proj1 (MainMore.upload_document_returns_iff (Examples.env_ok 7)
                  Examples.id1 Examples.id3 "evidence" Examples.main_world)).
  unfold Main.upload_document_accepts.
  split; [vm_compute; eauto|]. split; [vm_compute; eauto|].
  split; [vm_compute; eauto|]. split; [vm_compute; eauto|].
  split; [apply list_elem_of_In; vm_compute; left; reflexivity|].
  split; [exact MainMore.main_world_validates|].
  split; [reflexivity|]. split; [reflexivity|].
  split; [vm_compute; reflexivity|reflexivity].
Defined.

Lemma get_case_read_only_witness :
  fst (Main.get_case (Examples.env_ok 7) Examples.id4 Examples.main_world)
  = Raise (HTTPException 404 (Lit "Case not found")).
Proof.
  destruct (MainMore.get_case_read_only (Examples.env_ok 7) Examples.id4
              Examples.main_world) as (_ & _ & H).
  apply H.
  - vm_compute. eauto.
  - vm_compute. reflexivity.
Defined.

End MoreExamples.
